(** * Stratum v2 Template Provider: a shallow embedding and its properties

    The development follows [src/common/sv2_noise.h] (constants and the
    symmetric state of the Noise handshake) and
    [src/node/sv2_template_provider.cpp] (the template scheduler, the frame
    decoder and the client protocol state machine).

    Conventions.
    - Bytes are integers in [0, 256); byte strings are [list Z].
    - Fixed-width integers are [Z] with the wrap-around written out
      ([wrap_u32], [wrap_u64], [wrap_i64]).
    - The block cache ([std::map<uint64_t, std::unique_ptr<CBlockTemplate>>])
      is a [gmap Z CBlockTemplate].
    - What the translation unit receives from the rest of the node (the block
      assembler, the chain manager, the Merkle root, the message decoders of
      [common/sv2_messages.h], the AEAD of the Noise session, the socket) is
      gathered in a [Section] as variables. *)

From Stdlib Require Import ZArith List Lia Bool String.
From stdpp Require Import base option list gmap.

Local Open Scope Z_scope.

(** ** Fixed-width arithmetic *)

Definition wrap_u32 (z : Z) : Z := z mod 2 ^ 32.
Definition wrap_u64 (z : Z) : Z := z mod 2 ^ 64.
(** [int64_t] in two's complement, as compiled. *)
Definition wrap_i64 (z : Z) : Z := (z + 2 ^ 63) mod 2 ^ 64 - 2 ^ 63.

Definition INT64_MIN : Z := - 2 ^ 63.
Definition INT64_MAX : Z := 2 ^ 63 - 1.
Definition in_i64 (z : Z) : Prop := INT64_MIN <= z <= INT64_MAX.

Lemma wrap_i64_id z : in_i64 z -> wrap_i64 z = z.
Proof.
  unfold in_i64, INT64_MIN, INT64_MAX, wrap_i64. intros H.
  rewrite Z.mod_small; lia.
Qed.

Lemma wrap_u64_id z : 0 <= z < 2 ^ 64 -> wrap_u64 z = z.
Proof. intros H. unfold wrap_u64. apply Z.mod_small. exact H. Qed.

(** ** SHA-256 *)

Module SHA256.

(** FIPS 180-4 SHA-256 on byte strings, with 32-bit words as [Z]. *)

Definition w32 (x : Z) : Z := x mod 2 ^ 32.
Definition add32 (x y : Z) : Z := w32 (x + y).
Definition rotr (n x : Z) : Z :=
  Z.lor (Z.shiftr x n) (w32 (Z.shiftl x (32 - n))).
Definition not32 (x : Z) : Z := Z.lxor x (2 ^ 32 - 1).

Definition Ch (x y z : Z) : Z := Z.lxor (Z.land x y) (Z.land (not32 x) z).
Definition Maj (x y z : Z) : Z :=
  Z.lxor (Z.lxor (Z.land x y) (Z.land x z)) (Z.land y z).
Definition Sigma0 (x : Z) : Z :=
  Z.lxor (Z.lxor (rotr 2 x) (rotr 13 x)) (rotr 22 x).
Definition Sigma1 (x : Z) : Z :=
  Z.lxor (Z.lxor (rotr 6 x) (rotr 11 x)) (rotr 25 x).
Definition sigma0 (x : Z) : Z :=
  Z.lxor (Z.lxor (rotr 7 x) (rotr 18 x)) (Z.shiftr x 3).
Definition sigma1 (x : Z) : Z :=
  Z.lxor (Z.lxor (rotr 17 x) (rotr 19 x)) (Z.shiftr x 10).

(** The constants come from the primes (sections 4.2.2 and 5.3.3): the
    first 32 bits of the fractional parts of the cube roots of the first 64
    primes, and of the square roots of the first 8. *)

(** The largest [r] below [2 ^ bits] with [r ^ k <= n], one bit at a time. *)
Fixpoint root_bits (k : Z) (bits : nat) (n r : Z) : Z :=
  match bits with
  | O => r
  | S b =>
      let c := r + 2 ^ Z.of_nat b in
      root_bits k b n (if c ^ k <=? n then c else r)
  end.

Definition frac32_root (k p : Z) : Z :=
  root_bits k 40 (p * 2 ^ (32 * k)) 0 mod 2 ^ 32.

Definition is_prime (n : Z) : bool :=
  (1 <? n) && forallb (fun d => negb (n mod Z.of_nat d =? 0)) (seq 2 (Z.to_nat n - 2)).

Definition primes (count : nat) : list Z :=
  firstn count (List.filter is_prime (map Z.of_nat (seq 2 400))).

Definition K : list Z := map (frac32_root 3) (primes 64).

Definition H_init : list Z := map (frac32_root 2) (primes 8).

Example K_ends : nth 0 K 0 = 0x428a2f98 /\ nth 63 K 0 = 0xc67178f2.
Proof. vm_compute. split; reflexivity. Qed.

Example H_init_ends : nth 0 H_init 0 = 0x6a09e667 /\ nth 7 H_init 0 = 0x5be0cd19.
Proof. vm_compute. split; reflexivity. Qed.

(** Big-endian encodings. *)
Fixpoint be_bytes (n : nat) (x : Z) : list Z :=
  match n with
  | O => []
  | S n' => (Z.shiftr x (8 * Z.of_nat n')) mod 256 :: be_bytes n' x
  end.

Definition be_word (bs : list Z) : Z :=
  fold_left (fun acc b => acc * 256 + b) bs 0.

(** Padding (section 5.1.1): a 1 bit, zeros up to 56 mod 64, and the
    length in bits on 8 bytes. *)
Definition pad (msg : list Z) : list Z :=
  let len := Z.of_nat (length msg) in
  let zeros := Z.to_nat ((55 - len) mod 64) in
  msg ++ [0x80] ++ repeat 0 zeros ++ be_bytes 8 (8 * len).

Fixpoint chunks {A} (fuel size : nat) (l : list A) : list (list A) :=
  match fuel with
  | O => []
  | S fuel' =>
      match l with
      | [] => []
      | _ => firstn size l :: chunks fuel' size (skipn size l)
      end
  end.

Definition words_of_block (blk : list Z) : list Z :=
  map be_word (chunks 16 4 blk).

(** The message schedule, kept in reverse: the head is the newest word. *)
Fixpoint schedule_rev (n : nat) (rev_w : list Z) : list Z :=
  match n with
  | O => rev_w
  | S n' =>
      let at_back k := nth k rev_w 0 in
      let wt :=
        add32 (add32 (sigma1 (at_back 1%nat)) (at_back 6%nat))
              (add32 (sigma0 (at_back 14%nat)) (at_back 15%nat)) in
      schedule_rev n' (wt :: rev_w)
  end.

Definition schedule (blk : list Z) : list Z :=
  rev (schedule_rev 48 (rev (words_of_block blk))).

Record regs := Regs { ra : Z; rb : Z; rc : Z; rd : Z;
                      re : Z; rf : Z; rg : Z; rh : Z }.

Definition round (r : regs) (kw : Z * Z) : regs :=
  let '(k, w) := kw in
  let t1 := add32 (add32 (add32 (add32 (rh r) (Sigma1 (re r)))
                                (Ch (re r) (rf r) (rg r))) k) w in
  let t2 := add32 (Sigma0 (ra r)) (Maj (ra r) (rb r) (rc r)) in
  Regs (add32 t1 t2) (ra r) (rb r) (rc r) (add32 (rd r) t1) (re r) (rf r) (rg r).

Definition regs_of (h : list Z) : regs :=
  Regs (nth 0 h 0) (nth 1 h 0) (nth 2 h 0) (nth 3 h 0)
       (nth 4 h 0) (nth 5 h 0) (nth 6 h 0) (nth 7 h 0).

Definition list_of (r : regs) : list Z :=
  [ra r; rb r; rc r; rd r; re r; rf r; rg r; rh r].

Definition compress (h : list Z) (blk : list Z) : list Z :=
  let r := fold_left round (combine K (schedule blk)) (regs_of h) in
  map (fun p => add32 (fst p) (snd p)) (combine h (list_of r)).

(** Modelled from the spec: the hash function the specification calls
    SHA256, from [crypto/sha256.h], which is not among the sources: FIPS
    180-4 SHA-256 of a byte string, as 32 bytes. *)
Definition hash (msg : list Z) : list Z :=
  let padded := pad msg in
  let blocks := chunks (length padded) 64 padded in
  flat_map (be_bytes 4) (fold_left compress blocks H_init).

(** FIPS 180-4 test vector: SHA-256("abc"). *)
Example hash_abc :
  hash [97; 98; 99] =
  [ 0xba; 0x78; 0x16; 0xbf; 0x8f; 0x01; 0xcf; 0xea;
    0x41; 0x41; 0x40; 0xde; 0x5d; 0xae; 0x22; 0x23;
    0xb0; 0x03; 0x61; 0xa3; 0x96; 0x17; 0x7a; 0x9c;
    0xb4; 0x10; 0xff; 0x61; 0xf2; 0x00; 0x15; 0xad ].
Proof. vm_compute. reflexivity. Qed.

(** The empty message. *)
Example hash_empty :
  hash [] =
  [ 0xe3; 0xb0; 0xc4; 0x42; 0x98; 0xfc; 0x1c; 0x14;
    0x9a; 0xfb; 0xf4; 0xc8; 0x99; 0x6f; 0xb9; 0x24;
    0x27; 0xae; 0x41; 0xe4; 0x64; 0x9b; 0x93; 0x4c;
    0xa4; 0x95; 0x99; 0x1b; 0x78; 0x52; 0xb8; 0x55 ].
Proof. vm_compute. reflexivity. Qed.

End SHA256.

(** ** Noise constants and the symmetric state ([common/sv2_noise.h]) *)

Module Noise.

Definition POLY1305_TAGLEN : Z := 16.
Definition KEY_SIZE : Z := 32.
Definition ELLSWIFT_KEY_SIZE : Z := 64.
Definition ECDH_OUTPUT_SIZE : Z := 32.
Definition NOISE_MAX_CHUNK_SIZE : Z := 65535.
Definition SIGNATURE_NOISE_MESSAGE_SIZE : Z := 2 + 4 + 4 + 64.
Definition INITIATOR_EXPECTED_HANDSHAKE_MESSAGE_LENGTH : Z :=
  ELLSWIFT_KEY_SIZE + ELLSWIFT_KEY_SIZE + POLY1305_TAGLEN
  + SIGNATURE_NOISE_MESSAGE_SIZE + POLY1305_TAGLEN.

Definition PROTOCOL_NAME : string := "Noise_NX_EllSwiftXonly_ChaChaPoly_SHA256".

Definition ascii_bytes (s : string) : list Z :=
  map (fun a => Z.of_N (Ascii.N_of_ascii a)) (list_ascii_of_string s).

Definition PROTOCOL_NAME_HASH : list Z :=
  [ 27; 97; 156; 90; 248; 120; 254; 68; 34; 119; 45; 129; 209; 41; 152; 82;
    26; 137; 97; 115; 62; 44; 177; 60; 145; 24; 250; 214; 68; 188; 1; 128 ].

Definition PROTOCOL_NAME_DOUBLE_HASH : list Z :=
  [ 60; 102; 112; 143; 69; 248; 185; 34; 53; 193; 3; 46; 250; 104; 70; 171;
    139; 103; 55; 191; 199; 9; 77; 179; 99; 170; 7; 240; 219; 36; 226; 71 ].

Record Sv2CipherState := mkCipherState {
  m_key : list Z;          (* uint8_t m_key[KEY_SIZE] *)
  m_nonce : Z              (* uint64_t m_nonce = 0 *)
}.

Record Sv2SymmetricState := mkSymmetricState {
  m_chaining_key : list Z; (* uint8_t m_chaining_key[KEY_SIZE] *)
  m_hash_output : list Z;  (* uint256 m_hash_output *)
  m_cipher_state : Sv2CipherState
}.

(** [std::memcpy(dst, src, n)] on arrays given by their contents. *)
Definition memcpy (dst src : list Z) (n : nat) : list Z :=
  firstn n src ++ skipn n dst.

(** An array of [n] bytes whose storage holds [content]. *)
Definition array_of (n : Z) (content : nat -> Z) : list Z :=
  map content (seq 0 (Z.to_nat n)).

(** The constructor [Sv2SymmetricState()].  The arrays [m_chaining_key]
    and [m_key] have no initializer: [uninit_ck] and [uninit_key] are
    whatever the storage held. *)
Definition Sv2SymmetricState_new (uninit_ck uninit_key : nat -> Z) : Sv2SymmetricState :=
  {| m_chaining_key :=
       memcpy (array_of KEY_SIZE uninit_ck) PROTOCOL_NAME_HASH (length PROTOCOL_NAME_HASH);
     m_hash_output := PROTOCOL_NAME_DOUBLE_HASH;
     m_cipher_state := {| m_key := array_of KEY_SIZE uninit_key; m_nonce := 0 |} |}.

(** Modelled from the spec: [Sv2Cipher::EncryptedMessageSize], declared in
    the header and defined in [common/sv2_noise.cpp], which is not among
    the sources: plain_len + 16 * ceil(plain_len / 65535). *)
Definition EncryptedMessageSize (msg_len : Z) : Z :=
  msg_len + POLY1305_TAGLEN * ((msg_len + NOISE_MAX_CHUNK_SIZE - 1) / NOISE_MAX_CHUNK_SIZE).

End Noise.

(** ** Data of the template provider *)

(** [CTxIn]: only the witness stack is looked at by this translation unit. *)
Record CTxIn := mkTxIn {
  scriptWitness : list (list Z)        (* CScriptWitness::stack *)
}.

Record CTransaction := mkTx {
  vin : list CTxIn;
  tx_rest : list Z                     (* version, outputs, lock time *)
}.

(** [CBlock], header fields inlined. *)
Record CBlock := mkBlock {
  nVersion : Z;
  hashPrevBlock : Z;
  hashMerkleRoot : Z;
  nTime : Z;
  nBits : Z;
  nNonce : Z;
  vtx : list CTransaction
}.

Record CBlockTemplate := mkTemplate {
  block : CBlock;
  vTxFees : list Z                     (* std::vector<CAmount> *)
}.

(** Messages the template provider receives, once decoded. *)
Record Sv2SetupConnectionMsg := mkSetupConnection {
  m_protocol : Z;
  m_min_version : Z;
  m_max_version : Z;
  m_flags : Z
}.

Record Sv2CoinbaseOutputDataSizeMsg := mkCoinbaseOutputDataSize {
  m_coinbase_output_max_additional_size : Z
}.

Record Sv2SubmitSolutionMsg := mkSubmitSolution {
  sol_template_id : Z;
  m_version : Z;
  m_header_timestamp : Z;
  m_header_nonce : Z;
  m_coinbase_tx : CTransaction
}.

Record Sv2RequestTransactionDataMsg := mkRequestTransactionData {
  req_template_id : Z
}.

(** Messages the template provider sends. *)
Inductive Sv2Msg : Type :=
| Sv2SetupConnectionSuccessMsg (used_version flags : Z)
| Sv2SetupConnectionErrorMsg (flags : Z) (error_code : string)
| Sv2NewTemplateMsg (header_of : CBlock) (template_id : Z) (future_template : bool)
| Sv2SetNewPrevHashMsg (header_of : CBlock) (template_id : Z)
| Sv2RequestTransactionDataSuccessMsg
    (template_id : Z) (excess_data : list Z) (transactions_list : list CTransaction)
| Sv2RequestTransactionDataErrorMsg (template_id : Z) (error_code : string).

(** A frame as it comes out of the decoder. *)
Record Sv2NetHeader := mkHeader {
  m_msg_type : Z;                      (* Sv2MsgType, one byte *)
  m_msg_len : Z                        (* u24 *)
}.

Record Sv2NetMsg := mkNetMsg {
  m_sv2_header : Sv2NetHeader;
  m_msg : list Z
}.

(** Modelled from the spec: the tags of [Sv2MsgType], the sub-protocol
    number, the two header sizes ([common/sv2_messages.h]) and the consensus
    constant [MAX_BLOCK_WEIGHT] ([consensus/consensus.h]); none of these
    headers is among the sources. *)
Definition SETUP_CONNECTION : Z := 0x00.
Definition COINBASE_OUTPUT_DATA_SIZE : Z := 0x70.
Definition SUBMIT_SOLUTION : Z := 0x60.
Definition REQUEST_TRANSACTION_DATA : Z := 0x73.
Definition TP_SUBPROTOCOL : Z := 0x02.
Definition SV2_HEADER_PLAIN_SIZE : Z := 6.
Definition SV2_HEADER_ENCRYPTED_SIZE : Z := 22.
Definition MAX_BLOCK_WEIGHT : Z := 4000000.

(** Modelled from the spec: [Sv2NetHeader::Unserialize]: exactly six bytes,
    [extension_type] u16 LE, [msg_type] u8, [msg_length] u24 LE.  [None]
    stands for the stream running out of bytes, which throws. *)
Definition Sv2NetHeader_Unserialize (bs : list Z) : option Sv2NetHeader :=
  match bs with
  | _ :: _ :: ty :: l0 :: l1 :: l2 :: _ =>
      Some {| m_msg_type := ty mod 256;
              m_msg_len := l0 mod 256 + 256 * (l1 mod 256) + 65536 * (l2 mod 256) |}
  | _ => None
  end.

(** What a handler leaves behind: a new state, or nothing the language
    defines ([operator[]] past the end of a [std::vector]). *)
Inductive outcome (A : Type) : Type :=
| Done (a : A)
| Undefined.
Arguments Done {A} a.
Arguments Undefined {A}.

(** The fee total of [SendWork]: the loop over [vTxFees] that skips the
    negative entries, with [int64_t] addition. *)
Definition sum_fees_from (fees : Z) (vTxFees : list Z) : Z :=
  fold_left (fun acc fee => if fee <? 0 then acc else wrap_i64 (acc + fee)) vTxFees fees.

(** The sum the loop is meant to compute, over the integers. *)
Definition nonneg_total (vTxFees : list Z) : Z :=
  fold_right Z.add 0 (filter (fun fee => 0 <= fee) vTxFees).

(** ** The template provider ([node/sv2_template_provider.cpp]) *)

Section TemplateProvider.

(** The chain state manager and the mempool, as far as this translation
    unit calls them. *)
Context {Chain : Type}.
(** [BlockAssembler(chainstate, &mempool, options).CreateNewBlock(CScript())],
    as a function of [options.nBlockMaxWeight]. *)
Variable CreateNewBlock : Chain -> Z -> CBlockTemplate.
(** [m_chainman.ProcessNewBlock(blockptr, true, true, &new_block)]. *)
Variable ProcessNewBlock : Chain -> CBlock -> Chain.
(** [BlockMerkleRoot(block)] of [consensus/merkle.h]. *)
Variable BlockMerkleRoot : CBlock -> Z.
(** [block.IsNull()], the test of [CBlockHeader] in [primitives/block.h]. *)
Variable IsNull : CBlock -> bool.
(** The global [g_best_block] and [m_mempool.GetTransactionsUpdated()]. *)
Variable g_best_block : Chain -> Z.
Variable GetTransactionsUpdated : Chain -> Z.

(** The Noise session of a client in transport state.  [DecryptMessage]
    is handed the bytes of a span and answers with the plaintext it leaves
    at the front of the span, or [None] when a MAC does not verify;
    [EncryptMessage] only moves the session on. *)
Context {Cipher : Type}.
Variable DecryptMessage : Cipher -> list Z -> Cipher * option (list Z).
Variable EncryptMessage : Cipher -> Sv2Msg -> Cipher.

(** [SendBuf]: whether the whole frame got written to the socket, given
    what was written before ([false]: [Send] raised). *)
Variable SendBuf : list Sv2Msg -> Sv2Msg -> bool.

(** [ss >> msg] for the four client messages; [None] when it throws. *)
Variable Unserialize_SetupConnection : list Z -> option Sv2SetupConnectionMsg.
Variable Unserialize_CoinbaseOutputDataSize : list Z -> option Sv2CoinbaseOutputDataSizeMsg.
Variable Unserialize_SubmitSolution : list Z -> option Sv2SubmitSolutionMsg.
Variable Unserialize_RequestTransactionData : list Z -> option Sv2RequestTransactionDataMsg.

(** [Sv2Client].  [m_sock] is the socket seen from the client's end: the
    frames written to it, oldest first. *)
Record Sv2Client := mkClient {
  m_sock : list Sv2Msg;
  m_noise : Cipher;
  m_disconnect_flag : bool;
  m_setup_connection_confirmed : bool;
  m_coinbase_output_data_size_recv : bool;
  m_coinbase_tx_outputs_size : Z;              (* unsigned int *)
  m_latest_submitted_template_fees : Z         (* int64_t *)
}.

Definition set_disconnect_flag (v : bool) (c : Sv2Client) : Sv2Client :=
  mkClient (m_sock c) (m_noise c) v (m_setup_connection_confirmed c)
           (m_coinbase_output_data_size_recv c) (m_coinbase_tx_outputs_size c)
           (m_latest_submitted_template_fees c).
Definition set_setup_connection_confirmed (v : bool) (c : Sv2Client) : Sv2Client :=
  mkClient (m_sock c) (m_noise c) (m_disconnect_flag c) v
           (m_coinbase_output_data_size_recv c) (m_coinbase_tx_outputs_size c)
           (m_latest_submitted_template_fees c).
Definition set_coinbase_output_data_size_recv (v : bool) (c : Sv2Client) : Sv2Client :=
  mkClient (m_sock c) (m_noise c) (m_disconnect_flag c) (m_setup_connection_confirmed c)
           v (m_coinbase_tx_outputs_size c) (m_latest_submitted_template_fees c).
Definition set_coinbase_tx_outputs_size (v : Z) (c : Sv2Client) : Sv2Client :=
  mkClient (m_sock c) (m_noise c) (m_disconnect_flag c) (m_setup_connection_confirmed c)
           (m_coinbase_output_data_size_recv c) v (m_latest_submitted_template_fees c).
Definition set_latest_submitted_template_fees (v : Z) (c : Sv2Client) : Sv2Client :=
  mkClient (m_sock c) (m_noise c) (m_disconnect_flag c) (m_setup_connection_confirmed c)
           (m_coinbase_output_data_size_recv c) (m_coinbase_tx_outputs_size c) v.
Definition set_noise (v : Cipher) (c : Sv2Client) : Sv2Client :=
  mkClient (m_sock c) v (m_disconnect_flag c) (m_setup_connection_confirmed c)
           (m_coinbase_output_data_size_recv c) (m_coinbase_tx_outputs_size c)
           (m_latest_submitted_template_fees c).
Definition set_sock (v : list Sv2Msg) (c : Sv2Client) : Sv2Client :=
  mkClient v (m_noise c) (m_disconnect_flag c) (m_setup_connection_confirmed c)
           (m_coinbase_output_data_size_recv c) (m_coinbase_tx_outputs_size c)
           (m_latest_submitted_template_fees c).

(** The members of [Sv2TemplateProvider] other than the client list. *)
Record Sv2TemplateProvider := mkTP {
  m_chain : Chain;                             (* m_chainman, m_mempool *)
  m_template_id : Z;                           (* uint64_t *)
  m_block_cache : gmap Z CBlockTemplate;
  m_minimum_fee_delta : Z;                     (* CAmount *)
  m_protocol_version : Z;                      (* uint16_t *)
  m_optional_features : Z;
  m_best_prev_hash : Z
}.

Definition set_chain (v : Chain) (tp : Sv2TemplateProvider) : Sv2TemplateProvider :=
  mkTP v (m_template_id tp) (m_block_cache tp) (m_minimum_fee_delta tp)
       (m_protocol_version tp) (m_optional_features tp) (m_best_prev_hash tp).
Definition set_template_id (v : Z) (tp : Sv2TemplateProvider) : Sv2TemplateProvider :=
  mkTP (m_chain tp) v (m_block_cache tp) (m_minimum_fee_delta tp)
       (m_protocol_version tp) (m_optional_features tp) (m_best_prev_hash tp).
Definition set_block_cache (v : gmap Z CBlockTemplate) (tp : Sv2TemplateProvider)
  : Sv2TemplateProvider :=
  mkTP (m_chain tp) (m_template_id tp) v (m_minimum_fee_delta tp)
       (m_protocol_version tp) (m_optional_features tp) (m_best_prev_hash tp).
Definition set_best_prev_hash (v : Z) (tp : Sv2TemplateProvider) : Sv2TemplateProvider :=
  mkTP (m_chain tp) (m_template_id tp) (m_block_cache tp) (m_minimum_fee_delta tp)
       (m_protocol_version tp) (m_optional_features tp) v.

(** [std::map::insert]: an existing key keeps its value. *)
Definition map_insert (k : Z) (v : CBlockTemplate) (m : gmap Z CBlockTemplate)
  : gmap Z CBlockTemplate :=
  match m !! k with
  | Some _ => m
  | None => <[k := v]> m
  end.

(** *** EncryptAndSendMessage *)

Definition EncryptAndSendMessage (client : Sv2Client) (net_msg : Sv2Msg)
  : bool * Sv2Client :=
  let client := set_noise (EncryptMessage (m_noise client) net_msg) client in
  if SendBuf (m_sock client) net_msg
  then (true, set_sock (m_sock client ++ [net_msg]) client)
  else (false, client).

(** *** BuildNewWorkSet and SendWork *)

Record NewWorkSet := mkWorkSet {
  new_template : Sv2Msg;
  block_template : CBlockTemplate;
  prev_hash : Sv2Msg
}.

Definition BuildNewWorkSet (tp : Sv2TemplateProvider) (future_template : bool)
           (coinbase_output_max_additional_size : Z) : NewWorkSet :=
  let nBlockMaxWeight := wrap_u32 (MAX_BLOCK_WEIGHT - coinbase_output_max_additional_size) in
  let blocktemplate := CreateNewBlock (m_chain tp) nBlockMaxWeight in
  {| new_template := Sv2NewTemplateMsg (block blocktemplate) (m_template_id tp) future_template;
     block_template := blocktemplate;
     prev_hash := Sv2SetNewPrevHashMsg (block blocktemplate) (m_template_id tp) |}.

Definition SendWork (tp : Sv2TemplateProvider) (client : Sv2Client)
           (send_new_prevhash : bool) : bool * Sv2TemplateProvider * Sv2Client :=
  let tp := set_template_id (wrap_u64 (m_template_id tp + 1)) tp in
  let new_work_set := BuildNewWorkSet tp send_new_prevhash (m_coinbase_tx_outputs_size client) in
  let fees := sum_fees_from 0 (vTxFees (block_template new_work_set)) in
  if negb send_new_prevhash
     && (wrap_i64 (m_latest_submitted_template_fees client + m_minimum_fee_delta tp) >? fees)
  then (true, tp, client)
  else
    let tp := set_block_cache
                (map_insert (m_template_id tp) (block_template new_work_set) (m_block_cache tp))
                tp in
    match EncryptAndSendMessage client (new_template new_work_set) with
    | (false, client) => (false, tp, client)
    | (true, client) =>
        if send_new_prevhash then
          match EncryptAndSendMessage client (prev_hash new_work_set) with
          | (false, client) => (false, tp, client)
          | (true, client) => (true, tp, set_latest_submitted_template_fees fees client)
          end
        else (true, tp, set_latest_submitted_template_fees fees client)
    end.

(** *** ProcessSv2Message *)

(** The witness reserve value of [RequestTransactionData]: the copy of
    [block.vtx[0]->vin[0].scriptWitness.stack[0]], guarded by
    [block.IsNull()] and [scriptWitness.IsNull()] only. *)
Definition witness_reserve_value_of (b : CBlock) : outcome (list Z) :=
  if negb (IsNull b) then
    match vtx b with
    | [] => Undefined                               (* block.vtx[0] *)
    | coinbase :: _ =>
        match vin coinbase with
        | [] => Undefined                           (* vin[0] *)
        | txin :: _ =>
            match scriptWitness txin with
            | [] => Done []                         (* scriptWitness.IsNull() *)
            | stack0 :: _ => Done stack0
            end
        end
    end
  else Done [].

(** [std::copy(block.vtx.begin() + 1, block.vtx.end(), ...)] under
    [block.vtx.size() > 0]. *)
Definition txs_of (b : CBlock) : list CTransaction :=
  match vtx b with
  | [] => []
  | _ :: rest => rest
  end.

(** The block of [SubmitSolution] once the coinbase and the header
    fields are written into the cached block. *)
Definition solved_block (b : CBlock) (s : Sv2SubmitSolutionMsg) : CBlock :=
  let vtx' := match vtx b with
              | [] => [m_coinbase_tx s]             (* push_back(cb) *)
              | _ :: rest => m_coinbase_tx s :: rest (* vtx[0] = cb *)
              end in
  let b' := mkBlock (m_version s) (hashPrevBlock b) (hashMerkleRoot b)
                    (m_header_timestamp s) (nBits b) (m_header_nonce s) vtx' in
  mkBlock (nVersion b') (hashPrevBlock b') (BlockMerkleRoot b')
          (nTime b') (nBits b') (nNonce b') (vtx b').

(** What [std::make_shared<CBlock>(std::move(block))] leaves in the cache:
    [block] is a reference to the cached [CBlock]; its move constructor
    copies the header fields and moves [vtx], which is empty afterwards. *)
Definition moved_from (b : CBlock) : CBlock :=
  mkBlock (nVersion b) (hashPrevBlock b) (hashMerkleRoot b)
          (nTime b) (nBits b) (nNonce b) [].

Definition ProcessSv2Message (sv2_net_msg : Sv2NetMsg)
           (tp : Sv2TemplateProvider) (client : Sv2Client)
  : outcome (Sv2TemplateProvider * Sv2Client) :=
  let ss := m_msg sv2_net_msg in
  let msg_type := m_msg_type (m_sv2_header sv2_net_msg) in
  if msg_type =? SETUP_CONNECTION then
    if m_setup_connection_confirmed client then Done (tp, client)
    else
      match Unserialize_SetupConnection ss with
      | None => Done (tp, set_disconnect_flag true client)
      | Some setup_conn =>
          if negb (m_protocol setup_conn =? TP_SUBPROTOCOL) then
            let setup_conn_err :=
              Sv2SetupConnectionErrorMsg (m_flags setup_conn) "unsupported-protocol" in
            let '(_, client) := EncryptAndSendMessage client setup_conn_err in
            Done (tp, set_disconnect_flag true client)
          else if (m_protocol_version tp <? m_min_version setup_conn)
                  || (m_protocol_version tp >? m_max_version setup_conn) then
            let setup_conn_err :=
              Sv2SetupConnectionErrorMsg (m_flags setup_conn) "protocol-version-mismatch" in
            let '(_, client) := EncryptAndSendMessage client setup_conn_err in
            Done (tp, set_disconnect_flag true client)
          else
            let setup_success :=
              Sv2SetupConnectionSuccessMsg (m_protocol_version tp) (m_optional_features tp) in
            match EncryptAndSendMessage client setup_success with
            | (false, client) => Done (tp, set_disconnect_flag true client)
            | (true, client) => Done (tp, set_setup_connection_confirmed true client)
            end
      end
  else if msg_type =? COINBASE_OUTPUT_DATA_SIZE then
    if negb (m_setup_connection_confirmed client) then
      Done (tp, set_disconnect_flag true client)
    else
      match Unserialize_CoinbaseOutputDataSize ss with
      | None => Done (tp, set_disconnect_flag true client)
      | Some coinbase_output_data_size =>
          let client := set_coinbase_output_data_size_recv true client in
          let max_additional_size :=
            m_coinbase_output_max_additional_size coinbase_output_data_size in
          if max_additional_size >? MAX_BLOCK_WEIGHT then
            Done (tp, set_disconnect_flag true client)
          else
            let client := set_coinbase_tx_outputs_size max_additional_size client in
            let '(_, tp, client) := SendWork tp client true in
            Done (tp, client)
      end
  else if msg_type =? SUBMIT_SOLUTION then
    if negb (m_setup_connection_confirmed client)
       && negb (m_coinbase_output_data_size_recv client) then
      Done (tp, set_disconnect_flag true client)
    else
      match Unserialize_SubmitSolution ss with
      | None => Done (tp, client)
      | Some submit_solution =>
          match m_block_cache tp !! sol_template_id submit_solution with
          | Some cached_block =>
              let blk := solved_block (block cached_block) submit_solution in
              let husk := mkTemplate (moved_from blk) (vTxFees cached_block) in
              let tp := set_block_cache
                          (<[sol_template_id submit_solution := husk]> (m_block_cache tp)) tp in
              let tp := set_chain (ProcessNewBlock (m_chain tp) blk) tp in
              Done (tp, client)
          | None => Done (tp, client)
          end
      end
  else if msg_type =? REQUEST_TRANSACTION_DATA then
    match Unserialize_RequestTransactionData ss with
    | None => Done (tp, client)
    | Some request_tx_data =>
        match m_block_cache tp !! req_template_id request_tx_data with
        | Some cached_block =>
            match witness_reserve_value_of (block cached_block) with
            | Undefined => Undefined
            | Done witness_reserve_value =>
                let txs := txs_of (block cached_block) in
                let request_tx_data_success :=
                  Sv2RequestTransactionDataSuccessMsg
                    (req_template_id request_tx_data) witness_reserve_value txs in
                match EncryptAndSendMessage client request_tx_data_success with
                | (false, client) => Done (tp, set_disconnect_flag true client)
                | (true, client) => Done (tp, client)
                end
            end
        | None =>
            let request_tx_data_error :=
              Sv2RequestTransactionDataErrorMsg
                (req_template_id request_tx_data) "template-id-not-found" in
            match EncryptAndSendMessage client request_tx_data_error with
            | (false, client) => Done (tp, set_disconnect_flag true client)
            | (true, client) => Done (tp, client)
            end
        end
    end
  else Done (tp, client).

(** The messages of one receive, handled in order (the loop over
    [sv2_msgs] in [ThreadSv2Handler]). *)
Fixpoint ProcessSv2Messages (msgs : list Sv2NetMsg)
         (tp : Sv2TemplateProvider) (client : Sv2Client)
  : outcome (Sv2TemplateProvider * Sv2Client) :=
  match msgs with
  | [] => Done (tp, client)
  | m :: rest =>
      match ProcessSv2Message m tp client with
      | Done (tp, client) => ProcessSv2Messages rest tp client
      | Undefined => Undefined
      end
  end.

(** *** ReadAndDecryptSv2NetMsgs *)

(** [Span<std::byte> buffer]: a pointer into the receive array and a
    length.  [span_mem] gives the byte at each offset from the pointer,
    also past [span_size], where the memory holds whatever was there. *)
Record Span := mkSpan {
  span_mem : Z -> Z;
  span_size : Z
}.

(** The bytes under [Span(&buffer[off], len)]. *)
Definition span_bytes (buffer : Span) (off len : Z) : list Z :=
  map (fun i => span_mem buffer (off + Z.of_nat i)) (seq 0 (Z.to_nat len)).

(** The content of a span after the in-place [DecryptMessage]: the
    plaintext at the front, the old bytes behind it. *)
Definition decrypted_in_place (ct plain : list Z) : list Z :=
  firstn (length ct) (plain ++ skipn (length plain) ct).

(** How a call ends: by [return sv2_msgs], or by the exception of the
    header stream.  [touched] lists the spans [(offset, length)] handed to
    [DecryptMessage], in order. *)
Inductive read_result : Type :=
| Returned (sv2_msgs : list Sv2NetMsg) (client : Sv2Client) (touched : list (Z * Z))
| Threw (client : Sv2Client) (touched : list (Z * Z)).

Definition touched_of (r : read_result) : list (Z * Z) :=
  match r with
  | Returned _ _ t => t
  | Threw _ t => t
  end.

Definition client_of (r : read_result) : Sv2Client :=
  match r with
  | Returned _ c _ => c
  | Threw c _ => c
  end.

(** The [while (bytes_read < buffer.size())] loop; [None] is the fuel
    running out. *)
Fixpoint read_loop (fuel : nat) (buffer : Span) (bytes_read : Z)
         (client : Sv2Client) (sv2_msgs : list Sv2NetMsg) (touched : list (Z * Z))
  : option read_result :=
  if bytes_read <? span_size buffer then
    match fuel with
    | O => None
    | S fuel =>
        let encrypted_header := span_bytes buffer bytes_read SV2_HEADER_ENCRYPTED_SIZE in
        let touched := touched ++ [(bytes_read, SV2_HEADER_ENCRYPTED_SIZE)] in
        let '(noise, res) := DecryptMessage (m_noise client) encrypted_header in
        let client := set_noise noise client in
        match res with
        | None => Some (Returned sv2_msgs (set_disconnect_flag true client) touched)
        | Some plain =>
            let bytes_read := bytes_read + SV2_HEADER_ENCRYPTED_SIZE in
            let decrypted_header :=
              firstn (Z.to_nat SV2_HEADER_PLAIN_SIZE)
                     (decrypted_in_place encrypted_header plain) in
            match Sv2NetHeader_Unserialize decrypted_header with
            | None => Some (Threw client touched)
            | Some header =>
                let expanded_size := Noise.EncryptedMessageSize (m_msg_len header) in
                let encrypted_payload := span_bytes buffer bytes_read expanded_size in
                let touched := touched ++ [(bytes_read, expanded_size)] in
                let '(noise, res) := DecryptMessage (m_noise client) encrypted_payload in
                let client := set_noise noise client in
                match res with
                | None => Some (Returned sv2_msgs (set_disconnect_flag true client) touched)
                | Some plain =>
                    let payload :=
                      firstn (Z.to_nat (m_msg_len header))
                             (decrypted_in_place encrypted_payload plain) in
                    read_loop fuel buffer (bytes_read + expanded_size) client
                              (sv2_msgs ++ [mkNetMsg header payload]) touched
                end
            end
        end
    end
  else Some (Returned sv2_msgs client touched).

Definition ReadAndDecryptSv2NetMsgs (client : Sv2Client) (buffer : Span)
  : option read_result :=
  read_loop (Z.to_nat (span_size buffer)) buffer 0 client [] [].

(** A span [(off, len)] lies inside a buffer of [size] bytes. *)
Definition inside (size : Z) (sp : Z * Z) : bool :=
  (0 <=? fst sp) && (fst sp + snd sp <=? size).

(** *** The scheduling part of ThreadSv2Handler *)

Record Timer := mkTimer {
  m_interval : Z;
  m_last_triggered : Z
}.

Definition trigger (now : Z) (t : Timer) : bool * Timer :=
  if now - m_last_triggered t >=? m_interval t
  then (true, mkTimer (m_interval t) now)
  else (false, t).

Definition DisconnectFlagged (clients : list Sv2Client) : list Sv2Client :=
  filter (fun c => m_disconnect_flag c = false) clients.

(** The loop "Update all clients with the new template and prev hash". *)
Fixpoint update_clients (tp : Sv2TemplateProvider) (clients : list Sv2Client)
         (best_block_changed : bool) : Sv2TemplateProvider * list Sv2Client :=
  match clients with
  | [] => (tp, [])
  | client :: rest =>
      if m_coinbase_tx_outputs_size client =? 0 then
        let '(tp, rest) := update_clients tp rest best_block_changed in
        (tp, client :: rest)
      else
        let '(ok, tp, client) := SendWork tp client best_block_changed in
        let client := if ok then client else set_disconnect_flag true client in
        let '(tp, rest) := update_clients tp rest best_block_changed in
        (tp, client :: rest)
  end.

(** The state of the handler thread: the provider, [m_sv2_clients] and the
    locals of [ThreadSv2Handler] that live across iterations. *)
Record HandlerState := mkHandler {
  h_tp : Sv2TemplateProvider;
  m_sv2_clients : list Sv2Client;
  timer : Timer;
  mempool_last_update : Z;
  template_last_update : Z
}.

(** The test on [g_best_block] under [g_best_block_mutex]. *)
Definition check_best_block (tp : Sv2TemplateProvider) : bool * Sv2TemplateProvider :=
  if negb (m_best_prev_hash tp =? g_best_block (m_chain tp))
  then (true, set_best_prev_hash (g_best_block (m_chain tp)) tp)
  else (false, tp).

(** What best-block handling does before templates are made: swap the
    cache for an empty one and zero every client's fee mark. *)
Definition clear_for_new_block (tp : Sv2TemplateProvider) (clients : list Sv2Client)
  : Sv2TemplateProvider * list Sv2Client :=
  (set_block_cache ∅ tp, map (set_latest_submitted_template_fees 0) clients).

(** One pass of the loop body from [DisconnectFlagged()] to the end of
    [if (should_make_template)], at steady-clock time [now]. *)
Definition ThreadSv2Handler_schedule (now : Z) (st : HandlerState) : HandlerState :=
  let clients := DisconnectFlagged (m_sv2_clients st) in
  let '(best_block_changed, tp) := check_best_block (h_tp st) in
  let mempool_last_update := GetTransactionsUpdated (m_chain tp) in
  if best_block_changed then
    let '(tp, clients) := clear_for_new_block tp clients in
    let template_last_update := mempool_last_update in
    let '(tp, clients) := update_clients tp clients best_block_changed in
    mkHandler tp clients (timer st) mempool_last_update template_last_update
  else
    let '(fired, timer) := trigger now (timer st) in
    if fired && (mempool_last_update >? template_last_update st) then
      let '(tp, clients) := update_clients tp clients best_block_changed in
      mkHandler tp clients timer mempool_last_update (template_last_update st)
    else
      mkHandler tp clients timer mempool_last_update (template_last_update st).

(** ** Properties *)

(** *** The fee total and the fee-delta gate *)

Lemma nonneg_total_cons fee l :
  nonneg_total (fee :: l) = (if fee <? 0 then 0 else fee) + nonneg_total l.
Proof.
  unfold nonneg_total. rewrite filter_cons.
  destruct (decide (0 <= fee)) as [Hge|Hlt]; simpl.
  - destruct (Z.ltb_spec fee 0); [lia | reflexivity].
  - destruct (Z.ltb_spec fee 0); [reflexivity | lia].
Qed.

Lemma nonneg_total_nonneg l : 0 <= nonneg_total l.
Proof.
  induction l as [|fee l IH]; [unfold nonneg_total; simpl; lia|].
  rewrite nonneg_total_cons. destruct (Z.ltb_spec fee 0); lia.
Qed.

(** While the running total stays an [int64_t], the loop adds up the
    non-negative entries. *)
Lemma sum_fees_from_total l : forall acc,
  0 <= acc -> acc + nonneg_total l <= INT64_MAX ->
  sum_fees_from acc l = acc + nonneg_total l.
Proof.
  induction l as [|fee l IH]; intros acc Hacc Hmax.
  - unfold sum_fees_from, nonneg_total. simpl. lia.
  - rewrite nonneg_total_cons in Hmax |- *.
    change (sum_fees_from acc (fee :: l))
      with (sum_fees_from (if fee <? 0 then acc else wrap_i64 (acc + fee)) l).
    pose proof (nonneg_total_nonneg l) as Hl.
    destruct (Z.ltb_spec fee 0) as [Hneg|Hpos].
    + rewrite IH; lia.
    + rewrite wrap_i64_id.
      * rewrite IH; lia.
      * unfold in_i64, INT64_MIN, INT64_MAX in *. lia.
Qed.

(** C3.  [SendWork] with [send_new_prevhash = false]: the fee total is the
    sum of the non-negative entries of [vTxFees] (the coinbase's -1 is left
    out), and when [latest_template_fees + minimum_fee_delta] exceeds it
    the call returns [true], writes nothing to the socket, leaves the block
    cache as it was and does not touch the client.  The two premises keep
    the [int64_t] additions of the code within range. *)
Theorem SendWork_fee_delta_gate (tp : Sv2TemplateProvider) (client : Sv2Client) :
  let tpl := CreateNewBlock (m_chain tp)
               (wrap_u32 (MAX_BLOCK_WEIGHT - m_coinbase_tx_outputs_size client)) in
  let fees := sum_fees_from 0 (vTxFees tpl) in
  nonneg_total (vTxFees tpl) <= INT64_MAX ->
  in_i64 (m_latest_submitted_template_fees client + m_minimum_fee_delta tp) ->
  fees = nonneg_total (vTxFees tpl) /\
  (m_latest_submitted_template_fees client + m_minimum_fee_delta tp > fees ->
   exists tp' client',
     SendWork tp client false = (true, tp', client') /\
     m_sock client' = m_sock client /\
     m_block_cache tp' = m_block_cache tp /\
     m_latest_submitted_template_fees client' = m_latest_submitted_template_fees client /\
     client' = client).
Proof.
  intros tpl fees Hmax Hsum.
  assert (Hfees : fees = nonneg_total (vTxFees tpl)).
  { unfold fees. rewrite sum_fees_from_total; lia. }
  split; [exact Hfees|].
  intros Hgate.
  exists (set_template_id (wrap_u64 (m_template_id tp + 1)) tp), client.
  unfold SendWork. cbn [negb andb].
  cbn [BuildNewWorkSet block_template m_chain set_template_id m_minimum_fee_delta].
  fold tpl. fold fees.
  rewrite (wrap_i64_id _ Hsum).
  destruct (Z.gtb_spec (m_latest_submitted_template_fees client + m_minimum_fee_delta tp) fees)
    as [_|Hle]; [|lia].
  repeat split.
Qed.

(** *** What one SendWork writes to the socket *)

Lemma EncryptAndSendMessage_true client msg client' :
  EncryptAndSendMessage client msg = (true, client') ->
  m_sock client' = m_sock client ++ [msg].
Proof.
  unfold EncryptAndSendMessage. cbn [set_noise m_sock].
  destruct (SendBuf (m_sock client) msg); intros H; inversion H; reflexivity.
Qed.



















(** *** Frame lemmas: what sending does not touch *)

(** The fields of a client that a send leaves alone. *)
Definition same_session (c c' : Sv2Client) : Prop :=
  m_disconnect_flag c' = m_disconnect_flag c /\
  m_setup_connection_confirmed c' = m_setup_connection_confirmed c /\
  m_coinbase_output_data_size_recv c' = m_coinbase_output_data_size_recv c /\
  m_coinbase_tx_outputs_size c' = m_coinbase_tx_outputs_size c /\
  m_latest_submitted_template_fees c' = m_latest_submitted_template_fees c.

Lemma EncryptAndSendMessage_frame client msg ok client' :
  EncryptAndSendMessage client msg = (ok, client') -> same_session client client'.
Proof.
  unfold EncryptAndSendMessage, same_session. cbn [set_noise m_sock].
  destruct (SendBuf (m_sock client) msg); intros H; inversion H; subst;
    repeat split.
Qed.

Lemma SendWork_size tp client flag ok tp' client' :
  SendWork tp client flag = (ok, tp', client') ->
  m_coinbase_tx_outputs_size client' = m_coinbase_tx_outputs_size client.
Proof.
  unfold SendWork.
  match goal with |- context [if ?g then _ else _] => destruct g end.
  - intros H; inversion H; reflexivity.
  - destruct (EncryptAndSendMessage client _) as [[|] c1] eqn:E1.
    + apply EncryptAndSendMessage_frame in E1 as (_ & _ & _ & Hs1 & _).
      destruct flag.
      * destruct (EncryptAndSendMessage c1 _) as [[|] c2] eqn:E2;
          apply EncryptAndSendMessage_frame in E2 as (_ & _ & _ & Hs2 & _);
          intros H; inversion H; subst; cbn; congruence.
      * intros H; inversion H; subst; cbn; congruence.
    + apply EncryptAndSendMessage_frame in E1 as (_ & _ & _ & Hs1 & _).
      intros H; inversion H; subst; congruence.
Qed.

(** *** SubmitSolution *)

(** C1 (the code departs from it).  A [SubmitSolution] from a client that
    has [m_setup_connection_confirmed] set and
    [m_coinbase_output_data_size_recv] unset is processed all the same:
    the guard tests that both flags are unset, so the template is looked
    up, the coinbase substituted, the block handed to [ProcessNewBlock],
    and the client is left as it was, its disconnect flag included. *)
Theorem SubmitSolution_processed_without_cbsize
        (msg : Sv2NetMsg) (tp : Sv2TemplateProvider) (client : Sv2Client)
        (sol : Sv2SubmitSolutionMsg) (cached : CBlockTemplate) :
  m_msg_type (m_sv2_header msg) = SUBMIT_SOLUTION ->
  m_setup_connection_confirmed client = true ->
  m_coinbase_output_data_size_recv client = false ->
  Unserialize_SubmitSolution (m_msg msg) = Some sol ->
  m_block_cache tp !! sol_template_id sol = Some cached ->
  exists tp',
    ProcessSv2Message msg tp client = Done (tp', client) /\
    m_chain tp' = ProcessNewBlock (m_chain tp) (solved_block (block cached) sol).
Proof.
  intros Hty Hconf Hrecv Hdec Hcache.
  unfold ProcessSv2Message. rewrite Hty. cbn [Z.eqb SUBMIT_SOLUTION SETUP_CONNECTION
    COINBASE_OUTPUT_DATA_SIZE Pos.eqb].
  rewrite Hconf, Hrecv, Hdec, Hcache. cbn [negb andb].
  eexists. split; reflexivity.
Qed.

(** The guard of [SubmitSolution] fires only when both flags are unset. *)
Lemma SubmitSolution_guard (msg : Sv2NetMsg) tp client :
  m_msg_type (m_sv2_header msg) = SUBMIT_SOLUTION ->
  m_setup_connection_confirmed client = false ->
  m_coinbase_output_data_size_recv client = false ->
  ProcessSv2Message msg tp client = Done (tp, set_disconnect_flag true client).
Proof.
  intros Hty Hconf Hrecv.
  unfold ProcessSv2Message. rewrite Hty. cbn [Z.eqb SUBMIT_SOLUTION SETUP_CONNECTION
    COINBASE_OUTPUT_DATA_SIZE Pos.eqb].
  rewrite Hconf, Hrecv. reflexivity.
Qed.

(** *** SetupConnection *)

(** C5.  A [SetupConnection] that decodes, from a client not yet
    confirmed.  With a protocol other than [TP_SUBPROTOCOL] the reply is
    [SetupConnectionError] "unsupported-protocol" and the client is flagged
    for disconnect; otherwise, when [min_version] is above or
    [max_version] below the server's version, the reply is
    [SetupConnectionError] "protocol-version-mismatch" and the client is
    flagged for disconnect; otherwise the reply is
    [SetupConnectionSuccess] with the server's version and optional
    features and the client becomes confirmed.  In each case the reply is
    the next frame on the socket, [SendBuf] having written it. *)
Theorem SetupConnection_replies
        (msg : Sv2NetMsg) (tp : Sv2TemplateProvider) (client : Sv2Client)
        (setup_conn : Sv2SetupConnectionMsg) :
  m_msg_type (m_sv2_header msg) = SETUP_CONNECTION ->
  m_setup_connection_confirmed client = false ->
  Unserialize_SetupConnection (m_msg msg) = Some setup_conn ->
  let reply :=
    if negb (m_protocol setup_conn =? TP_SUBPROTOCOL) then
      Sv2SetupConnectionErrorMsg (m_flags setup_conn) "unsupported-protocol"
    else if (m_min_version setup_conn >? m_protocol_version tp)
            || (m_max_version setup_conn <? m_protocol_version tp) then
      Sv2SetupConnectionErrorMsg (m_flags setup_conn) "protocol-version-mismatch"
    else
      Sv2SetupConnectionSuccessMsg (m_protocol_version tp) (m_optional_features tp) in
  SendBuf (m_sock client) reply = true ->
  exists client',
    ProcessSv2Message msg tp client = Done (tp, client') /\
    m_sock client' = m_sock client ++ [reply] /\
    (m_protocol setup_conn <> TP_SUBPROTOCOL ->
     m_disconnect_flag client' = true /\ m_setup_connection_confirmed client' = false) /\
    (m_protocol setup_conn = TP_SUBPROTOCOL ->
     m_min_version setup_conn > m_protocol_version tp \/
     m_max_version setup_conn < m_protocol_version tp ->
     m_disconnect_flag client' = true /\ m_setup_connection_confirmed client' = false) /\
    (m_protocol setup_conn = TP_SUBPROTOCOL ->
     m_min_version setup_conn <= m_protocol_version tp <= m_max_version setup_conn ->
     m_setup_connection_confirmed client' = true /\
     m_disconnect_flag client' = m_disconnect_flag client).
Proof.
  intros Hty Hconf Hdec reply Hsend.
  unfold ProcessSv2Message. rewrite Hty. cbn [Z.eqb SETUP_CONNECTION].
  rewrite Hconf, Hdec.
  unfold reply in *. clear reply.
  rewrite (Z.gtb_ltb (m_min_version setup_conn)) in Hsend |- *.
  rewrite <- (Z.gtb_ltb (m_protocol_version tp) (m_max_version setup_conn)) in Hsend |- *.
  unfold EncryptAndSendMessage. cbn [set_noise m_sock].
  destruct (Z.eqb_spec (m_protocol setup_conn) TP_SUBPROTOCOL) as [Hp|Hp];
    cbn [negb] in *.
  - destruct (Z.ltb_spec (m_protocol_version tp) (m_min_version setup_conn)) as [Hmin|Hmin];
      destruct (Z.gtb_spec (m_protocol_version tp) (m_max_version setup_conn)) as [Hmax|Hmax];
      cbn [orb] in *; rewrite Hsend; (eexists; split; [reflexivity|]); cbn;
      repeat (split || intro); try reflexivity; try congruence; lia.
  - rewrite Hsend. eexists. split; [reflexivity|]. cbn.
    repeat (split || intro); try reflexivity; try congruence; lia.
Qed.

(** *** RequestTransactionData *)

(** The replies to a [RequestTransactionData] that decodes, on a cache
    entry that holds its transactions.  When its [template_id] is in the
    block cache, with a block that is not null and whose coinbase has a
    first input with a first witness-stack element, the reply is
    [RequestTransactionDataSuccess] with that [template_id], that element as
    witness reserve value and the transactions after the coinbase.  When
    the [template_id] is not in the cache, the reply is
    [RequestTransactionDataError] with code "template-id-not-found".  In
    both cases the reply is the next frame on the socket ([SendBuf] having
    written it), the provider is unchanged and the client is not flagged
    for disconnect. *)
Theorem RequestTransactionData_replies
        (msg : Sv2NetMsg) (tp : Sv2TemplateProvider) (client : Sv2Client)
        (req : Sv2RequestTransactionDataMsg) :
  m_msg_type (m_sv2_header msg) = REQUEST_TRANSACTION_DATA ->
  Unserialize_RequestTransactionData (m_msg msg) = Some req ->
  (forall cached coinbase txs txin ins w ws,
      m_block_cache tp !! req_template_id req = Some cached ->
      IsNull (block cached) = false ->
      vtx (block cached) = coinbase :: txs ->
      vin coinbase = txin :: ins ->
      scriptWitness txin = w :: ws ->
      let reply := Sv2RequestTransactionDataSuccessMsg (req_template_id req) w txs in
      SendBuf (m_sock client) reply = true ->
      exists client',
        ProcessSv2Message msg tp client = Done (tp, client') /\
        m_sock client' = m_sock client ++ [reply] /\
        m_disconnect_flag client' = m_disconnect_flag client) /\
  (m_block_cache tp !! req_template_id req = None ->
   let reply :=
     Sv2RequestTransactionDataErrorMsg (req_template_id req) "template-id-not-found" in
   SendBuf (m_sock client) reply = true ->
   exists client',
     ProcessSv2Message msg tp client = Done (tp, client') /\
     m_sock client' = m_sock client ++ [reply] /\
     m_disconnect_flag client' = m_disconnect_flag client).
Proof.
  intros Hty Hdec.
  split.
  - intros cached coinbase txs txin ins w ws Hcache Hnull Hvtx Hvin Hwit reply Hsend.
    unfold ProcessSv2Message. rewrite Hty.
    cbn [Z.eqb REQUEST_TRANSACTION_DATA SETUP_CONNECTION COINBASE_OUTPUT_DATA_SIZE
         SUBMIT_SOLUTION Pos.eqb].
    rewrite Hdec, Hcache.
    unfold witness_reserve_value_of, txs_of. rewrite Hnull, Hvtx, Hvin, Hwit. cbn [negb].
    fold reply. unfold EncryptAndSendMessage. cbn [set_noise m_sock].
    rewrite Hsend. eexists. split; [reflexivity|]. split; reflexivity.
  - intros Hcache reply Hsend.
    unfold ProcessSv2Message. rewrite Hty.
    cbn [Z.eqb REQUEST_TRANSACTION_DATA SETUP_CONNECTION COINBASE_OUTPUT_DATA_SIZE
         SUBMIT_SOLUTION Pos.eqb].
    rewrite Hdec, Hcache.
    fold reply. unfold EncryptAndSendMessage. cbn [set_noise m_sock].
    rewrite Hsend. eexists. split; [reflexivity|]. split; reflexivity.
Qed.

(** C6 (the code departs from it).  A [RequestTransactionData] that
    decodes, for a [template_id] that is in the block cache, is not
    answered with [RequestTransactionDataSuccess] when the cached block
    holds no transaction and is not null, which is how [SubmitSolution]
    leaves the entry of the template it was sent for: the handler
    evaluates [block.vtx[0]] on an empty vector, and from there on nothing
    is defined.  That holds for every provider, client and state of the
    socket; the [vtx.size() > 0] test that guards the copy of the
    transactions comes after the unguarded [vtx[0]]. *)
Theorem RequestTransactionData_undefined_on_emptied_entry
        (msg : Sv2NetMsg) (tp : Sv2TemplateProvider) (client : Sv2Client)
        (req : Sv2RequestTransactionDataMsg) (cached : CBlockTemplate) :
  m_msg_type (m_sv2_header msg) = REQUEST_TRANSACTION_DATA ->
  Unserialize_RequestTransactionData (m_msg msg) = Some req ->
  m_block_cache tp !! req_template_id req = Some cached ->
  IsNull (block cached) = false ->
  vtx (block cached) = [] ->
  ProcessSv2Message msg tp client = Undefined.
Proof.
  intros Hty Hdec Hcache Hnull Hvtx.
  unfold ProcessSv2Message. rewrite Hty.
  cbn [Z.eqb REQUEST_TRANSACTION_DATA SETUP_CONNECTION COINBASE_OUTPUT_DATA_SIZE
       SUBMIT_SOLUTION Pos.eqb].
  rewrite Hdec, Hcache.
  unfold witness_reserve_value_of. rewrite Hnull, Hvtx. reflexivity.
Qed.

(** *** The cached template after SubmitSolution *)

(** C9 (the code departs from it).  [SubmitSolution] works on a reference
    to the cached block and then moves the block out of the cache entry:
    the entry stays under its [template_id] with an empty [vtx].  When the
    block left there is not null ([IsNull] looks at the header, which the
    move leaves in place), a [RequestTransactionData] for the same
    [template_id] then indexes [vtx[0]] of an empty vector, so it cannot
    return what it returned before the solution came in. *)
Theorem SubmitSolution_empties_cached_template
        (msg_sub msg_req : Sv2NetMsg) (tp : Sv2TemplateProvider) (client : Sv2Client)
        (sol : Sv2SubmitSolutionMsg) (req : Sv2RequestTransactionDataMsg)
        (cached : CBlockTemplate) :
  m_msg_type (m_sv2_header msg_sub) = SUBMIT_SOLUTION ->
  m_msg_type (m_sv2_header msg_req) = REQUEST_TRANSACTION_DATA ->
  m_setup_connection_confirmed client = true ->
  Unserialize_SubmitSolution (m_msg msg_sub) = Some sol ->
  Unserialize_RequestTransactionData (m_msg msg_req) = Some req ->
  req_template_id req = sol_template_id sol ->
  m_block_cache tp !! sol_template_id sol = Some cached ->
  IsNull (moved_from (solved_block (block cached) sol)) = false ->
  exists tp' husk,
    ProcessSv2Message msg_sub tp client = Done (tp', client) /\
    m_block_cache tp' !! sol_template_id sol = Some husk /\
    vtx (block husk) = [] /\
    ProcessSv2Message msg_req tp' client = Undefined.
Proof.
  intros Hsub Hreq Hconf Hdsub Hdreq Hid Hcache Hnull.
  eexists. eexists. split; [|split; [|split]].
  - unfold ProcessSv2Message. rewrite Hsub.
    cbn [Z.eqb SUBMIT_SOLUTION SETUP_CONNECTION COINBASE_OUTPUT_DATA_SIZE Pos.eqb].
    rewrite Hconf, Hdsub, Hcache. cbn [negb andb]. reflexivity.
  - cbn [m_block_cache set_chain set_block_cache]. apply lookup_insert_eq.
  - reflexivity.
  - unfold ProcessSv2Message. rewrite Hreq.
    cbn [Z.eqb REQUEST_TRANSACTION_DATA SETUP_CONNECTION COINBASE_OUTPUT_DATA_SIZE
         SUBMIT_SOLUTION Pos.eqb].
    rewrite Hdreq, Hid.
    cbn [m_block_cache set_chain set_block_cache]. rewrite lookup_insert_eq.
    unfold witness_reserve_value_of. cbn [block]. rewrite Hnull. reflexivity.
Qed.

(** *** The bound on the coinbase output size *)

Definition size_ok (c : Sv2Client) : Prop :=
  m_coinbase_tx_outputs_size c <= MAX_BLOCK_WEIGHT.

(** Case analysis on every test of a handler, outermost first. *)
Ltac split_handler H :=
  repeat match type of H with
    | context [match ?x with _ => _ end] => destruct x eqn:?
    end.

Lemma ProcessSv2Message_size_ok msg tp client tp' client' :
  size_ok client ->
  ProcessSv2Message msg tp client = Done (tp', client') ->
  size_ok client'.
Proof.
  unfold size_ok. intros Hok H.
  unfold ProcessSv2Message in H.
  split_handler H; try discriminate H; inversion H; subst; clear H;
    repeat match goal with
      | E : EncryptAndSendMessage _ _ = _ |- _ =>
          apply EncryptAndSendMessage_frame in E; destruct E as (_ & _ & _ & E & _)
      | E : SendWork _ _ _ = _ |- _ => apply SendWork_size in E
      | Hgt : (_ >? _) = false |- _ => rewrite Z.gtb_ltb, Z.ltb_ge in Hgt
      end;
    cbn in *; try lia; try congruence.
Qed.

Lemma ProcessSv2Messages_size_ok msgs : forall tp client tp' client',
  size_ok client ->
  ProcessSv2Messages msgs tp client = Done (tp', client') ->
  size_ok client'.
Proof.
  induction msgs as [|m rest IH]; intros tp client tp' client' Hok H; cbn in H.
  - inversion H; subst. exact Hok.
  - destruct (ProcessSv2Message m tp client) as [[tp1 c1]|] eqn:Hone; [|discriminate H].
    eapply IH; [|exact H]. eapply ProcessSv2Message_size_ok; eassumption.
Qed.

Lemma update_clients_size_ok clients : forall tp flag,
  Forall size_ok clients ->
  Forall size_ok (snd (update_clients tp clients flag)).
Proof.
  induction clients as [|c rest IH]; intros tp flag Hall; cbn [update_clients].
  - constructor.
  - apply Forall_cons in Hall as [Hc Hrest].
    destruct (m_coinbase_tx_outputs_size c =? 0).
    + specialize (IH tp flag Hrest).
      destruct (update_clients tp rest flag) as [tp1 rest1]. cbn in *.
      apply Forall_cons_2; assumption.
    + destruct (SendWork tp c flag) as [[ok tp1] c1] eqn:Ework.
      apply SendWork_size in Ework.
      specialize (IH tp1 flag Hrest).
      destruct (update_clients tp1 rest flag) as [tp2 rest1]. cbn in *.
      apply Forall_cons_2; [|assumption].
      unfold size_ok in *. destruct ok; cbn; lia.
Qed.

Lemma ThreadSv2Handler_schedule_size_ok now st :
  Forall size_ok (m_sv2_clients st) ->
  Forall size_ok (m_sv2_clients (ThreadSv2Handler_schedule now st)).
Proof.
  intros Hall.
  assert (Hkept : Forall size_ok (DisconnectFlagged (m_sv2_clients st))).
  { unfold DisconnectFlagged. rewrite Forall_forall in Hall |- *.
    intros c Hc. apply list_elem_of_filter in Hc as [_ Hc]. apply Hall, Hc. }
  unfold ThreadSv2Handler_schedule.
  destruct (check_best_block (h_tp st)) as [changed tp].
  destruct changed.
  - unfold clear_for_new_block.
    match goal with |- context [update_clients ?t ?cs ?f] =>
      pose proof (update_clients_size_ok cs t f) as Hupd;
      destruct (update_clients t cs f) as [tp2 cs2]
    end.
    cbn in *. apply Hupd.
    apply Forall_fmap. eapply Forall_impl; [exact Hkept|].
    intros c Hc. exact Hc.
  - destruct (trigger now (timer st)) as [fired tm].
    destruct (fired && _).
    + match goal with |- context [update_clients ?t ?cs ?f] =>
        pose proof (update_clients_size_ok cs t f) as Hupd;
        destruct (update_clients t cs f) as [tp2 cs2]
      end.
      cbn in *. apply Hupd. exact Hkept.
    + cbn. exact Hkept.
Qed.

(** C8.  [m_coinbase_tx_outputs_size <= MAX_BLOCK_WEIGHT] is an invariant
    of a client: it holds after any sequence of processed messages and
    after the scheduling pass of the handler thread when it held before,
    and a [CoinbaseOutputDataSize] whose size exceeds [MAX_BLOCK_WEIGHT]
    flags the client for disconnect and leaves the recorded size as it
    was. *)
Theorem coinbase_tx_outputs_size_bounded :
  (forall msgs tp client tp' client',
      size_ok client ->
      ProcessSv2Messages msgs tp client = Done (tp', client') ->
      size_ok client') /\
  (forall now st,
      Forall size_ok (m_sv2_clients st) ->
      Forall size_ok (m_sv2_clients (ThreadSv2Handler_schedule now st))) /\
  (forall msg tp client cbsize,
      m_msg_type (m_sv2_header msg) = COINBASE_OUTPUT_DATA_SIZE ->
      Unserialize_CoinbaseOutputDataSize (m_msg msg) = Some cbsize ->
      m_coinbase_output_max_additional_size cbsize > MAX_BLOCK_WEIGHT ->
      exists client',
        ProcessSv2Message msg tp client = Done (tp, client') /\
        m_disconnect_flag client' = true /\
        m_coinbase_tx_outputs_size client' = m_coinbase_tx_outputs_size client).
Proof.
  split; [|split].
  - intros msgs tp client tp' client'. apply ProcessSv2Messages_size_ok.
  - apply ThreadSv2Handler_schedule_size_ok.
  - intros msg tp client cbsize Hty Hdec Hbig.
    unfold ProcessSv2Message. rewrite Hty.
    cbn [Z.eqb COINBASE_OUTPUT_DATA_SIZE SETUP_CONNECTION Pos.eqb].
    destruct (m_setup_connection_confirmed client); cbn [negb].
    + rewrite Hdec.
      destruct (Z.gtb_spec (m_coinbase_output_max_additional_size cbsize) MAX_BLOCK_WEIGHT);
        [|lia].
      eexists. split; [reflexivity|]. split; reflexivity.
    + eexists. split; [reflexivity|]. split; reflexivity.
Qed.

(** *** A new best block *)

Definition weight_for (c : Sv2Client) : Z :=
  wrap_u32 (MAX_BLOCK_WEIGHT - m_coinbase_tx_outputs_size c).

Lemma map_insert_lookup k v (m : gmap Z CBlockTemplate) i t :
  map_insert k v m !! i = Some t -> m !! i = Some t \/ t = v.
Proof.
  unfold map_insert. destruct (m !! k) eqn:Hk; [left; assumption|].
  destruct (decide (k = i)) as [->|Hne].
  - rewrite lookup_insert_eq. intros H; inversion H. right; reflexivity.
  - rewrite lookup_insert_ne by exact Hne. left; assumption.
Qed.

(** [SendWork] does not touch the chain, and the only template it can add
    to the cache is the one it has just assembled. *)
Lemma SendWork_provider tp client flag ok tp' client' :
  SendWork tp client flag = (ok, tp', client') ->
  m_chain tp' = m_chain tp /\
  forall id t,
    m_block_cache tp' !! id = Some t ->
    m_block_cache tp !! id = Some t \/
    t = CreateNewBlock (m_chain tp) (weight_for client).
Proof.
  unfold SendWork.
  match goal with |- context [if ?g then _ else _] => destruct g end.
  - intros H; inversion H; subst. split; [reflexivity|]. intros; left; assumption.
  - assert (Hgoal : forall r : bool * Sv2Client,
               (let '(ok0, c0) := r in
                (ok0,
                 set_block_cache
                   (map_insert (wrap_u64 (m_template_id tp + 1))
                      (CreateNewBlock (m_chain tp) (weight_for client))
                      (m_block_cache tp))
                   (set_template_id (wrap_u64 (m_template_id tp + 1)) tp), c0))
               = (ok, tp', client') ->
               m_chain tp' = m_chain tp /\
               forall id t,
                 m_block_cache tp' !! id = Some t ->
                 m_block_cache tp !! id = Some t \/
                 t = CreateNewBlock (m_chain tp) (weight_for client)).
    { intros [ok0 c0] H; inversion H; subst. split; [reflexivity|].
      intros id t Hl. cbn in Hl. apply map_insert_lookup in Hl. exact Hl. }
    destruct (EncryptAndSendMessage client _) as [[|] c1].
    + destruct flag.
      * destruct (EncryptAndSendMessage c1 _) as [[|] c2]; intros H.
        -- apply (Hgoal (true, set_latest_submitted_template_fees
                                 (sum_fees_from 0
                                    (vTxFees (CreateNewBlock (m_chain tp) (weight_for client))))
                                 c2)). exact H.
        -- apply (Hgoal (false, c2)). exact H.
      * intros H.
        apply (Hgoal (true, set_latest_submitted_template_fees
                              (sum_fees_from 0
                                 (vTxFees (CreateNewBlock (m_chain tp) (weight_for client))))
                              c1)). exact H.
    + intros H. apply (Hgoal (false, c1)). exact H.
Qed.

Lemma update_clients_provider clients : forall tp flag,
  m_chain (fst (update_clients tp clients flag)) = m_chain tp /\
  forall id t,
    m_block_cache (fst (update_clients tp clients flag)) !! id = Some t ->
    m_block_cache tp !! id = Some t \/
    exists c, c ∈ clients /\ t = CreateNewBlock (m_chain tp) (weight_for c).
Proof.
  induction clients as [|c rest IH]; intros tp flag; cbn [update_clients].
  - split; [reflexivity|]. intros; left; assumption.
  - destruct (m_coinbase_tx_outputs_size c =? 0).
    + destruct (IH tp flag) as [Hch Hcache].
      destruct (update_clients tp rest flag) as [tp1 rest1]. cbn in *.
      split; [exact Hch|].
      intros id t Hl. destruct (Hcache id t Hl) as [Hold | (c' & Hin & ->)]; [left; assumption|].
      right. exists c'. split; [apply list_elem_of_further, Hin | reflexivity].
    + destruct (SendWork tp c flag) as [[ok tp1] c1] eqn:Ework.
      apply SendWork_provider in Ework as [Hch1 Hcache1].
      destruct (IH tp1 flag) as [Hch Hcache].
      destruct (update_clients tp1 rest flag) as [tp2 rest1]. cbn in *.
      split; [congruence|].
      intros id t Hl. destruct (Hcache id t Hl) as [Hold|(c' & Hin & ->)].
      * destruct (Hcache1 id t Hold) as [Hold1 | ->]; [left; assumption|].
        right. exists c. split; [apply list_elem_of_here | reflexivity].
      * right. exists c'. split; [apply list_elem_of_further, Hin|].
        rewrite Hch1. reflexivity.
Qed.

(** C7.  In a pass of the handler in which [g_best_block] differs from
    [m_best_prev_hash], every template is built and every frame is sent by
    [update_clients] started from a provider whose block cache is empty
    and from clients whose [m_latest_submitted_template_fees] are all 0;
    so each template in the cache at the end of the pass was assembled
    during the pass, from the chain as it then was. *)
Theorem best_block_change_clears_cache (now : Z) (st : HandlerState) :
  m_best_prev_hash (h_tp st) <> g_best_block (m_chain (h_tp st)) ->
  let st' := ThreadSv2Handler_schedule now st in
  exists tp0 clients0,
    m_block_cache tp0 = ∅ /\
    Forall (fun c => m_latest_submitted_template_fees c = 0) clients0 /\
    clients0 = map (set_latest_submitted_template_fees 0)
                   (DisconnectFlagged (m_sv2_clients st)) /\
    m_template_id tp0 = m_template_id (h_tp st) /\
    m_chain tp0 = m_chain (h_tp st) /\
    (h_tp st', m_sv2_clients st') = update_clients tp0 clients0 true /\
    (forall id t,
        m_block_cache (h_tp st') !! id = Some t ->
        exists c, c ∈ clients0 /\
                  t = CreateNewBlock (m_chain (h_tp st)) (weight_for c)).
Proof.
  intros Hchanged st'.
  set (tp0 := set_block_cache ∅ (set_best_prev_hash (g_best_block (m_chain (h_tp st))) (h_tp st))).
  set (clients0 := map (set_latest_submitted_template_fees 0)
                       (DisconnectFlagged (m_sv2_clients st))).
  assert (Hst' : (h_tp st', m_sv2_clients st') = update_clients tp0 clients0 true).
  { unfold st', ThreadSv2Handler_schedule, check_best_block.
    destruct (Z.eqb_spec (m_best_prev_hash (h_tp st)) (g_best_block (m_chain (h_tp st))))
      as [Heq | _]; [contradiction|].
    cbn [negb clear_for_new_block]. fold tp0. fold clients0.
    destruct (update_clients tp0 clients0 true) as [tp2 cs2]. reflexivity. }
  exists tp0, clients0.
  repeat split; try reflexivity.
  - unfold clients0. apply Forall_fmap, Forall_forall. intros c _. reflexivity.
  - exact Hst'.
  - intros id t Hl.
    destruct (update_clients_provider clients0 tp0 true) as [_ Hcache].
    rewrite <- Hst' in Hcache. cbn [fst] in Hcache.
    destruct (Hcache id t Hl) as [Hold|Hnew].
    + unfold tp0 in Hold. cbn in Hold. rewrite lookup_empty in Hold. discriminate Hold.
    + exact Hnew.
Qed.

(** *** The frame decoder and the end of the buffer *)

Lemma EncryptedMessageSize_nonneg n : 0 <= n -> 0 <= Noise.EncryptedMessageSize n.
Proof.
  intros Hn. unfold Noise.EncryptedMessageSize, Noise.POLY1305_TAGLEN,
    Noise.NOISE_MAX_CHUNK_SIZE.
  assert (Hq : 0 <= (n + 65535 - 1) / 65535) by (apply Z.div_pos; lia).
  lia.
Qed.

Lemma Sv2NetHeader_Unserialize_len bs h :
  Sv2NetHeader_Unserialize bs = Some h -> 0 <= m_msg_len h < 2 ^ 24.
Proof.
  unfold Sv2NetHeader_Unserialize.
  destruct bs as [|e0 [|e1 [|ty [|l0 [|l1 [|l2 rest]]]]]]; try discriminate.
  intros H; inversion H; subst; cbn [m_msg_len].
  pose proof (Z.mod_pos_bound l0 256) as B0.
  pose proof (Z.mod_pos_bound l1 256) as B1.
  pose proof (Z.mod_pos_bound l2 256) as B2. lia.
Qed.

(** The loop ends: every turn moves [bytes_read] forward by at least the
    22 bytes of a header. *)
Lemma read_loop_total fuel : forall buffer bytes_read client sv2_msgs touched,
  span_size buffer - bytes_read <= Z.of_nat fuel ->
  exists r, read_loop fuel buffer bytes_read client sv2_msgs touched = Some r.
Proof.
  induction fuel as [|fuel IH]; intros buffer bytes_read client sv2_msgs touched Hfuel.
  - cbn [read_loop]. destruct (Z.ltb_spec bytes_read (span_size buffer)); [lia|].
    eexists; reflexivity.
  - cbn [read_loop]. destruct (Z.ltb_spec bytes_read (span_size buffer)) as [Hlt|Hge];
      [|eexists; reflexivity].
    destruct (DecryptMessage (m_noise client) _) as [noise [plain|]];
      [|eexists; reflexivity].
    destruct (Sv2NetHeader_Unserialize _) as [header|] eqn:Hhdr; [|eexists; reflexivity].
    apply Sv2NetHeader_Unserialize_len in Hhdr.
    pose proof (EncryptedMessageSize_nonneg (m_msg_len header)) as Hexp.
    destruct (DecryptMessage (m_noise (set_noise noise client)) _) as [noise' [plain'|]];
      [|eexists; reflexivity].
    apply IH. unfold SV2_HEADER_ENCRYPTED_SIZE. lia.
Qed.

Lemma ReadAndDecryptSv2NetMsgs_total client buffer :
  exists r, ReadAndDecryptSv2NetMsgs client buffer = Some r.
Proof. apply read_loop_total. lia. Qed.

(** Spans handed to [DecryptMessage] are only ever added to the record. *)
Lemma read_loop_touched fuel : forall buffer bytes_read client sv2_msgs touched r,
  read_loop fuel buffer bytes_read client sv2_msgs touched = Some r ->
  exists rest, touched_of r = touched ++ rest.
Proof.
  induction fuel as [|fuel IH]; intros buffer bytes_read client sv2_msgs touched r;
    cbn [read_loop]; destruct (bytes_read <? span_size buffer).
  - discriminate.
  - intros H; inversion H; subst. exists []. cbn. rewrite app_nil_r. reflexivity.
  - destruct (DecryptMessage (m_noise client) _) as [noise [plain|]].
    + destruct (Sv2NetHeader_Unserialize _) as [header|].
      * destruct (DecryptMessage (m_noise (set_noise noise client)) _) as [noise' [plain'|]].
        -- intros H. apply IH in H as [rest Hrest].
           eexists. rewrite Hrest, <- !app_assoc. reflexivity.
        -- intros H; inversion H; subst. cbn. eexists.
           rewrite <- !app_assoc. reflexivity.
      * intros H; inversion H; subst. cbn. eexists. reflexivity.
    + intros H; inversion H; subst. cbn. eexists. reflexivity.
  - intros H; inversion H; subst. exists []. cbn. rewrite app_nil_r. reflexivity.
Qed.

(** While bytes remain, the next span is a full encrypted header, however
    few bytes remain. *)
Lemma read_loop_first_touch fuel buffer bytes_read client sv2_msgs touched r :
  bytes_read < span_size buffer ->
  read_loop fuel buffer bytes_read client sv2_msgs touched = Some r ->
  exists rest, touched_of r = touched ++ (bytes_read, SV2_HEADER_ENCRYPTED_SIZE) :: rest.
Proof.
  intros Hlt. destruct fuel as [|fuel]; cbn [read_loop];
    destruct (Z.ltb_spec bytes_read (span_size buffer)) as [_|Hge]; try lia;
    [discriminate|].
  destruct (DecryptMessage (m_noise client) _) as [noise [plain|]].
  - destruct (Sv2NetHeader_Unserialize _) as [header|].
    + destruct (DecryptMessage (m_noise (set_noise noise client)) _) as [noise' [plain'|]].
      * intros H. apply read_loop_touched in H as [rest Hrest].
        eexists. rewrite Hrest, <- !app_assoc. reflexivity.
      * intros H; inversion H; subst. cbn. eexists.
        rewrite <- !app_assoc. reflexivity.
    + intros H; inversion H; subst. cbn. eexists. reflexivity.
  - intros H; inversion H; subst. cbn. eexists. reflexivity.
Qed.

(** Once a header has decrypted, the next span is the payload at its full
    encrypted size, whatever is left of the buffer. *)
Lemma read_loop_payload_touch fuel buffer bytes_read client sv2_msgs touched
      noise plain header r :
  bytes_read < span_size buffer ->
  DecryptMessage (m_noise client) (span_bytes buffer bytes_read SV2_HEADER_ENCRYPTED_SIZE)
  = (noise, Some plain) ->
  Sv2NetHeader_Unserialize
    (firstn (Z.to_nat SV2_HEADER_PLAIN_SIZE)
            (decrypted_in_place
               (span_bytes buffer bytes_read SV2_HEADER_ENCRYPTED_SIZE) plain))
  = Some header ->
  read_loop (S fuel) buffer bytes_read client sv2_msgs touched = Some r ->
  exists rest,
    touched_of r
    = touched ++ (bytes_read, SV2_HEADER_ENCRYPTED_SIZE)
              :: (bytes_read + SV2_HEADER_ENCRYPTED_SIZE,
                  Noise.EncryptedMessageSize (m_msg_len header)) :: rest.
Proof.
  intros Hlt Hdec Hhdr. cbn [read_loop].
  destruct (Z.ltb_spec bytes_read (span_size buffer)) as [_|Hge]; [|lia].
  rewrite Hdec, Hhdr.
  destruct (DecryptMessage (m_noise (set_noise noise client)) _) as [noise' [plain'|]].
  - intros H. apply read_loop_touched in H as [rest Hrest].
    eexists. rewrite Hrest, <- !app_assoc. reflexivity.
  - intros H; inversion H; subst. cbn. eexists.
    rewrite <- !app_assoc. reflexivity.
Qed.

(** C2 (the code departs from it).  On a buffer that holds fewer bytes
    than an encrypted header, the decoder returns, and the first span it
    hands to [DecryptMessage] is 22 bytes long from offset 0: it reaches
    past the end of the buffer.  No length is compared with
    [buffer.size()] before the span is made; the client is flagged for
    disconnect when the MAC over those 22 bytes fails. *)
Theorem ReadAndDecryptSv2NetMsgs_reads_past_short_buffer
        (client : Sv2Client) (buffer : Span) :
  0 < span_size buffer < SV2_HEADER_ENCRYPTED_SIZE ->
  exists r rest,
    ReadAndDecryptSv2NetMsgs client buffer = Some r /\
    touched_of r = (0, SV2_HEADER_ENCRYPTED_SIZE) :: rest /\
    inside (span_size buffer) (0, SV2_HEADER_ENCRYPTED_SIZE) = false /\
    (snd (DecryptMessage (m_noise client)
            (span_bytes buffer 0 SV2_HEADER_ENCRYPTED_SIZE)) = None ->
     m_disconnect_flag (client_of r) = true).
Proof.
  intros [Hpos Hshort].
  destruct (ReadAndDecryptSv2NetMsgs_total client buffer) as [r Hr].
  pose proof Hr as Hr'. unfold ReadAndDecryptSv2NetMsgs in Hr'.
  apply read_loop_first_touch in Hr' as [rest Hrest]; [|exact Hpos].
  exists r, rest. split; [exact Hr|]. split; [exact Hrest|]. split.
  - unfold inside. cbn [fst snd].
    destruct (Z.leb_spec (0 + SV2_HEADER_ENCRYPTED_SIZE) (span_size buffer)); [lia|].
    reflexivity.
  - intros Hmac. unfold ReadAndDecryptSv2NetMsgs in Hr.
    destruct (Z.to_nat (span_size buffer)) as [|fuel] eqn:Hfuel; [lia|].
    cbn [read_loop] in Hr.
    destruct (Z.ltb_spec 0 (span_size buffer)); [|lia].
    destruct (DecryptMessage (m_noise client) _) as [noise [plain|]];
      [discriminate Hmac|].
    inversion Hr; subst. reflexivity.
Qed.

(** ** Further properties of the client state machine *)

(** Case analysis on every test in a hypothesis. *)
Ltac handler_cases H :=
  repeat match type of H with
    | context [match ?x with _ => _ end] => destruct x eqn:?
    end.

(** Turn what is known of sends and of tests into field equations. *)
Ltac session_facts :=
  repeat match goal with
    | E : EncryptAndSendMessage _ _ = _ |- _ =>
        apply EncryptAndSendMessage_frame in E;
        destruct E as (? & ? & ? & ? & ?)
    | Hn : negb _ = false |- _ => apply negb_false_iff in Hn
    | Hn : negb _ = true |- _ => apply negb_true_iff in Hn
    | Hn : _ && _ = true |- _ => apply andb_true_iff in Hn; destruct Hn
    | Hn : _ && _ = false |- _ => apply andb_false_iff in Hn
    end.

(** [SendWork] changes, of a client, only the socket, the session and the
    fee mark. *)
Lemma SendWork_session tp client flag ok tp' client' :
  SendWork tp client flag = (ok, tp', client') ->
  m_disconnect_flag client' = m_disconnect_flag client /\
  m_setup_connection_confirmed client' = m_setup_connection_confirmed client /\
  m_coinbase_output_data_size_recv client' = m_coinbase_output_data_size_recv client /\
  m_coinbase_tx_outputs_size client' = m_coinbase_tx_outputs_size client.
Proof.
  unfold SendWork. intros H.
  handler_cases H; inversion H; subst; clear H; session_facts; cbn;
    repeat split; congruence.
Qed.

(** The order of the session: [CoinbaseOutputDataSize] counts only after
    [SetupConnection], and a size is on record only after
    [CoinbaseOutputDataSize]. *)
Definition session_ok (c : Sv2Client) : Prop :=
  (m_coinbase_output_data_size_recv c = true -> m_setup_connection_confirmed c = true) /\
  (m_coinbase_tx_outputs_size c <> 0 -> m_coinbase_output_data_size_recv c = true).

Lemma ProcessSv2Message_session_ok msg tp client tp' client' :
  session_ok client ->
  ProcessSv2Message msg tp client = Done (tp', client') ->
  session_ok client'.
Proof.
  unfold session_ok. intros [Hrecv Hsize] H.
  unfold ProcessSv2Message in H.
  handler_cases H; try discriminate H; inversion H; subst; clear H;
    session_facts;
    repeat match goal with
      | E : SendWork _ _ _ = _ |- _ =>
          apply SendWork_session in E; destruct E as (? & ? & ? & ?)
      end;
    cbn in *; split; intros; try congruence; try tauto;
    repeat match goal with
      | Heq : ?a = ?b |- _ => rewrite Heq in *
      end; cbn in *; try congruence; try tauto.
Qed.

Lemma update_clients_session_ok clients : forall tp flag,
  Forall session_ok clients ->
  Forall session_ok (snd (update_clients tp clients flag)).
Proof.
  induction clients as [|c rest IH]; intros tp flag Hall; cbn [update_clients].
  - constructor.
  - apply Forall_cons in Hall as [Hc Hrest].
    destruct (m_coinbase_tx_outputs_size c =? 0).
    + specialize (IH tp flag Hrest).
      destruct (update_clients tp rest flag) as [tp1 rest1]. cbn in *.
      apply Forall_cons_2; assumption.
    + destruct (SendWork tp c flag) as [[ok tp1] c1] eqn:Ework.
      apply SendWork_session in Ework as (Hd & Hs & Hr & Hz).
      specialize (IH tp1 flag Hrest).
      destruct (update_clients tp1 rest flag) as [tp2 rest1]. cbn in *.
      apply Forall_cons_2; [|assumption].
      unfold session_ok in *. destruct ok; cbn; rewrite ?Hs, ?Hr, ?Hz; exact Hc.
Qed.

(** X1.  In every state a client reaches through messages and through the
    scheduling pass, [m_coinbase_output_data_size_recv] implies
    [m_setup_connection_confirmed], and a non-zero
    [m_coinbase_tx_outputs_size] implies
    [m_coinbase_output_data_size_recv]: the scheduler, which serves the
    clients with a non-zero size, only serves clients that went through
    both steps. *)
Theorem session_order_kept :
  (forall msgs tp client tp' client',
      session_ok client ->
      ProcessSv2Messages msgs tp client = Done (tp', client') ->
      session_ok client') /\
  (forall now st,
      Forall session_ok (m_sv2_clients st) ->
      Forall session_ok (m_sv2_clients (ThreadSv2Handler_schedule now st))).
Proof.
  split.
  - induction msgs as [|m rest IH]; intros tp client tp' client' Hok H; cbn in H.
    + inversion H; subst. exact Hok.
    + destruct (ProcessSv2Message m tp client) as [[tp1 c1]|] eqn:Hone; [|discriminate H].
      eapply IH; [|exact H]. eapply ProcessSv2Message_session_ok; eassumption.
  - intros now st Hall.
    assert (Hkept : Forall session_ok (DisconnectFlagged (m_sv2_clients st))).
    { unfold DisconnectFlagged. rewrite Forall_forall in Hall |- *.
      intros c Hc. apply list_elem_of_filter in Hc as [_ Hc]. apply Hall, Hc. }
    unfold ThreadSv2Handler_schedule.
    destruct (check_best_block (h_tp st)) as [changed tp].
    destruct changed.
    + unfold clear_for_new_block.
      match goal with |- context [update_clients ?t ?cs ?f] =>
        pose proof (update_clients_session_ok cs t f) as Hupd;
        destruct (update_clients t cs f) as [tp2 cs2]
      end.
      cbn in *. apply Hupd.
      apply Forall_fmap. eapply Forall_impl; [exact Hkept|].
      intros c Hc. exact Hc.
    + destruct (trigger now (timer st)) as [fired tm].
      destruct (fired && _).
      * match goal with |- context [update_clients ?t ?cs ?f] =>
          pose proof (update_clients_session_ok cs t f) as Hupd;
          destruct (update_clients t cs f) as [tp2 cs2]
        end.
        cbn in *. apply Hupd. exact Hkept.
      * cbn. exact Hkept.
Qed.

(** Facts about [SendWork] as field equations. *)
Ltac work_facts :=
  repeat match goal with
    | E : SendWork _ _ _ = _ |- _ =>
        apply SendWork_session in E; destruct E as (? & ? & ? & ?)
    end.

(** The three flags of a client, once set, stay set. *)
Definition flags_kept (c c' : Sv2Client) : Prop :=
  (m_disconnect_flag c = true -> m_disconnect_flag c' = true) /\
  (m_setup_connection_confirmed c = true -> m_setup_connection_confirmed c' = true) /\
  (m_coinbase_output_data_size_recv c = true ->
   m_coinbase_output_data_size_recv c' = true).

Lemma flags_kept_refl c : flags_kept c c.
Proof. unfold flags_kept. tauto. Qed.

Lemma flags_kept_trans c1 c2 c3 :
  flags_kept c1 c2 -> flags_kept c2 c3 -> flags_kept c1 c3.
Proof. unfold flags_kept. tauto. Qed.

Lemma ProcessSv2Message_flags_kept msg tp client tp' client' :
  ProcessSv2Message msg tp client = Done (tp', client') ->
  flags_kept client client'.
Proof.
  unfold flags_kept. intros H.
  unfold ProcessSv2Message in H.
  handler_cases H; try discriminate H; inversion H; subst; clear H;
    session_facts; work_facts; cbn in *;
    repeat split; intros; congruence.
Qed.

(** X2.  No message handler clears a flag: after any sequence of processed
    messages a client that was flagged for disconnect is still flagged, one
    that was confirmed is still confirmed, and one whose
    [CoinbaseOutputDataSize] was received still has it marked received. *)
Theorem flags_never_cleared
        (msgs : list Sv2NetMsg) (tp tp' : Sv2TemplateProvider) (client client' : Sv2Client) :
  ProcessSv2Messages msgs tp client = Done (tp', client') ->
  (m_disconnect_flag client = true -> m_disconnect_flag client' = true) /\
  (m_setup_connection_confirmed client = true ->
   m_setup_connection_confirmed client' = true) /\
  (m_coinbase_output_data_size_recv client = true ->
   m_coinbase_output_data_size_recv client' = true).
Proof.
  revert tp client.
  induction msgs as [|m rest IH]; intros tp client H; cbn in H.
  - inversion H; subst. apply flags_kept_refl.
  - destruct (ProcessSv2Message m tp client) as [[tp1 c1]|] eqn:Hone; [|discriminate H].
    apply ProcessSv2Message_flags_kept in Hone.
    apply IH in H. exact (flags_kept_trans _ _ _ Hone H).
Qed.

(** X3.  A client becomes confirmed in one way only: by a
    [SetupConnection] that decodes, names the template-provider
    sub-protocol and a version range holding the server's version, and
    whose [SetupConnectionSuccess] reply was written to the socket.  The
    provider is not changed by it. *)
Theorem confirmed_only_by_SetupConnection
        (msg : Sv2NetMsg) (tp tp' : Sv2TemplateProvider) (client client' : Sv2Client) :
  ProcessSv2Message msg tp client = Done (tp', client') ->
  m_setup_connection_confirmed client = false ->
  m_setup_connection_confirmed client' = true ->
  m_msg_type (m_sv2_header msg) = SETUP_CONNECTION /\
  tp' = tp /\
  exists setup_conn,
    Unserialize_SetupConnection (m_msg msg) = Some setup_conn /\
    m_protocol setup_conn = TP_SUBPROTOCOL /\
    m_min_version setup_conn <= m_protocol_version tp <= m_max_version setup_conn /\
    m_sock client' =
    m_sock client
    ++ [Sv2SetupConnectionSuccessMsg (m_protocol_version tp) (m_optional_features tp)].
Proof.
  intros H Hbefore Hafter.
  unfold ProcessSv2Message in H.
  handler_cases H; try discriminate H; inversion H; subst; clear H;
    try (exfalso; session_facts; work_facts; cbn in *; congruence).
  match goal with
  | E : EncryptAndSendMessage _ _ = (true, _) |- _ =>
      apply EncryptAndSendMessage_true in E; rename E into Hsock
  end.
  session_facts.
  repeat match goal with
    | Hq : (_ =? _) = true |- _ => apply Z.eqb_eq in Hq
    | Hq : _ || _ = false |- _ => apply orb_false_iff in Hq; destruct Hq
    | Hq : (_ <? _) = false |- _ => apply Z.ltb_ge in Hq
    | Hq : (_ >? _) = false |- _ => rewrite Z.gtb_ltb in Hq; apply Z.ltb_ge in Hq
    end.
  split; [assumption|]. split; [reflexivity|].
  eexists. split; [reflexivity|].
  split; [assumption|]. split; [lia|]. exact Hsock.
Qed.

(** The body of a message does not decode: the decoder that
    [ProcessSv2Message] applies to a message of its type throws.  What the
    decoders of the other types make of the body does not matter. *)
Definition body_undecodable (msg : Sv2NetMsg) : Prop :=
  (m_msg_type (m_sv2_header msg) = SETUP_CONNECTION /\
   Unserialize_SetupConnection (m_msg msg) = None) \/
  (m_msg_type (m_sv2_header msg) = COINBASE_OUTPUT_DATA_SIZE /\
   Unserialize_CoinbaseOutputDataSize (m_msg msg) = None) \/
  (m_msg_type (m_sv2_header msg) = SUBMIT_SOLUTION /\
   Unserialize_SubmitSolution (m_msg msg) = None) \/
  (m_msg_type (m_sv2_header msg) = REQUEST_TRANSACTION_DATA /\
   Unserialize_RequestTransactionData (m_msg msg) = None).

(** X4.  A message whose body does not decode never changes the provider
    and never writes to the socket.  It flags the client for disconnect
    when it is a [SetupConnection] from a client not yet confirmed, a
    [CoinbaseOutputDataSize], or a [SubmitSolution] from a client with
    neither flag set; in every other case, a [RequestTransactionData]
    included, the client is left exactly as it was. *)
Theorem undecodable_message_effect
        (msg : Sv2NetMsg) (tp : Sv2TemplateProvider) (client : Sv2Client) :
  body_undecodable msg ->
  let ty := m_msg_type (m_sv2_header msg) in
  let flagged :=
    (ty =? SETUP_CONNECTION) && negb (m_setup_connection_confirmed client)
    || (ty =? COINBASE_OUTPUT_DATA_SIZE)
    || (ty =? SUBMIT_SOLUTION) && negb (m_setup_connection_confirmed client)
       && negb (m_coinbase_output_data_size_recv client) in
  ProcessSv2Message msg tp client
  = Done (tp, if flagged then set_disconnect_flag true client else client).
Proof.
  intros Hbody ty flagged.
  unfold ProcessSv2Message, flagged. fold ty.
  destruct Hbody as [[Hty Hdec] | [[Hty Hdec] | [[Hty Hdec] | [Hty Hdec]]]];
    fold ty in Hty; rewrite Hty, Hdec;
    unfold SETUP_CONNECTION, COINBASE_OUTPUT_DATA_SIZE, SUBMIT_SOLUTION,
      REQUEST_TRANSACTION_DATA;
    cbn [Z.eqb Pos.eqb andb orb].
  - destruct (m_setup_connection_confirmed client); reflexivity.
  - destruct (m_setup_connection_confirmed client); reflexivity.
  - destruct (m_setup_connection_confirmed client),
      (m_coinbase_output_data_size_recv client); reflexivity.
  - reflexivity.
Qed.

(** ** Further properties of the template scheduler *)

(** Every call of [SendWork] takes the next template id, whatever comes of
    the call. *)
Lemma SendWork_template_id tp client flag ok tp' client' :
  SendWork tp client flag = (ok, tp', client') ->
  m_template_id tp' = wrap_u64 (m_template_id tp + 1).
Proof.
  unfold SendWork. intros H.
  handler_cases H; inversion H; subst; reflexivity.
Qed.

Lemma wrap_u64_succ a n : wrap_u64 (wrap_u64 (a + n) + 1) = wrap_u64 (a + (n + 1)).
Proof.
  unfold wrap_u64. rewrite Z.add_mod_idemp_l by lia. f_equal. lia.
Qed.

(** The clients the scheduler serves: those with a size on record. *)
Definition served (clients : list Sv2Client) : list Sv2Client :=
  List.filter (fun c => negb (m_coinbase_tx_outputs_size c =? 0)) clients.

Lemma update_clients_accounting_from clients : forall tp flag n,
  m_template_id tp = wrap_u64 n ->
  length (snd (update_clients tp clients flag)) = length clients /\
  m_template_id (fst (update_clients tp clients flag))
  = wrap_u64 (n + Z.of_nat (length (served clients))) /\
  Forall2 (fun c c' => m_coinbase_tx_outputs_size c = 0 -> c' = c)
          clients (snd (update_clients tp clients flag)).
Proof.
  induction clients as [|c rest IH]; intros tp flag n Hid; cbn [update_clients served List.filter].
  - cbn. rewrite Z.add_0_r. repeat split; [exact Hid | constructor].
  - destruct (Z.eqb_spec (m_coinbase_tx_outputs_size c) 0) as [Hz|Hnz]; cbn [negb].
    + destruct (IH tp flag n Hid) as (Hlen & Hids & Hskip).
      destruct (update_clients tp rest flag) as [tp1 rest1]. cbn in *.
      split; [congruence|]. split; [exact Hids|].
      constructor; [reflexivity | exact Hskip].
    + destruct (SendWork tp c flag) as [[ok tp1] c1] eqn:Ework.
      apply SendWork_template_id in Ework.
      assert (Hid1 : m_template_id tp1 = wrap_u64 (n + 1)).
      { rewrite Ework, Hid.
        rewrite <- (Z.add_0_r n) at 1. rewrite wrap_u64_succ. reflexivity. }
      destruct (IH tp1 flag (n + 1) Hid1) as (Hlen & Hids & Hskip).
      destruct (update_clients tp1 rest flag) as [tp2 rest1]. cbn [fst snd] in *.
      split; [cbn; congruence|]. split.
      * rewrite Hids. f_equal. unfold served. cbn [length].
        rewrite Nat2Z.inj_succ. lia.
      * constructor; [intros Hz; contradiction | exact Hskip].
Qed.

(** X5.  The loop that updates the clients keeps their number and order,
    takes one template id for every client with a non-zero
    [m_coinbase_tx_outputs_size] (whether or not anything is sent to it),
    and leaves a client whose size is 0 exactly as it was: such a client,
    also one that asked for 0 additional bytes, is never sent a template by
    the scheduler. *)
Theorem update_clients_accounting
        (tp : Sv2TemplateProvider) (clients : list Sv2Client) (flag : bool) :
  0 <= m_template_id tp < 2 ^ 64 ->
  length (snd (update_clients tp clients flag)) = length clients /\
  m_template_id (fst (update_clients tp clients flag))
  = wrap_u64 (m_template_id tp + Z.of_nat (length (served clients))) /\
  Forall2 (fun c c' => m_coinbase_tx_outputs_size c = 0 -> c' = c)
          clients (snd (update_clients tp clients flag)).
Proof.
  intros Hid. apply update_clients_accounting_from.
  symmetry. apply wrap_u64_id. exact Hid.
Qed.

(** [SendWork] never replaces or removes a cached template. *)
Lemma SendWork_cache_kept tp client flag ok tp' client' k t :
  SendWork tp client flag = (ok, tp', client') ->
  m_block_cache tp !! k = Some t ->
  m_block_cache tp' !! k = Some t.
Proof.
  unfold SendWork. intros H Hk.
  assert (Hins : forall k' v, map_insert k' v (m_block_cache tp) !! k = Some t).
  { intros k' v. unfold map_insert.
    destruct (m_block_cache tp !! k') eqn:Hk'; [exact Hk|].
    rewrite lookup_insert_ne; [exact Hk|]. congruence. }
  handler_cases H; inversion H; subst; cbn; auto.
Qed.

Lemma ProcessSv2Message_cache_keys msg tp client tp' client' k :
  ProcessSv2Message msg tp client = Done (tp', client') ->
  is_Some (m_block_cache tp !! k) ->
  is_Some (m_block_cache tp' !! k).
Proof.
  intros H [t Hk]. unfold ProcessSv2Message in H.
  handler_cases H; try discriminate H; inversion H; subst; clear H; cbn; eauto.
  - match goal with
    | E : SendWork _ _ _ = _ |- _ => eapply SendWork_cache_kept in E; [eauto|]
    end.
    cbn. exact Hk.
  - match goal with
    | |- is_Some (<[?i:=_]> _ !! _) => destruct (decide (i = k)) as [->|Hne]
    end.
    + rewrite lookup_insert_eq. eauto.
    + rewrite lookup_insert_ne by exact Hne. eauto.
Qed.

(** X6.  Handling messages never drops a template from the block cache: a
    [template_id] that is cached before a sequence of messages is still
    cached after it.  (Only the pass that sees a new best block empties
    the cache.) *)
Theorem block_cache_ids_kept
        (msgs : list Sv2NetMsg) (tp tp' : Sv2TemplateProvider) (client client' : Sv2Client)
        (k : Z) :
  ProcessSv2Messages msgs tp client = Done (tp', client') ->
  is_Some (m_block_cache tp !! k) ->
  is_Some (m_block_cache tp' !! k).
Proof.
  revert tp client.
  induction msgs as [|m rest IH]; intros tp client H Hk; cbn in H.
  - inversion H; subst. exact Hk.
  - destruct (ProcessSv2Message m tp client) as [[tp1 c1]|] eqn:Hone; [|discriminate H].
    eapply IH; [exact H|]. eapply ProcessSv2Message_cache_keys; eassumption.
Qed.

(** Every cached template id has been handed out by the counter. *)
Definition cache_ids_used (tp : Sv2TemplateProvider) : Prop :=
  0 <= m_template_id tp /\
  forall k, is_Some (m_block_cache tp !! k) -> k <= m_template_id tp.

Lemma map_insert_keys k v (m : gmap Z CBlockTemplate) i :
  is_Some (map_insert k v m !! i) -> is_Some (m !! i) \/ i = k.
Proof.
  unfold map_insert. destruct (m !! k) eqn:Hk; [left; assumption|].
  destruct (decide (k = i)) as [->|Hne]; [right; reflexivity|].
  rewrite lookup_insert_ne by exact Hne. left; assumption.
Qed.

Lemma SendWork_cache_ids_used tp client flag ok tp' client' :
  cache_ids_used tp ->
  m_template_id tp + 1 < 2 ^ 64 ->
  SendWork tp client flag = (ok, tp', client') ->
  cache_ids_used tp' /\ m_template_id tp' = m_template_id tp + 1.
Proof.
  intros [Hpos Hkeys] Hwrap H.
  pose proof (SendWork_template_id _ _ _ _ _ _ H) as Hid.
  rewrite wrap_u64_id in Hid by lia.
  split; [|exact Hid].
  split; [lia|].
  intros k Hk. rewrite Hid.
  unfold SendWork in H.
  handler_cases H; inversion H; subst; clear H; cbn in Hk;
    try (apply map_insert_keys in Hk as [Hk| ->]; cbn;
         [specialize (Hkeys k Hk); lia | rewrite wrap_u64_id by lia; lia]);
    specialize (Hkeys k Hk); lia.
Qed.

Lemma ProcessSv2Message_cache_ids_used msg tp client tp' client' :
  cache_ids_used tp ->
  m_template_id tp + 1 < 2 ^ 64 ->
  ProcessSv2Message msg tp client = Done (tp', client') ->
  cache_ids_used tp' /\ m_template_id tp <= m_template_id tp' <= m_template_id tp + 1.
Proof.
  intros Hinv Hwrap H. pose proof Hinv as [Hpos Hkeys].
  unfold ProcessSv2Message in H.
  handler_cases H; try discriminate H; inversion H; subst; clear H;
    try (split; [exact Hinv | lia]).
  - match goal with
    | E : SendWork _ _ _ = _ |- _ =>
        apply SendWork_cache_ids_used in E; [|exact Hinv|exact Hwrap];
        destruct E as [Hinv' Hid']
    end.
    split; [exact Hinv' | lia].
  - split; [|cbn; lia].
    split; [exact Hpos|]. intros k Hk. cbn in Hk |- *.
    match type of Hk with
    | is_Some (<[?i:=_]> _ !! _) => destruct (decide (i = k)) as [<-|Hne]
    end.
    + apply Hkeys. eauto.
    + rewrite lookup_insert_ne in Hk by exact Hne. apply Hkeys, Hk.
Qed.

(** X7.  As long as the 64-bit counter does not wrap, every [template_id]
    in the block cache is at most [m_template_id], through any sequence of
    messages: so the id that the next [SendWork] takes is not in the cache,
    and its template is stored, not dropped by [insert]. *)
Theorem cache_ids_below_counter
        (msgs : list Sv2NetMsg) (tp tp' : Sv2TemplateProvider) (client client' : Sv2Client) :
  cache_ids_used tp ->
  m_template_id tp + Z.of_nat (length msgs) < 2 ^ 64 ->
  ProcessSv2Messages msgs tp client = Done (tp', client') ->
  cache_ids_used tp' /\
  m_template_id tp' <= m_template_id tp + Z.of_nat (length msgs) /\
  m_block_cache tp' !! (m_template_id tp' + 1) = None.
Proof.
  revert tp client.
  induction msgs as [|m rest IH]; intros tp client Hinv Hwrap H; cbn in H.
  - inversion H; subst. split; [exact Hinv|]. split; [cbn; lia|].
    destruct Hinv as [_ Hkeys].
    destruct (m_block_cache tp' !! (m_template_id tp' + 1)) eqn:Hk; [|reflexivity].
    assert (Hs : is_Some (m_block_cache tp' !! (m_template_id tp' + 1))) by eauto.
    specialize (Hkeys _ Hs). lia.
  - rewrite length_cons, Nat2Z.inj_succ in Hwrap |- *.
    destruct (ProcessSv2Message m tp client) as [[tp1 c1]|] eqn:Hone; [|discriminate H].
    apply ProcessSv2Message_cache_ids_used in Hone as [Hinv1 Hid1]; [|exact Hinv|lia].
    destruct (IH tp1 c1 Hinv1 ltac:(lia) H) as (Hinv' & Hid' & Hfresh).
    split; [exact Hinv'|]. split; [lia | exact Hfresh].
Qed.

Lemma EncryptAndSendMessage_false client msg client' :
  EncryptAndSendMessage client msg = (false, client') ->
  m_sock client' = m_sock client.
Proof.
  unfold EncryptAndSendMessage. cbn [set_noise m_sock].
  destruct (SendBuf (m_sock client) msg); intros H; inversion H; reflexivity.
Qed.

(** A [NewTemplate] that [SendWork] has put on the socket names the id the
    call took and the block of the template the call put in the cache. *)
Lemma SendWork_announces tp client flag ok tp' client' b id f :
  SendWork tp client flag = (ok, tp', client') ->
  Sv2NewTemplateMsg b id f ∈ m_sock client' ->
  Sv2NewTemplateMsg b id f ∉ m_sock client ->
  id = m_template_id tp' /\
  b = block (CreateNewBlock (m_chain tp) (weight_for client)) /\
  m_block_cache tp'
  = map_insert id (CreateNewBlock (m_chain tp) (weight_for client)) (m_block_cache tp).
Proof.
  unfold SendWork. intros H Hin Hnot.
  handler_cases H; inversion H; subst; clear H;
    repeat match goal with
      | E : EncryptAndSendMessage _ _ = (true, _) |- _ =>
          apply EncryptAndSendMessage_true in E
      | E : EncryptAndSendMessage _ _ = (false, _) |- _ =>
          apply EncryptAndSendMessage_false in E
      end;
    cbn [set_latest_submitted_template_fees m_sock] in Hin;
    repeat match goal with
      | E : m_sock _ = _ |- _ => rewrite E in Hin
      end;
    try contradiction;
    repeat (apply elem_of_app in Hin as [Hin|Hin]); try contradiction;
    apply list_elem_of_singleton in Hin; inversion Hin; subst;
    repeat split.
Qed.

(** X8.  A template that [SendWork] announces can be fetched: when the
    cache ids are at most the counter and the counter does not wrap, any
    new [NewTemplate] that a call puts on a client's socket carries a
    [template_id] under which the cache then holds the template, so that a
    [RequestTransactionData] for that id, from any client, is answered with
    [RequestTransactionDataSuccess] listing the transactions of the
    announced block after its coinbase.  ([w] is the witness reserve value
    read from that block, and the reply is one that [SendBuf] writes.) *)
Theorem announced_template_is_served
        (tp tp' : Sv2TemplateProvider) (client client' requester : Sv2Client)
        (flag ok : bool) (b : CBlock) (id : Z) (f : bool)
        (msg : Sv2NetMsg) (req : Sv2RequestTransactionDataMsg) (w : list Z) :
  cache_ids_used tp ->
  m_template_id tp + 1 < 2 ^ 64 ->
  SendWork tp client flag = (ok, tp', client') ->
  Sv2NewTemplateMsg b id f ∈ m_sock client' ->
  Sv2NewTemplateMsg b id f ∉ m_sock client ->
  m_msg_type (m_sv2_header msg) = REQUEST_TRANSACTION_DATA ->
  Unserialize_RequestTransactionData (m_msg msg) = Some req ->
  req_template_id req = id ->
  witness_reserve_value_of b = Done w ->
  SendBuf (m_sock requester) (Sv2RequestTransactionDataSuccessMsg id w (txs_of b)) = true ->
  exists requester',
    ProcessSv2Message msg tp' requester = Done (tp', requester') /\
    m_sock requester'
    = m_sock requester ++ [Sv2RequestTransactionDataSuccessMsg id w (txs_of b)].
Proof.
  intros [Hpos Hkeys] Hwrap Hwork Hin Hnot Hty Hdec Hreq Hw Hsend.
  pose proof (SendWork_template_id _ _ _ _ _ _ Hwork) as Hid'.
  rewrite wrap_u64_id in Hid' by lia.
  destruct (SendWork_announces _ _ _ _ _ _ _ _ _ Hwork Hin Hnot) as (Hid & Hb & Hcache).
  assert (Hlook : m_block_cache tp' !! id
                  = Some (CreateNewBlock (m_chain tp) (weight_for client))).
  { rewrite Hcache. unfold map_insert.
    destruct (m_block_cache tp !! id) eqn:Hold.
    - assert (Hs : is_Some (m_block_cache tp !! id)) by eauto.
      specialize (Hkeys _ Hs). lia.
    - apply lookup_insert_eq. }
  unfold ProcessSv2Message. rewrite Hty.
  cbn [Z.eqb REQUEST_TRANSACTION_DATA SETUP_CONNECTION COINBASE_OUTPUT_DATA_SIZE
       SUBMIT_SOLUTION Pos.eqb].
  rewrite Hdec, Hreq, Hlook. rewrite <- Hb. rewrite Hw.
  unfold EncryptAndSendMessage. cbn [set_noise m_sock].
  rewrite Hsend. eexists. split; reflexivity.
Qed.

Lemma app_singleton_neq {A} (l : list A) (x : A) : l ++ [x] <> l.
Proof.
  intros H. apply (f_equal (@length A)) in H.
  rewrite length_app in H. cbn in H. lia.
Qed.

Lemma app_pair_neq {A} (l : list A) (x y : A) : (l ++ [x]) ++ [y] <> l.
Proof.
  intros H. apply (f_equal (@length A)) in H.
  rewrite !length_app in H. cbn in H. lia.
Qed.

(** X9.  [m_latest_submitted_template_fees] is the fee total of the last
    template the client was fully sent.  A call of [SendWork] that fails
    leaves it alone; a call that succeeds either writes nothing and leaves
    it alone (the update was not worth sending: the mark plus
    [m_minimum_fee_delta] exceeds the new total), or writes to the socket
    and sets it to the new total, which for an update is at least the old
    mark plus [m_minimum_fee_delta]. *)
Theorem fee_mark_follows_sent_template
        (tp tp' : Sv2TemplateProvider) (client client' : Sv2Client) (flag ok : bool) :
  in_i64 (m_latest_submitted_template_fees client + m_minimum_fee_delta tp) ->
  SendWork tp client flag = (ok, tp', client') ->
  let mark := m_latest_submitted_template_fees client in
  let mark' := m_latest_submitted_template_fees client' in
  let fees := sum_fees_from 0 (vTxFees (CreateNewBlock (m_chain tp) (weight_for client))) in
  (ok = false -> mark' = mark) /\
  (ok = true ->
   (m_sock client' = m_sock client /\ mark' = mark /\
    flag = false /\ mark + m_minimum_fee_delta tp > fees) \/
   (m_sock client' <> m_sock client /\ mark' = fees /\
    (flag = false -> mark + m_minimum_fee_delta tp <= fees))).
Proof.
  intros Hrange H mark mark' fees. subst mark mark'.
  unfold SendWork in H.
  cbn [BuildNewWorkSet block_template m_chain set_template_id m_minimum_fee_delta] in H.
  fold (weight_for client) in H. fold fees in H.
  rewrite (wrap_i64_id _ Hrange) in H.
  destruct flag; cbn [negb andb] in H.
  - destruct (EncryptAndSendMessage client _) as [[|] c1] eqn:E1.
    + destruct (EncryptAndSendMessage c1 _) as [[|] c2] eqn:E2;
        inversion H; subst; clear H.
      * split; [discriminate|]. intros _. right.
        apply EncryptAndSendMessage_true in E1, E2.
        cbn [set_latest_submitted_template_fees m_sock m_latest_submitted_template_fees].
        rewrite E2, E1. split; [apply app_pair_neq|]. split; [reflexivity|discriminate].
      * split; [|discriminate]. intros _.
        apply EncryptAndSendMessage_frame in E1 as (_ & _ & _ & _ & E1).
        apply EncryptAndSendMessage_frame in E2 as (_ & _ & _ & _ & E2). congruence.
    + inversion H; subst; clear H. split; [|discriminate]. intros _.
      apply EncryptAndSendMessage_frame in E1 as (_ & _ & _ & _ & E1). exact E1.
  - destruct (Z.gtb_spec (m_latest_submitted_template_fees client + m_minimum_fee_delta tp)
                         fees) as [Hgt|Hle].
    + inversion H; subst; clear H. split; [discriminate|]. intros _. left.
      repeat split. lia.
    + destruct (EncryptAndSendMessage client _) as [[|] c1] eqn:E1;
        inversion H; subst; clear H.
      * split; [discriminate|]. intros _. right.
        apply EncryptAndSendMessage_true in E1.
        cbn [set_latest_submitted_template_fees m_sock m_latest_submitted_template_fees].
        rewrite E1. split; [apply app_singleton_neq|]. split; [reflexivity|].
        intros _. exact Hle.
      * split; [|discriminate]. intros _.
        apply EncryptAndSendMessage_frame in E1 as (_ & _ & _ & _ & E1). exact E1.
Qed.

(** [SendWork] and the client loop leave [m_best_prev_hash] alone. *)
Lemma SendWork_best_prev_hash tp client flag ok tp' client' :
  SendWork tp client flag = (ok, tp', client') ->
  m_best_prev_hash tp' = m_best_prev_hash tp /\ m_chain tp' = m_chain tp.
Proof.
  unfold SendWork. intros H.
  handler_cases H; inversion H; subst; split; reflexivity.
Qed.

Lemma update_clients_best_prev_hash clients : forall tp flag,
  m_best_prev_hash (fst (update_clients tp clients flag)) = m_best_prev_hash tp /\
  m_chain (fst (update_clients tp clients flag)) = m_chain tp.
Proof.
  induction clients as [|c rest IH]; intros tp flag; cbn [update_clients].
  - split; reflexivity.
  - destruct (m_coinbase_tx_outputs_size c =? 0).
    + specialize (IH tp flag).
      destruct (update_clients tp rest flag) as [tp1 rest1]. exact IH.
    + destruct (SendWork tp c flag) as [[ok tp1] c1] eqn:Ework.
      apply SendWork_best_prev_hash in Ework as [Hb Hc].
      specialize (IH tp1 flag).
      destruct (update_clients tp1 rest flag) as [tp2 rest1]. cbn in *.
      destruct IH as [IHb IHc]. split; congruence.
Qed.

(** X10.  A pass of the handler that sees no new best block, and at which
    the timer is not due or the mempool counter has not passed
    [template_last_update], builds nothing and sends nothing: the provider
    is unchanged (no template id is taken) and the clients are those that
    were not flagged, as they were. *)
Theorem idle_pass_changes_nothing (now : Z) (st : HandlerState) :
  m_best_prev_hash (h_tp st) = g_best_block (m_chain (h_tp st)) ->
  now - m_last_triggered (timer st) < m_interval (timer st) \/
  GetTransactionsUpdated (m_chain (h_tp st)) <= template_last_update st ->
  h_tp (ThreadSv2Handler_schedule now st) = h_tp st /\
  m_sv2_clients (ThreadSv2Handler_schedule now st) = DisconnectFlagged (m_sv2_clients st) /\
  template_last_update (ThreadSv2Handler_schedule now st) = template_last_update st.
Proof.
  intros Hbest Hidle.
  unfold ThreadSv2Handler_schedule, check_best_block, trigger.
  rewrite Hbest, Z.eqb_refl. cbn [negb].
  destruct (Z.geb_spec (now - m_last_triggered (timer st)) (m_interval (timer st)))
    as [Hdue|Hnot]; cbn [andb].
  - destruct (Z.gtb_spec (GetTransactionsUpdated (m_chain (h_tp st)))
                         (template_last_update st)) as [Hgt|Hle]; [lia|].
    cbn. repeat split.
  - cbn. repeat split.
Qed.

(** X11.  [template_last_update] moves only when a new best block is
    seen.  So once the mempool counter has passed it, templates are built
    again at every pass at which the timer is due, also when the mempool
    counter has not moved in between: after a pass that built templates
    for that reason, a pass one interval later takes a template id for
    every served client again. *)
Theorem rebuild_repeats_until_new_block (now now2 : Z) (st : HandlerState) :
  0 <= m_template_id (h_tp st) < 2 ^ 64 ->
  m_best_prev_hash (h_tp st) = g_best_block (m_chain (h_tp st)) ->
  now - m_last_triggered (timer st) >= m_interval (timer st) ->
  GetTransactionsUpdated (m_chain (h_tp st)) > template_last_update st ->
  now2 - now >= m_interval (timer st) ->
  let st1 := ThreadSv2Handler_schedule now st in
  let st2 := ThreadSv2Handler_schedule now2 st1 in
  template_last_update st1 = template_last_update st /\
  template_last_update st2 = template_last_update st /\
  m_template_id (h_tp st1)
  = wrap_u64 (m_template_id (h_tp st)
              + Z.of_nat (length (served (DisconnectFlagged (m_sv2_clients st))))) /\
  m_template_id (h_tp st2)
  = wrap_u64 (m_template_id (h_tp st)
              + Z.of_nat (length (served (DisconnectFlagged (m_sv2_clients st))))
              + Z.of_nat (length (served (DisconnectFlagged (m_sv2_clients st1))))).
Proof.
  intros Hid Hbest Hdue Hmem Hdue2. cbv zeta.
  remember (ThreadSv2Handler_schedule now st) as st1 eqn:Est1.
  remember (ThreadSv2Handler_schedule now2 st1) as st2 eqn:Est2.
  assert (Hst1 : st1 =
    let r := update_clients (h_tp st) (DisconnectFlagged (m_sv2_clients st)) false in
    mkHandler (fst r) (snd r) (mkTimer (m_interval (timer st)) now)
              (GetTransactionsUpdated (m_chain (h_tp st))) (template_last_update st)).
  { rewrite Est1. unfold ThreadSv2Handler_schedule, check_best_block, trigger.
    rewrite Hbest, Z.eqb_refl. cbn [negb].
    destruct (Z.geb_spec (now - m_last_triggered (timer st)) (m_interval (timer st)));
      [|lia].
    destruct (Z.gtb_spec (GetTransactionsUpdated (m_chain (h_tp st)))
                         (template_last_update st)); [|lia].
    cbn [andb].
    destruct (update_clients (h_tp st) (DisconnectFlagged (m_sv2_clients st)) false).
    reflexivity. }
  destruct (update_clients_best_prev_hash (DisconnectFlagged (m_sv2_clients st))
              (h_tp st) false) as [Hb1 Hc1].
  destruct (update_clients_accounting_from (DisconnectFlagged (m_sv2_clients st))
              (h_tp st) false (m_template_id (h_tp st)))
    as (_ & Hid1 & _); [symmetry; apply wrap_u64_id; exact Hid|].
  assert (Htp1 : h_tp st1
                 = fst (update_clients (h_tp st) (DisconnectFlagged (m_sv2_clients st)) false)).
  { rewrite Hst1. reflexivity. }
  assert (Htm1 : timer st1 = mkTimer (m_interval (timer st)) now).
  { rewrite Hst1. reflexivity. }
  assert (Htlu1 : template_last_update st1 = template_last_update st).
  { rewrite Hst1. reflexivity. }
  assert (Hst2 : st2 =
    let r := update_clients (h_tp st1) (DisconnectFlagged (m_sv2_clients st1)) false in
    mkHandler (fst r) (snd r) (mkTimer (m_interval (timer st)) now2)
              (GetTransactionsUpdated (m_chain (h_tp st))) (template_last_update st)).
  { assert (Hchain1 : m_chain (h_tp st1) = m_chain (h_tp st)) by congruence.
    assert (Hbest1 : m_best_prev_hash (h_tp st1) = g_best_block (m_chain (h_tp st1)))
      by congruence.
    rewrite Est2. unfold ThreadSv2Handler_schedule, check_best_block, trigger.
    rewrite Hbest1, Z.eqb_refl. cbn [negb].
    rewrite Htm1, Htlu1, Hchain1. cbn [m_last_triggered m_interval].
    destruct (Z.geb_spec (now2 - now) (m_interval (timer st))); [|lia].
    destruct (Z.gtb_spec (GetTransactionsUpdated (m_chain (h_tp st)))
                         (template_last_update st)); [|lia].
    cbn [andb].
    destruct (update_clients (h_tp st1) (DisconnectFlagged (m_sv2_clients st1)) false).
    reflexivity. }
  split; [exact Htlu1|]. split; [rewrite Hst2; reflexivity|].
  split; [rewrite Htp1; exact Hid1|].
  destruct (update_clients_accounting_from (DisconnectFlagged (m_sv2_clients st1))
              (h_tp st1) false
              (m_template_id (h_tp st)
               + Z.of_nat (length (served (DisconnectFlagged (m_sv2_clients st))))))
    as (_ & Hid2 & _); [rewrite Htp1; exact Hid1|].
  rewrite Hst2. cbn [h_tp]. exact Hid2.
Qed.

(** ** Further properties of the frame decoder *)

(** Spans that follow one another without gap or overlap from [start]. *)
Fixpoint contiguous (start : Z) (spans : list (Z * Z)) : Prop :=
  match spans with
  | [] => True
  | (off, len) :: rest => off = start /\ 0 <= len /\ contiguous (off + len) rest
  end.

(** Spans other than the last two lie inside a buffer of [size] bytes. *)
Definition overrun_only_at_end (size : Z) (spans : list (Z * Z)) : Prop :=
  forall pre sp x y post,
    spans = pre ++ sp :: x :: y :: post -> inside size sp = true.

Lemma read_loop_done fuel buffer bytes_read client sv2_msgs touched :
  span_size buffer <= bytes_read ->
  read_loop fuel buffer bytes_read client sv2_msgs touched
  = Some (Returned sv2_msgs client touched).
Proof.
  intros Hge. destruct fuel; cbn [read_loop];
    destruct (Z.ltb_spec bytes_read (span_size buffer)); try lia; reflexivity.
Qed.

Lemma inside_intro size off len :
  0 <= off -> off + len <= size -> inside size (off, len) = true.
Proof.
  intros H1 H2. unfold inside. cbn [fst snd].
  destruct (Z.leb_spec 0 off); [|lia].
  destruct (Z.leb_spec (off + len) size); [reflexivity|lia].
Qed.

Lemma read_loop_spans fuel : forall buffer bytes_read client sv2_msgs touched r,
  0 <= bytes_read ->
  read_loop fuel buffer bytes_read client sv2_msgs touched = Some r ->
  exists rest,
    touched_of r = touched ++ rest /\
    contiguous bytes_read rest /\
    overrun_only_at_end (span_size buffer) rest /\
    (rest <> [] -> bytes_read < span_size buffer).
Proof.
  induction fuel as [|fuel IH]; intros buffer bytes_read client sv2_msgs touched r Hpos;
    cbn [read_loop]; destruct (Z.ltb_spec bytes_read (span_size buffer)) as [Hlt|Hge].
  - discriminate.
  - intros H; inversion H; subst. exists []. cbn. rewrite app_nil_r.
    repeat split; try congruence. intros [|? ?] ? ? ? ? Hd; discriminate Hd.
  - destruct (DecryptMessage (m_noise client) _) as [noise [plain|]].
    + destruct (Sv2NetHeader_Unserialize _) as [header|] eqn:Hhdr.
      * apply Sv2NetHeader_Unserialize_len in Hhdr.
        pose proof (EncryptedMessageSize_nonneg (m_msg_len header)) as Hexp.
        destruct (DecryptMessage (m_noise (set_noise noise client)) _) as [noise' [plain'|]].
        -- intros H. apply IH in H as (rest & Hrest & Hcont & Hover & Hmore);
             [|unfold SV2_HEADER_ENCRYPTED_SIZE; lia].
           exists ((bytes_read, SV2_HEADER_ENCRYPTED_SIZE)
                   :: (bytes_read + SV2_HEADER_ENCRYPTED_SIZE,
                       Noise.EncryptedMessageSize (m_msg_len header)) :: rest).
           split; [rewrite Hrest, <- !app_assoc; reflexivity|].
           split; [cbn; unfold SV2_HEADER_ENCRYPTED_SIZE in *; repeat split; try lia;
                   exact Hcont|].
           split; [|intros _; exact Hlt].
           intros pre sp x y post Hd.
           destruct pre as [|p0 pre]; [|destruct pre as [|p1 pre]]; cbn in Hd;
             inversion Hd; subst; clear Hd.
           ++ apply inside_intro; [exact Hpos|].
              assert (Hne : y :: post <> []) by discriminate.
              specialize (Hmore Hne). unfold SV2_HEADER_ENCRYPTED_SIZE in *. lia.
           ++ apply inside_intro; [unfold SV2_HEADER_ENCRYPTED_SIZE; lia|].
              assert (Hne : x :: y :: post <> []) by discriminate.
              specialize (Hmore Hne). unfold SV2_HEADER_ENCRYPTED_SIZE in *. lia.
           ++ eapply Hover. reflexivity.
        -- intros H; inversion H; subst. cbn [touched_of].
           exists [(bytes_read, SV2_HEADER_ENCRYPTED_SIZE);
                   (bytes_read + SV2_HEADER_ENCRYPTED_SIZE,
                    Noise.EncryptedMessageSize (m_msg_len header))].
           split; [rewrite <- !app_assoc; reflexivity|].
           split; [cbn; unfold SV2_HEADER_ENCRYPTED_SIZE; repeat split; lia|].
           split; [|intros _; exact Hlt].
           intros [|? [|? [|? ?]]] ? ? ? ? Hd; discriminate Hd.
      * intros H; inversion H; subst. cbn [touched_of].
        exists [(bytes_read, SV2_HEADER_ENCRYPTED_SIZE)].
        split; [reflexivity|].
        split; [cbn; unfold SV2_HEADER_ENCRYPTED_SIZE; repeat split; lia|].
        split; [|intros _; exact Hlt].
        intros [|? [|? ?]] ? ? ? ? Hd; discriminate Hd.
    + intros H; inversion H; subst. cbn [touched_of].
      exists [(bytes_read, SV2_HEADER_ENCRYPTED_SIZE)].
      split; [reflexivity|].
      split; [cbn; unfold SV2_HEADER_ENCRYPTED_SIZE; repeat split; lia|].
      split; [|intros _; exact Hlt].
      intros [|? [|? ?]] ? ? ? ? Hd; discriminate Hd.
  - intros H; inversion H; subst. exists []. cbn. rewrite app_nil_r.
    repeat split; try congruence. intros [|? ?] ? ? ? ? Hd; discriminate Hd.
Qed.

(** X12.  The decoder walks the memory front to back: the spans it hands
    to [DecryptMessage] start at offset 0 and each begins where the one
    before ended, and every span other than the last two lies inside the
    buffer.  Reading past the end can only happen in the last frame
    attempted. *)
Theorem decoder_spans_are_contiguous (client : Sv2Client) (buffer : Span) (r : read_result) :
  ReadAndDecryptSv2NetMsgs client buffer = Some r ->
  contiguous 0 (touched_of r) /\
  forall pre sp x y post,
    touched_of r = pre ++ sp :: x :: y :: post ->
    inside (span_size buffer) sp = true.
Proof.
  unfold ReadAndDecryptSv2NetMsgs. intros H.
  apply read_loop_spans in H as (rest & Hrest & Hcont & Hover & _); [|lia].
  cbn in Hrest. rewrite Hrest. split; [exact Hcont | exact Hover].
Qed.

(** Whole frames lie between [off] and [off']: each header and each
    payload decrypts, and each frame starts inside the buffer. *)
Inductive frames_at (buffer : Span) : Z -> Cipher -> list Sv2NetMsg -> Z -> Cipher -> Prop :=
| frames_none off noise : frames_at buffer off noise [] off noise
| frames_next off noise noise1 noise2 noise3 plain_h header plain_p msgs off' :
    off < span_size buffer ->
    DecryptMessage noise (span_bytes buffer off SV2_HEADER_ENCRYPTED_SIZE)
    = (noise1, Some plain_h) ->
    Sv2NetHeader_Unserialize
      (firstn (Z.to_nat SV2_HEADER_PLAIN_SIZE)
              (decrypted_in_place (span_bytes buffer off SV2_HEADER_ENCRYPTED_SIZE) plain_h))
    = Some header ->
    DecryptMessage noise1
      (span_bytes buffer (off + SV2_HEADER_ENCRYPTED_SIZE)
                  (Noise.EncryptedMessageSize (m_msg_len header)))
    = (noise2, Some plain_p) ->
    frames_at buffer
              (off + SV2_HEADER_ENCRYPTED_SIZE + Noise.EncryptedMessageSize (m_msg_len header))
              noise2 msgs off' noise3 ->
    frames_at buffer off noise
              (mkNetMsg header
                 (firstn (Z.to_nat (m_msg_len header))
                    (decrypted_in_place
                       (span_bytes buffer (off + SV2_HEADER_ENCRYPTED_SIZE)
                                   (Noise.EncryptedMessageSize (m_msg_len header)))
                       plain_p))
               :: msgs)
              off' noise3.

Lemma set_noise_same (c : Sv2Client) : set_noise (m_noise c) c = c.
Proof. destruct c; reflexivity. Qed.

Lemma set_noise_twice n1 n2 (c : Sv2Client) : set_noise n2 (set_noise n1 c) = set_noise n2 c.
Proof. reflexivity. Qed.

(** Over whole frames the loop gets from [off] to [off'] with the
    messages added to its queue. *)
Lemma read_loop_frames buffer off noise msgs off' noise' :
  frames_at buffer off noise msgs off' noise' ->
  forall fuel client acc touched,
    m_noise client = noise ->
    0 <= off ->
    span_size buffer - off <= Z.of_nat fuel ->
    off <= off' /\
    exists fuel' spans,
      span_size buffer - off' <= Z.of_nat fuel' /\
      read_loop fuel buffer off client acc touched
      = read_loop fuel' buffer off' (set_noise noise' client) (acc ++ msgs) (touched ++ spans) /\
      length spans = (2 * length msgs)%nat /\
      (off' <= span_size buffer ->
       Forall (fun sp => inside (span_size buffer) sp = true) spans).
Proof.
  induction 1 as [off noise | off noise noise1 noise2 noise3 plain_h header plain_p msgs off'
                              Hlt Hdh Hhdr Hdp Hrest IH];
    intros fuel client acc touched Hnoise Hpos Hfuel.
  - split; [lia|]. exists fuel, []. subst noise.
    rewrite set_noise_same, !app_nil_r. repeat split; [exact Hfuel|]. intros _. constructor.
  - destruct fuel as [|fuel]; [lia|].
    pose proof (Sv2NetHeader_Unserialize_len _ _ Hhdr) as Hlen.
    pose proof (EncryptedMessageSize_nonneg (m_msg_len header)) as Hexp.
    destruct (IH fuel (set_noise noise2 client)
                 (acc ++ [mkNetMsg header
                            (firstn (Z.to_nat (m_msg_len header))
                               (decrypted_in_place
                                  (span_bytes buffer (off + SV2_HEADER_ENCRYPTED_SIZE)
                                     (Noise.EncryptedMessageSize (m_msg_len header)))
                                  plain_p))])
                 ((touched ++ [(off, SV2_HEADER_ENCRYPTED_SIZE)])
                  ++ [(off + SV2_HEADER_ENCRYPTED_SIZE,
                       Noise.EncryptedMessageSize (m_msg_len header))]))
      as (Hle & fuel' & spans & Hfuel' & Hrun & Hcount & Hin).
    + reflexivity.
    + unfold SV2_HEADER_ENCRYPTED_SIZE in *. lia.
    + unfold SV2_HEADER_ENCRYPTED_SIZE in *. lia.
    + split; [unfold SV2_HEADER_ENCRYPTED_SIZE in *; lia|].
      exists fuel', ((off, SV2_HEADER_ENCRYPTED_SIZE)
                     :: (off + SV2_HEADER_ENCRYPTED_SIZE,
                         Noise.EncryptedMessageSize (m_msg_len header)) :: spans).
      split; [exact Hfuel'|]. split; [|split].
      * cbn [read_loop]. destruct (Z.ltb_spec off (span_size buffer)) as [_|Hge]; [|lia].
        rewrite Hnoise, Hdh, Hhdr. cbn [set_noise m_noise]. rewrite Hdp.
        rewrite set_noise_twice. rewrite Hrun. rewrite set_noise_twice.
        rewrite <- !app_assoc. reflexivity.
      * cbn [length]. lia.
      * intros Hend. apply Forall_cons_2; [|apply Forall_cons_2; [|exact (Hin Hend)]].
        -- apply inside_intro; unfold SV2_HEADER_ENCRYPTED_SIZE in *; lia.
        -- apply inside_intro; unfold SV2_HEADER_ENCRYPTED_SIZE in *; lia.
Qed.

(** X13.  On a buffer made of whole frames the decoder returns every
    message, in the order of the frames, moves the session past them, does
    not flag the client, and hands [DecryptMessage] two spans per message,
    all inside the buffer. *)
Theorem whole_frames_decode_in_bounds
        (client : Sv2Client) (buffer : Span) (msgs : list Sv2NetMsg) (noise' : Cipher) :
  frames_at buffer 0 (m_noise client) msgs (span_size buffer) noise' ->
  exists spans,
    ReadAndDecryptSv2NetMsgs client buffer
    = Some (Returned msgs (set_noise noise' client) spans) /\
    Forall (fun sp => inside (span_size buffer) sp = true) spans /\
    length spans = (2 * length msgs)%nat /\
    m_disconnect_flag (set_noise noise' client) = m_disconnect_flag client.
Proof.
  intros Hframes.
  destruct (read_loop_frames _ _ _ _ _ _ Hframes (Z.to_nat (span_size buffer)) client [] []
              eq_refl ltac:(lia) ltac:(lia))
    as (Hle & fuel' & spans & _ & Hrun & Hcount & Hin).
  exists spans. unfold ReadAndDecryptSv2NetMsgs. rewrite Hrun.
  rewrite read_loop_done by lia.
  repeat split; [apply Hin; lia | exact Hcount].
Qed.

(** ** The receive step of ThreadSv2Handler *)

(** The body of the loop "Process messages from connected sv2_clients"
    for one client whose handshake is complete: the events found for its
    socket, what [Recv] returned and the receive array.  The exception of
    the header stream is caught here.  [None] is the decoder's fuel running
    out. *)
Definition receive_from (has_error_occurred has_received_data : bool)
           (num_bytes_received : Z) (bytes_received_buf : Z -> Z)
           (tp : Sv2TemplateProvider) (client : Sv2Client)
  : option (outcome (Sv2TemplateProvider * Sv2Client)) :=
  let client := if has_error_occurred then set_disconnect_flag true client else client in
  if has_received_data then
    if num_bytes_received <=? 0 then Some (Done (tp, set_disconnect_flag true client))
    else
      match ReadAndDecryptSv2NetMsgs client (mkSpan bytes_received_buf num_bytes_received) with
      | None => None
      | Some (Threw client _) => Some (Done (tp, set_disconnect_flag true client))
      | Some (Returned sv2_msgs client _) => Some (ProcessSv2Messages sv2_msgs tp client)
      end
  else Some (Done (tp, client)).

(** A handler's result with the client flagged for disconnect. *)
Definition flagged (o : outcome (Sv2TemplateProvider * Sv2Client))
  : outcome (Sv2TemplateProvider * Sv2Client) :=
  match o with
  | Done (tp, client) => Done (tp, set_disconnect_flag true client)
  | Undefined => Undefined
  end.

Lemma EncryptAndSendMessage_flagged client msg :
  EncryptAndSendMessage (set_disconnect_flag true client) msg
  = (fst (EncryptAndSendMessage client msg),
     set_disconnect_flag true (snd (EncryptAndSendMessage client msg))).
Proof.
  unfold EncryptAndSendMessage. cbn [set_noise set_disconnect_flag m_sock m_noise].
  destruct (SendBuf (m_sock client) msg); reflexivity.
Qed.

Lemma SendWork_flagged tp client flag :
  SendWork tp (set_disconnect_flag true client) flag
  = (fst (SendWork tp client flag),
     set_disconnect_flag true (snd (SendWork tp client flag))).
Proof.
  unfold SendWork.
  cbn [set_disconnect_flag m_coinbase_tx_outputs_size m_latest_submitted_template_fees].
  destruct (negb flag && _); [reflexivity|].
  rewrite EncryptAndSendMessage_flagged.
  destruct (EncryptAndSendMessage client _) as [[|] c1]; cbn [fst snd]; [|reflexivity].
  destruct flag; [|reflexivity].
  rewrite EncryptAndSendMessage_flagged.
  destruct (EncryptAndSendMessage c1 _) as [[|] c2]; reflexivity.
Qed.

Lemma ProcessSv2Message_flagged msg tp client :
  ProcessSv2Message msg tp (set_disconnect_flag true client)
  = flagged (ProcessSv2Message msg tp client).
Proof.
  unfold ProcessSv2Message.
  cbn [set_disconnect_flag m_setup_connection_confirmed m_coinbase_output_data_size_recv].
  destruct (m_msg_type (m_sv2_header msg) =? SETUP_CONNECTION).
  { destruct (m_setup_connection_confirmed client); [reflexivity|].
    destruct (Unserialize_SetupConnection _) as [s|]; [|reflexivity].
    destruct (negb _).
    { rewrite EncryptAndSendMessage_flagged.
      destruct (EncryptAndSendMessage client _) as [ok c1]; reflexivity. }
    destruct (_ || _).
    { rewrite EncryptAndSendMessage_flagged.
      destruct (EncryptAndSendMessage client _) as [ok c1]; reflexivity. }
    rewrite EncryptAndSendMessage_flagged.
    destruct (EncryptAndSendMessage client _) as [[|] c1]; reflexivity. }
  destruct (m_msg_type (m_sv2_header msg) =? COINBASE_OUTPUT_DATA_SIZE).
  { destruct (negb _); [reflexivity|].
    destruct (Unserialize_CoinbaseOutputDataSize _) as [s|]; [|reflexivity].
    destruct (_ >? _); [reflexivity|].
    change (set_coinbase_tx_outputs_size (m_coinbase_output_max_additional_size s)
              (set_coinbase_output_data_size_recv true (set_disconnect_flag true client)))
      with (set_disconnect_flag true
              (set_coinbase_tx_outputs_size (m_coinbase_output_max_additional_size s)
                 (set_coinbase_output_data_size_recv true client))).
    rewrite SendWork_flagged.
    destruct (SendWork tp _ true) as [[ok tp1] c1]. reflexivity. }
  destruct (m_msg_type (m_sv2_header msg) =? SUBMIT_SOLUTION).
  { destruct (negb _ && negb _); [reflexivity|].
    destruct (Unserialize_SubmitSolution _) as [s|]; [|reflexivity].
    destruct (m_block_cache tp !! _); reflexivity. }
  destruct (m_msg_type (m_sv2_header msg) =? REQUEST_TRANSACTION_DATA); [|reflexivity].
  destruct (Unserialize_RequestTransactionData _) as [r|]; [|reflexivity].
  destruct (m_block_cache tp !! _) as [cached|].
  - destruct (witness_reserve_value_of _); [|reflexivity].
    rewrite EncryptAndSendMessage_flagged.
    destruct (EncryptAndSendMessage client _) as [[|] c1]; reflexivity.
  - rewrite EncryptAndSendMessage_flagged.
    destruct (EncryptAndSendMessage client _) as [[|] c1]; reflexivity.
Qed.

(** X14.  No handler reads [m_disconnect_flag].  A client that is already
    flagged for disconnect (by a socket error in the same pass, or by an
    earlier message of the same receive) has its messages handled exactly
    as if it were not: the same replies are written, the same templates are
    built and cached, a [SubmitSolution] still reaches [ProcessNewBlock];
    only the flag differs. *)
Theorem disconnect_flag_never_read
        (msgs : list Sv2NetMsg) (tp : Sv2TemplateProvider) (client : Sv2Client) :
  ProcessSv2Messages msgs tp (set_disconnect_flag true client)
  = flagged (ProcessSv2Messages msgs tp client).
Proof.
  revert tp client. induction msgs as [|m rest IH]; intros tp client; [reflexivity|].
  cbn [ProcessSv2Messages]. rewrite ProcessSv2Message_flagged.
  destruct (ProcessSv2Message m tp client) as [[tp1 c1]|]; [|reflexivity].
  cbn [flagged]. apply IH.
Qed.

Lemma ProcessSv2Messages_flags_kept msgs : forall tp client tp' client',
  ProcessSv2Messages msgs tp client = Done (tp', client') -> flags_kept client client'.
Proof.
  induction msgs as [|m rest IH]; intros tp client tp' client' H; cbn [ProcessSv2Messages] in H.
  - inversion H; subst. apply flags_kept_refl.
  - destruct (ProcessSv2Message m tp client) as [[tp1 c1]|] eqn:E; [|discriminate H].
    eapply flags_kept_trans; [eapply ProcessSv2Message_flags_kept; exact E|].
    eapply IH; exact H.
Qed.

(** X15.  When the bytes received hold whole frames followed by a header
    whose MAC does not verify, the decoder flags the client and stops, and
    the handler still processes the messages of the frames before it, on
    the flagged client; the client is flagged when they are done. *)
Theorem frames_before_failed_mac_are_processed
        (has_error_occurred : bool) (num_bytes_received : Z) (bytes_received_buf : Z -> Z)
        (tp : Sv2TemplateProvider) (client : Sv2Client)
        (msgs : list Sv2NetMsg) (off : Z) (noise' noise'' : Cipher) :
  frames_at (mkSpan bytes_received_buf num_bytes_received) 0 (m_noise client) msgs off noise' ->
  off < num_bytes_received ->
  DecryptMessage noise'
    (span_bytes (mkSpan bytes_received_buf num_bytes_received) off SV2_HEADER_ENCRYPTED_SIZE)
  = (noise'', None) ->
  receive_from has_error_occurred true num_bytes_received bytes_received_buf tp client
  = Some (ProcessSv2Messages msgs tp (set_disconnect_flag true (set_noise noise'' client))) /\
  forall tp' client',
    ProcessSv2Messages msgs tp (set_disconnect_flag true (set_noise noise'' client))
    = Done (tp', client') ->
    m_disconnect_flag client' = true.
Proof.
  intros Hframes Hoff Hmac. split.
  - unfold receive_from.
    set (c0 := if has_error_occurred then set_disconnect_flag true client else client).
    assert (Hc0 : m_noise c0 = m_noise client) by (unfold c0; destruct has_error_occurred; reflexivity).
    destruct (read_loop_frames _ _ _ _ _ _ Hframes (Z.to_nat num_bytes_received) c0 [] []
                Hc0 ltac:(lia) ltac:(cbn [span_size]; lia))
      as (Hle & fuel' & spans & Hfuel' & Hrun & _ & _).
    cbn [span_size] in Hfuel'.
    destruct (Z.leb_spec num_bytes_received 0) as [Hneg|_]; [lia|].
    unfold ReadAndDecryptSv2NetMsgs. cbn [span_size]. rewrite Hrun.
    destruct fuel' as [|fuel']; [lia|].
    cbn [read_loop span_size].
    destruct (Z.ltb_spec off num_bytes_received) as [_|Hge]; [|lia].
    cbn [set_noise m_noise]. rewrite Hmac. cbn [app].
    unfold c0. destruct has_error_occurred; reflexivity.
  - intros tp' client' Hrun.
    apply ProcessSv2Messages_flags_kept in Hrun. apply Hrun. reflexivity.
Qed.

(** ** The timer *)

(** The clock readings, out of [clock], at which [trigger] returns
    [true]. *)
Fixpoint trigger_times (t : Timer) (clock : list Z) : list Z :=
  match clock with
  | [] => []
  | now :: rest =>
      let '(fired, t) := trigger now t in
      if fired then now :: trigger_times t rest else trigger_times t rest
  end.

(** Each time in the list is at least [interval] after the one before,
    the first after [last]. *)
Fixpoint spaced_from (last interval : Z) (times : list Z) : Prop :=
  match times with
  | [] => True
  | t :: rest => t - last >= interval /\ spaced_from t interval rest
  end.

(** X16.  Whatever the clock readings, two consecutive firings of the
    timer are at least [m_interval] apart, and the first is at least
    [m_interval] after [m_last_triggered]; when the readings do not go
    back, the timer fires at every reading that is [m_interval] or more
    after the last firing, so that a due reading is never skipped. *)
Theorem timer_firings_spaced (t : Timer) (clock : list Z) :
  spaced_from (m_last_triggered t) (m_interval t) (trigger_times t clock) /\
  forall now rest,
    clock = now :: rest ->
    now - m_last_triggered t >= m_interval t ->
    trigger_times t clock = now :: trigger_times (mkTimer (m_interval t) now) rest.
Proof.
  split.
  - revert t. induction clock as [|now rest IH]; intros t; [exact I|].
    cbn [trigger_times]. unfold trigger.
    destruct (Z.geb_spec (now - m_last_triggered t) (m_interval t)) as [Hdue|Hnot].
    + cbn [spaced_from]. split; [lia|]. apply (IH (mkTimer (m_interval t) now)).
    + apply IH.
  - intros now rest -> Hdue. cbn [trigger_times]. unfold trigger.
    destruct (Z.geb_spec (now - m_last_triggered t) (m_interval t)) as [_|Hnot]; [reflexivity|lia].
Qed.

End TemplateProvider.

(** ** The protocol-name constants *)

(** C10.  [PROTOCOL_NAME_HASH] is the SHA-256 of the ASCII string
    "Noise_NX_EllSwiftXonly_ChaChaPoly_SHA256", [PROTOCOL_NAME_DOUBLE_HASH]
    is the SHA-256 of [PROTOCOL_NAME_HASH], and a freshly constructed
    [Sv2SymmetricState] has the first as chaining key and the second as hash
    output, whatever its storage held before. *)
Theorem protocol_name_hash_constants :
  Noise.PROTOCOL_NAME_HASH = SHA256.hash (Noise.ascii_bytes Noise.PROTOCOL_NAME) /\
  Noise.PROTOCOL_NAME_DOUBLE_HASH = SHA256.hash Noise.PROTOCOL_NAME_HASH /\
  forall uninit_ck uninit_key : nat -> Z,
    Noise.m_chaining_key (Noise.Sv2SymmetricState_new uninit_ck uninit_key)
    = Noise.PROTOCOL_NAME_HASH /\
    Noise.m_hash_output (Noise.Sv2SymmetricState_new uninit_ck uninit_key)
    = Noise.PROTOCOL_NAME_DOUBLE_HASH.
Proof.
  split; [vm_compute; reflexivity|].
  split; [vm_compute; reflexivity|].
  intros uninit_ck uninit_key. split; reflexivity.
Qed.

(** ** A concrete node

    A small instance of what the section takes as given, on which the
    statements above are run: the chain is the list of blocks accepted so
    far, every template holds a coinbase and one payment, the socket always
    accepts the frame, and the session has no key, so that every MAC
    fails. *)

Module Scenario.

Definition Chain : Type := list CBlock.

Definition witness_nonce : list Z := repeat 0 32%nat.
Definition coinbase : CTransaction := mkTx [mkTxIn [witness_nonce]] [1].
Definition payment : CTransaction := mkTx [mkTxIn []] [2].

Definition CreateNewBlock (chain : Chain) (nBlockMaxWeight : Z) : CBlockTemplate :=
  mkTemplate
    (mkBlock 0x20000000 (Z.of_nat (length chain)) 0 1700000000 0x207fffff 0
             [coinbase; payment])
    [-1; 5000].
Definition ProcessNewBlock (chain : Chain) (b : CBlock) : Chain := chain ++ [b].
Definition BlockMerkleRoot (b : CBlock) : Z := Z.of_nat (length (vtx b)).
(** A null header is one whose [nBits] is 0. *)
Definition IsNull (b : CBlock) : bool := nBits b =? 0.
Definition g_best_block (chain : Chain) : Z := Z.of_nat (length chain).
Definition GetTransactionsUpdated (chain : Chain) : Z := 0.

Definition DecryptMessage (cs : unit) (ct : list Z) : unit * option (list Z) := (cs, None).
Definition EncryptMessage (cs : unit) (m : Sv2Msg) : unit := cs.
Definition SendBuf (written : list Sv2Msg) (m : Sv2Msg) : bool := true.

(** Little-endian integers. *)
Fixpoint le (bs : list Z) : Z :=
  match bs with
  | [] => 0
  | b :: rest => b + 256 * le rest
  end.

Definition Unserialize_SetupConnection (bs : list Z) : option Sv2SetupConnectionMsg :=
  match bs with
  | p :: v0 :: v1 :: w0 :: w1 :: f0 :: f1 :: f2 :: f3 :: _ =>
      Some (mkSetupConnection p (le [v0; v1]) (le [w0; w1]) (le [f0; f1; f2; f3]))
  | _ => None
  end.

Definition Unserialize_CoinbaseOutputDataSize (bs : list Z)
  : option Sv2CoinbaseOutputDataSizeMsg :=
  match bs with
  | b0 :: b1 :: b2 :: b3 :: _ => Some (mkCoinbaseOutputDataSize (le [b0; b1; b2; b3]))
  | _ => None
  end.

Definition Unserialize_RequestTransactionData (bs : list Z)
  : option Sv2RequestTransactionDataMsg :=
  if (8 <=? length bs)%nat then Some (mkRequestTransactionData (le (firstn 8 bs)))
  else None.

Definition Unserialize_SubmitSolution (bs : list Z) : option Sv2SubmitSolutionMsg :=
  if (20 <=? length bs)%nat then
    Some (mkSubmitSolution (le (firstn 8 bs))
                           (le (firstn 4 (skipn 8 bs)))
                           (le (firstn 4 (skipn 12 bs)))
                           (le (firstn 4 (skipn 16 bs)))
                           (mkTx [mkTxIn []] (skipn 20 bs)))
  else None.

Definition process :=
  ProcessSv2Message CreateNewBlock ProcessNewBlock BlockMerkleRoot IsNull
                    EncryptMessage SendBuf
                    Unserialize_SetupConnection Unserialize_CoinbaseOutputDataSize
                    Unserialize_SubmitSolution Unserialize_RequestTransactionData.

Definition process_all :=
  ProcessSv2Messages CreateNewBlock ProcessNewBlock BlockMerkleRoot IsNull
                     EncryptMessage SendBuf
                     Unserialize_SetupConnection Unserialize_CoinbaseOutputDataSize
                     Unserialize_SubmitSolution Unserialize_RequestTransactionData.

(** A provider on an empty chain, at protocol version 2. *)
Definition node (fee_delta : Z) : @Sv2TemplateProvider Chain :=
  mkTP [] 0 ∅ fee_delta 2 0 0.

(** The same after one template went out under [template_id] 1. *)
Definition template1 : CBlockTemplate := CreateNewBlock [] (wrap_u32 (MAX_BLOCK_WEIGHT - 1)).
Definition node_with_template : @Sv2TemplateProvider Chain :=
  mkTP [] 1 {[ 1 := template1 ]} 1000 2 0 0.

(** Clients: just connected; set up only; set up and served a template
    with 5000 in fees. *)
Definition fresh : @Sv2Client unit := mkClient [] tt false false false 0 0.
Definition confirmed_only : @Sv2Client unit := mkClient [] tt false true false 0 0.
Definition miner : @Sv2Client unit := mkClient [] tt false true true 1 5000.

(** The [SetupConnection] body of the unit test
    ([src/test/sv2_template_provider_tests.cpp]). *)
Definition setup_connection_bytes : list Z :=
  [ 0x02; 0x02; 0x00; 0x02; 0x00; 0x01; 0x00; 0x00; 0x00;
    0x07; 0x30; 0x2e; 0x30; 0x2e; 0x30; 0x2e; 0x30;
    0x61; 0x21;
    0x07; 0x42; 0x69; 0x74; 0x6d; 0x61; 0x69; 0x6e;
    0x08; 0x53; 0x39; 0x69; 0x20; 0x31; 0x33; 0x2e; 0x35;
    0x1c; 0x62; 0x72; 0x61; 0x69; 0x69; 0x6e; 0x73; 0x2d; 0x6f; 0x73; 0x2d; 0x32; 0x30;
    0x31; 0x38; 0x2d; 0x30; 0x39; 0x2d; 0x32; 0x32; 0x2d; 0x31; 0x2d; 0x68; 0x61; 0x73;
    0x68;
    0x10; 0x73; 0x6f; 0x6d; 0x65; 0x2d; 0x64; 0x65; 0x76; 0x69; 0x63; 0x65; 0x2d; 0x75;
    0x75; 0x69; 0x64 ].

Definition frame (msg_type : Z) (body : list Z) : Sv2NetMsg :=
  mkNetMsg (mkHeader msg_type (Z.of_nat (length body))) body.

Definition setup_connection : Sv2NetMsg := frame SETUP_CONNECTION setup_connection_bytes.
Definition coinbase_output_data_size (b0 b1 b2 b3 : Z) : Sv2NetMsg :=
  frame COINBASE_OUTPUT_DATA_SIZE [b0; b1; b2; b3].
Definition request_transaction_data_1 : Sv2NetMsg :=
  frame REQUEST_TRANSACTION_DATA [1; 0; 0; 0; 0; 0; 0; 0].
(** A solution for template 1: version 0x20000000, time 1700000600,
    nonce 7, and a one-byte stand-in for the coinbase. *)
Definition submit_solution_1 : Sv2NetMsg :=
  frame SUBMIT_SOLUTION
        [ 1; 0; 0; 0; 0; 0; 0; 0;  0; 0; 0; 0x20;  0x58; 0xf3; 0x53; 0x65;  7; 0; 0; 0;  9 ].
Definition solution_1 : Sv2SubmitSolutionMsg :=
  mkSubmitSolution 1 0x20000000 1700000600 7 (mkTx [mkTxIn []] [9]).

Example setup_connection_length : length setup_connection_bytes = 82%nat.
Proof. reflexivity. Qed.

Example submit_solution_1_decodes :
  Unserialize_SubmitSolution (m_msg submit_solution_1) = Some solution_1.
Proof. vm_compute. reflexivity. Qed.

(** *** The statements at this node *)

(** The fee gate closes for [miner]: 5000 + 1000 > 5000. *)
Lemma SendWork_fee_delta_gate_witness :
  nonneg_total (vTxFees (CreateNewBlock [] (wrap_u32 (MAX_BLOCK_WEIGHT - 1)))) <= INT64_MAX /\
  in_i64 (5000 + 1000) /\
  exists tp' client',
    SendWork CreateNewBlock EncryptMessage SendBuf (node 1000) miner false
    = (true, tp', client') /\
    m_sock client' = [] /\
    m_block_cache tp' = ∅ /\
    m_latest_submitted_template_fees client' = 5000.
Proof.
  assert (H1 : nonneg_total (vTxFees (CreateNewBlock [] (wrap_u32 (MAX_BLOCK_WEIGHT - 1))))
               <= INT64_MAX) by (vm_compute; discriminate).
  assert (H2 : in_i64 (5000 + 1000)) by (unfold in_i64, INT64_MIN, INT64_MAX; lia).
  split; [exact H1|]. split; [exact H2|].
  destruct (SendWork_fee_delta_gate CreateNewBlock EncryptMessage SendBuf
              (node 1000) miner H1 H2) as [_ Hgate].
  destruct Hgate as (tp' & client' & Hrun & Hsock & Hcache & Hfees & _).
  - vm_compute. reflexivity.
  - exists tp', client'. repeat split; assumption.
Defined.



(** [confirmed_only] never sent [CoinbaseOutputDataSize]; its solution for
    template 1 goes to [ProcessNewBlock] and it stays connected. *)
Lemma SubmitSolution_processed_without_cbsize_witness :
  m_setup_connection_confirmed confirmed_only = true /\
  m_coinbase_output_data_size_recv confirmed_only = false /\
  exists tp',
    process submit_solution_1 node_with_template confirmed_only = Done (tp', confirmed_only) /\
    m_chain tp' = [solved_block BlockMerkleRoot (block template1) solution_1] /\
    m_disconnect_flag confirmed_only = false.
Proof.
  split; [reflexivity|]. split; [reflexivity|].
  destruct (SubmitSolution_processed_without_cbsize
              CreateNewBlock ProcessNewBlock BlockMerkleRoot IsNull EncryptMessage SendBuf
              Unserialize_SetupConnection Unserialize_CoinbaseOutputDataSize
              Unserialize_SubmitSolution Unserialize_RequestTransactionData
              submit_solution_1 node_with_template confirmed_only solution_1 template1)
    as (tp' & Hrun & Hchain); try reflexivity.
  exists tp'. split; [exact Hrun|]. split; [exact Hchain | reflexivity].
Defined.

(** The unit test's [SetupConnection] at a version-2 provider. *)
Lemma SetupConnection_replies_witness :
  m_msg_type (m_sv2_header setup_connection) = SETUP_CONNECTION /\
  m_setup_connection_confirmed fresh = false /\
  Unserialize_SetupConnection (m_msg setup_connection) = Some (mkSetupConnection 2 2 2 1) /\
  SendBuf (m_sock fresh) (Sv2SetupConnectionSuccessMsg 2 0) = true /\
  exists client',
    process setup_connection (node 1000) fresh = Done (node 1000, client') /\
    m_sock client' = [Sv2SetupConnectionSuccessMsg 2 0] /\
    m_setup_connection_confirmed client' = true /\
    m_disconnect_flag client' = false.
Proof.
  assert (H1 : m_msg_type (m_sv2_header setup_connection) = SETUP_CONNECTION)
    by reflexivity.
  assert (H2 : m_setup_connection_confirmed fresh = false) by reflexivity.
  assert (H3 : Unserialize_SetupConnection (m_msg setup_connection)
               = Some (mkSetupConnection 2 2 2 1)) by reflexivity.
  assert (H4 : SendBuf (m_sock fresh) (Sv2SetupConnectionSuccessMsg 2 0) = true)
    by reflexivity.
  repeat (split; [assumption|]).
  destruct (SetupConnection_replies
              CreateNewBlock ProcessNewBlock BlockMerkleRoot IsNull EncryptMessage SendBuf
              Unserialize_SetupConnection Unserialize_CoinbaseOutputDataSize
              Unserialize_SubmitSolution Unserialize_RequestTransactionData
              setup_connection (node 1000) fresh (mkSetupConnection 2 2 2 1) H1 H2 H3 H4)
    as (client' & Hrun & Hsock & _ & _ & Hok).
  destruct Hok as [Hconf Hflag]; [reflexivity | cbn; lia |].
  exists client'. repeat split; assumption.
Defined.

(** Template 1 is in the cache: its payment and witness nonce come back. *)
Lemma RequestTransactionData_replies_witness :
  m_msg_type (m_sv2_header request_transaction_data_1) = REQUEST_TRANSACTION_DATA /\
  Unserialize_RequestTransactionData (m_msg request_transaction_data_1)
  = Some (mkRequestTransactionData 1) /\
  m_block_cache node_with_template !! 1 = Some template1 /\
  IsNull (block template1) = false /\
  exists client',
    process request_transaction_data_1 node_with_template miner
    = Done (node_with_template, client') /\
    m_sock client' = [Sv2RequestTransactionDataSuccessMsg 1 witness_nonce [payment]] /\
    m_disconnect_flag client' = false.
Proof.
  assert (H1 : m_msg_type (m_sv2_header request_transaction_data_1)
               = REQUEST_TRANSACTION_DATA) by reflexivity.
  assert (H2 : Unserialize_RequestTransactionData (m_msg request_transaction_data_1)
               = Some (mkRequestTransactionData 1)) by reflexivity.
  assert (H3 : m_block_cache node_with_template !! 1 = Some template1) by reflexivity.
  assert (H4 : IsNull (block template1) = false) by reflexivity.
  repeat (split; [assumption|]).
  destruct (RequestTransactionData_replies
              CreateNewBlock ProcessNewBlock BlockMerkleRoot IsNull EncryptMessage SendBuf
              Unserialize_SetupConnection Unserialize_CoinbaseOutputDataSize
              Unserialize_SubmitSolution Unserialize_RequestTransactionData
              request_transaction_data_1 node_with_template miner
              (mkRequestTransactionData 1) H1 H2) as [Hfound _].
  exact (Hfound template1 coinbase [payment] (mkTxIn [witness_nonce]) [] witness_nonce []
                H3 H4 eq_refl eq_refl eq_refl eq_refl).
Defined.

(** Before the solution, template 1 serves its transactions; after it, the
    cache entry has no transaction left and the same request is undefined. *)
Lemma SubmitSolution_empties_cached_template_witness :
  process request_transaction_data_1 node_with_template miner
  = Done (node_with_template,
          set_sock [Sv2RequestTransactionDataSuccessMsg 1 witness_nonce [payment]] miner) /\
  m_block_cache node_with_template !! 1 = Some template1 /\
  IsNull (moved_from (solved_block BlockMerkleRoot (block template1) solution_1)) = false /\
  exists tp' husk,
    process submit_solution_1 node_with_template miner = Done (tp', miner) /\
    m_block_cache tp' !! 1 = Some husk /\
    vtx (block husk) = [] /\
    process request_transaction_data_1 tp' miner = Undefined.
Proof.
  split; [reflexivity|].
  assert (H3 : m_block_cache node_with_template !! 1 = Some template1) by reflexivity.
  assert (H4 : IsNull (moved_from (solved_block BlockMerkleRoot (block template1) solution_1))
               = false) by reflexivity.
  repeat (split; [assumption|]).
  exact (SubmitSolution_empties_cached_template
           CreateNewBlock ProcessNewBlock BlockMerkleRoot IsNull EncryptMessage SendBuf
           Unserialize_SetupConnection Unserialize_CoinbaseOutputDataSize
           Unserialize_SubmitSolution Unserialize_RequestTransactionData
           submit_solution_1 request_transaction_data_1 node_with_template miner
           solution_1 (mkRequestTransactionData 1) template1
           eq_refl eq_refl eq_refl eq_refl eq_refl eq_refl H3 H4).
Defined.

(** Template 1 once the solution of [miner] has gone to the chain: the id
    is still in the cache, the header is in place, the transactions are
    gone, and the request for template 1 has no defined result. *)
Definition husk_1 : CBlockTemplate :=
  mkTemplate (moved_from (solved_block BlockMerkleRoot (block template1) solution_1))
             (vTxFees template1).

Definition after_solution : @Sv2TemplateProvider Chain :=
  mkTP [solved_block BlockMerkleRoot (block template1) solution_1]
       1 (<[1 := husk_1]> {[ 1 := template1 ]}) 1000 2 0 0.

Lemma RequestTransactionData_undefined_on_emptied_entry_witness :
  process submit_solution_1 node_with_template miner = Done (after_solution, miner) /\
  m_msg_type (m_sv2_header request_transaction_data_1) = REQUEST_TRANSACTION_DATA /\
  Unserialize_RequestTransactionData (m_msg request_transaction_data_1)
  = Some (mkRequestTransactionData 1) /\
  m_block_cache after_solution !! 1 = Some husk_1 /\
  IsNull (block husk_1) = false /\
  vtx (block husk_1) = [] /\
  process request_transaction_data_1 after_solution miner = Undefined.
Proof.
  assert (H0 : process submit_solution_1 node_with_template miner
               = Done (after_solution, miner)) by reflexivity.
  assert (H1 : m_msg_type (m_sv2_header request_transaction_data_1)
               = REQUEST_TRANSACTION_DATA) by reflexivity.
  assert (H2 : Unserialize_RequestTransactionData (m_msg request_transaction_data_1)
               = Some (mkRequestTransactionData 1)) by reflexivity.
  assert (H3 : m_block_cache after_solution !! 1 = Some husk_1) by reflexivity.
  assert (H4 : IsNull (block husk_1) = false) by reflexivity.
  assert (H5 : vtx (block husk_1) = []) by reflexivity.
  split; [exact H0|]. split; [exact H1|]. split; [exact H2|]. split; [exact H3|].
  split; [exact H4|]. split; [exact H5|].
  exact (RequestTransactionData_undefined_on_emptied_entry
           CreateNewBlock ProcessNewBlock BlockMerkleRoot IsNull EncryptMessage SendBuf
           Unserialize_SetupConnection Unserialize_CoinbaseOutputDataSize
           Unserialize_SubmitSolution Unserialize_RequestTransactionData
           request_transaction_data_1 after_solution miner
           (mkRequestTransactionData 1) husk_1 H1 H2 H3 H4 H5).
Defined.

(** A session from connection to the first template, with one additional
    byte asked for; and a request for 4,000,001 bytes (01 09 3d 00). *)
Lemma coinbase_tx_outputs_size_bounded_witness :
  size_ok fresh /\
  (exists tp' client',
      process_all [setup_connection; coinbase_output_data_size 1 0 0 0] (node 1000) fresh
      = Done (tp', client') /\
      m_coinbase_tx_outputs_size client' = 1 /\
      size_ok client') /\
  (exists client',
      process (coinbase_output_data_size 1 9 61 0) node_with_template miner
      = Done (node_with_template, client') /\
      m_disconnect_flag client' = true /\
      m_coinbase_tx_outputs_size client' = 1).
Proof.
  destruct (coinbase_tx_outputs_size_bounded
              CreateNewBlock ProcessNewBlock BlockMerkleRoot IsNull g_best_block
              GetTransactionsUpdated EncryptMessage SendBuf
              Unserialize_SetupConnection Unserialize_CoinbaseOutputDataSize
              Unserialize_SubmitSolution Unserialize_RequestTransactionData)
    as (Hseq & _ & Hbig).
  assert (Hfresh : size_ok fresh) by (unfold size_ok, MAX_BLOCK_WEIGHT; cbn; lia).
  split; [exact Hfresh|]. split.
  - destruct (process_all [setup_connection; coinbase_output_data_size 1 0 0 0]
                          (node 1000) fresh) as [[tp' client']|] eqn:Hrun;
      [|vm_compute in Hrun; discriminate Hrun].
    exists tp', client'. split; [reflexivity|]. split.
    + vm_compute in Hrun. inversion Hrun. reflexivity.
    + exact (Hseq _ _ _ _ _ Hfresh Hrun).
  - apply (Hbig (coinbase_output_data_size 1 9 61 0) node_with_template miner
                (mkCoinbaseOutputDataSize 4000001)).
    + reflexivity.
    + reflexivity.
    + unfold MAX_BLOCK_WEIGHT. cbn. lia.
Defined.

(** A block has arrived since template 1 went out. *)
Definition after_new_block : @HandlerState Chain unit :=
  mkHandler (mkTP [block template1] 1 {[ 1 := template1 ]} 1000 2 0 0)
            [miner; fresh] (mkTimer 30 0) 0 0.

Definition handler_pass :=
  ThreadSv2Handler_schedule CreateNewBlock g_best_block GetTransactionsUpdated
                            EncryptMessage SendBuf.

Lemma best_block_change_clears_cache_witness :
  m_best_prev_hash (h_tp after_new_block) <> g_best_block (m_chain (h_tp after_new_block)) /\
  m_block_cache (h_tp (handler_pass 100 after_new_block)) !! 1 = None /\
  exists tp0 clients0,
    m_block_cache tp0 = ∅ /\
    Forall (fun c => m_latest_submitted_template_fees c = 0) clients0 /\
    (h_tp (handler_pass 100 after_new_block), m_sv2_clients (handler_pass 100 after_new_block))
    = update_clients CreateNewBlock EncryptMessage SendBuf tp0 clients0 true.
Proof.
  assert (H1 : m_best_prev_hash (h_tp after_new_block)
               <> g_best_block (m_chain (h_tp after_new_block)))
    by (cbn; discriminate).
  split; [exact H1|]. split; [vm_compute; reflexivity|].
  destruct (best_block_change_clears_cache CreateNewBlock g_best_block GetTransactionsUpdated
              EncryptMessage SendBuf 100 after_new_block H1)
    as (tp0 & clients0 & Hcache & Hfees & _ & _ & _ & Hrun & _).
  exists tp0, clients0. repeat split; assumption.
Defined.

(** *** Further statements at this node *)

(** From connection to the first template, and through a pass of the
    handler, the flags come in the order of the protocol. *)
Lemma session_order_kept_witness :
  session_ok fresh /\
  (exists tp' client',
      process_all [setup_connection; coinbase_output_data_size 1 0 0 0] (node 1000) fresh
      = Done (tp', client') /\
      session_ok client') /\
  Forall session_ok (m_sv2_clients (handler_pass 100 after_new_block)).
Proof.
  destruct (session_order_kept
              CreateNewBlock ProcessNewBlock BlockMerkleRoot IsNull g_best_block
              GetTransactionsUpdated EncryptMessage SendBuf
              Unserialize_SetupConnection Unserialize_CoinbaseOutputDataSize
              Unserialize_SubmitSolution Unserialize_RequestTransactionData)
    as [Hmsgs Hpass].
  assert (Hfresh : session_ok fresh).
  { split; cbn; [discriminate | intros H; exfalso; apply H; reflexivity]. }
  assert (Hminer : session_ok miner).
  { split; cbn; intros _; reflexivity. }
  split; [exact Hfresh|]. split.
  - destruct (process_all [setup_connection; coinbase_output_data_size 1 0 0 0]
                          (node 1000) fresh) as [[tp' client']|] eqn:Hrun;
      [|vm_compute in Hrun; discriminate Hrun].
    exists tp', client'. split; [reflexivity|].
    exact (Hmsgs _ _ _ _ _ Hfresh Hrun).
  - apply Hpass. cbn [m_sv2_clients after_new_block].
    apply Forall_cons_2; [exact Hminer|]. apply Forall_cons_2; [exact Hfresh|].
    apply Forall_nil_2.
Defined.

(** A flagged miner asks for template 1 and sends a second
    [SetupConnection]: it is answered, and it stays flagged. *)
Lemma flags_never_cleared_witness :
  exists tp' client',
    process_all [request_transaction_data_1; setup_connection]
                node_with_template (set_disconnect_flag true miner)
    = Done (tp', client') /\
    m_disconnect_flag client' = true /\
    m_setup_connection_confirmed client' = true /\
    m_coinbase_output_data_size_recv client' = true.
Proof.
  destruct (process_all [request_transaction_data_1; setup_connection]
                        node_with_template (set_disconnect_flag true miner))
    as [[tp' client']|] eqn:Hrun; [|vm_compute in Hrun; discriminate Hrun].
  exists tp', client'. split; [reflexivity|].
  destruct (flags_never_cleared
              CreateNewBlock ProcessNewBlock BlockMerkleRoot IsNull EncryptMessage SendBuf
              Unserialize_SetupConnection Unserialize_CoinbaseOutputDataSize
              Unserialize_SubmitSolution Unserialize_RequestTransactionData
              [request_transaction_data_1; setup_connection]
              node_with_template tp' (set_disconnect_flag true miner) client' Hrun)
    as (H1 & H2 & H3).
  split; [apply H1; reflexivity|]. split; [apply H2; reflexivity | apply H3; reflexivity].
Defined.

(** [fresh] once the unit test's [SetupConnection] is answered. *)
Definition confirmed_fresh : @Sv2Client unit :=
  mkClient [Sv2SetupConnectionSuccessMsg 2 0] tt false true false 0 0.

Lemma confirmed_only_by_SetupConnection_witness :
  process setup_connection (node 1000) fresh = Done (node 1000, confirmed_fresh) /\
  m_setup_connection_confirmed fresh = false /\
  m_setup_connection_confirmed confirmed_fresh = true /\
  exists setup_conn,
    Unserialize_SetupConnection (m_msg setup_connection) = Some setup_conn /\
    m_protocol setup_conn = TP_SUBPROTOCOL /\
    m_min_version setup_conn <= 2 <= m_max_version setup_conn.
Proof.
  assert (Hrun : process setup_connection (node 1000) fresh = Done (node 1000, confirmed_fresh))
    by reflexivity.
  split; [exact Hrun|]. split; [reflexivity|]. split; [reflexivity|].
  destruct (confirmed_only_by_SetupConnection
              CreateNewBlock ProcessNewBlock BlockMerkleRoot IsNull EncryptMessage SendBuf
              Unserialize_SetupConnection Unserialize_CoinbaseOutputDataSize
              Unserialize_SubmitSolution Unserialize_RequestTransactionData
              setup_connection (node 1000) (node 1000) fresh confirmed_fresh
              Hrun eq_refl eq_refl)
    as (_ & _ & setup_conn & Hdec & Hproto & Hver & _).
  exists setup_conn. repeat split; [exact Hdec | exact Hproto | apply Hver | apply Hver].
Defined.

(** Ten bytes, which the decoders of [CoinbaseOutputDataSize] and of
    [RequestTransactionData] accept, are no [SubmitSolution]: sent as one
    by the miner they are dropped silently.  An empty
    [CoinbaseOutputDataSize] costs the miner its connection. *)
Definition ten_byte_body : list Z := [1; 0; 0; 0; 0; 0; 0; 0; 0; 0].

Lemma undecodable_message_effect_witness :
  body_undecodable Unserialize_SetupConnection Unserialize_CoinbaseOutputDataSize
                   Unserialize_SubmitSolution Unserialize_RequestTransactionData
                   (frame SUBMIT_SOLUTION ten_byte_body) /\
  Unserialize_CoinbaseOutputDataSize ten_byte_body = Some (mkCoinbaseOutputDataSize 1) /\
  Unserialize_RequestTransactionData ten_byte_body = Some (mkRequestTransactionData 1) /\
  process (frame SUBMIT_SOLUTION ten_byte_body) node_with_template miner
  = Done (node_with_template, miner) /\
  process (frame COINBASE_OUTPUT_DATA_SIZE []) node_with_template miner
  = Done (node_with_template, set_disconnect_flag true miner).
Proof.
  assert (H1 : body_undecodable
                 Unserialize_SetupConnection Unserialize_CoinbaseOutputDataSize
                 Unserialize_SubmitSolution Unserialize_RequestTransactionData
                 (frame SUBMIT_SOLUTION ten_byte_body)).
  { right. right. left. split; reflexivity. }
  assert (H2 : body_undecodable
                 Unserialize_SetupConnection Unserialize_CoinbaseOutputDataSize
                 Unserialize_SubmitSolution Unserialize_RequestTransactionData
                 (frame COINBASE_OUTPUT_DATA_SIZE [])).
  { right. left. split; reflexivity. }
  split; [exact H1|]. split; [reflexivity|]. split; [reflexivity|]. split.
  - exact (undecodable_message_effect
             CreateNewBlock ProcessNewBlock BlockMerkleRoot IsNull EncryptMessage SendBuf
             Unserialize_SetupConnection Unserialize_CoinbaseOutputDataSize
             Unserialize_SubmitSolution Unserialize_RequestTransactionData
             (frame SUBMIT_SOLUTION ten_byte_body) node_with_template miner H1).
  - exact (undecodable_message_effect
             CreateNewBlock ProcessNewBlock BlockMerkleRoot IsNull EncryptMessage SendBuf
             Unserialize_SetupConnection Unserialize_CoinbaseOutputDataSize
             Unserialize_SubmitSolution Unserialize_RequestTransactionData
             (frame COINBASE_OUTPUT_DATA_SIZE []) node_with_template miner H2).
Defined.

(** Of [miner] and [fresh] only [miner] has a size on record. *)
Lemma update_clients_accounting_witness :
  0 <= m_template_id (node 0) < 2 ^ 64 /\
  length (snd (update_clients CreateNewBlock EncryptMessage SendBuf (node 0) [miner; fresh] true))
  = 2%nat /\
  m_template_id
    (fst (update_clients CreateNewBlock EncryptMessage SendBuf (node 0) [miner; fresh] true))
  = wrap_u64 (0 + 1).
Proof.
  assert (H1 : 0 <= m_template_id (node 0) < 2 ^ 64) by (cbn; lia).
  split; [exact H1|].
  destruct (update_clients_accounting CreateNewBlock EncryptMessage SendBuf
              (node 0) [miner; fresh] true H1) as (Hlen & Hid & _).
  split; [exact Hlen | exact Hid].
Defined.

(** A solution for template 1 and a new [CoinbaseOutputDataSize]: template
    1 is still cached afterwards, next to template 2. *)
Lemma block_cache_ids_kept_witness :
  exists tp' client',
    process_all [submit_solution_1; coinbase_output_data_size 1 0 0 0] node_with_template miner
    = Done (tp', client') /\
    is_Some (m_block_cache node_with_template !! 1) /\
    is_Some (m_block_cache tp' !! 1).
Proof.
  destruct (process_all [submit_solution_1; coinbase_output_data_size 1 0 0 0]
                        node_with_template miner)
    as [[tp' client']|] eqn:Hrun; [|vm_compute in Hrun; discriminate Hrun].
  exists tp', client'. split; [reflexivity|].
  assert (H1 : is_Some (m_block_cache node_with_template !! 1)).
  { exists template1. reflexivity. }
  split; [exact H1|].
  exact (block_cache_ids_kept
           CreateNewBlock ProcessNewBlock BlockMerkleRoot IsNull EncryptMessage SendBuf
           Unserialize_SetupConnection Unserialize_CoinbaseOutputDataSize
           Unserialize_SubmitSolution Unserialize_RequestTransactionData
           [submit_solution_1; coinbase_output_data_size 1 0 0 0]
           node_with_template tp' miner client' 1 Hrun H1).
Defined.

Lemma node_with_template_ids : cache_ids_used node_with_template.
Proof.
  split; [cbn; lia|]. intros k [t Ht]. cbn [m_block_cache node_with_template] in Ht.
  apply lookup_singleton_Some in Ht. cbn. lia.
Defined.

Lemma cache_ids_below_counter_witness :
  cache_ids_used node_with_template /\
  m_template_id node_with_template
  + Z.of_nat (length [submit_solution_1; coinbase_output_data_size 1 0 0 0]) < 2 ^ 64 /\
  exists tp' client',
    process_all [submit_solution_1; coinbase_output_data_size 1 0 0 0] node_with_template miner
    = Done (tp', client') /\
    m_template_id tp' <= 1 + 2 /\
    m_block_cache tp' !! (m_template_id tp' + 1) = None.
Proof.
  assert (H2 : m_template_id node_with_template
               + Z.of_nat (length [submit_solution_1; coinbase_output_data_size 1 0 0 0])
               < 2 ^ 64) by (cbn; lia).
  split; [exact node_with_template_ids|]. split; [exact H2|].
  destruct (process_all [submit_solution_1; coinbase_output_data_size 1 0 0 0]
                        node_with_template miner)
    as [[tp' client']|] eqn:Hrun; [|vm_compute in Hrun; discriminate Hrun].
  exists tp', client'. split; [reflexivity|].
  destruct (cache_ids_below_counter
              CreateNewBlock ProcessNewBlock BlockMerkleRoot IsNull EncryptMessage SendBuf
              Unserialize_SetupConnection Unserialize_CoinbaseOutputDataSize
              Unserialize_SubmitSolution Unserialize_RequestTransactionData
              [submit_solution_1; coinbase_output_data_size 1 0 0 0]
              node_with_template tp' miner client' node_with_template_ids H2 Hrun)
    as (_ & Hle & Hfree).
  split; [exact Hle | exact Hfree].
Defined.

(** The first template for [miner], announced with a new prev hash; any
    client may then ask for its transactions. *)
Definition first_call :=
  SendWork CreateNewBlock EncryptMessage SendBuf (node 0) miner true.

Lemma node_ids : cache_ids_used (node 0).
Proof.
  split; [cbn; lia|]. intros k [t Ht]. cbn [m_block_cache node] in Ht.
  rewrite lookup_empty in Ht. discriminate Ht.
Defined.

Lemma announced_template_is_served_witness :
  cache_ids_used (node 0) /\
  first_call = (true, snd (fst first_call), snd first_call) /\
  (Sv2NewTemplateMsg (block template1) 1 true ∈ m_sock (snd first_call)) /\
  (Sv2NewTemplateMsg (block template1) 1 true ∉ m_sock miner) /\
  exists requester',
    process request_transaction_data_1 (snd (fst first_call)) fresh
    = Done (snd (fst first_call), requester') /\
    m_sock requester' = [Sv2RequestTransactionDataSuccessMsg 1 witness_nonce [payment]].
Proof.
  assert (H2 : m_template_id (node 0) + 1 < 2 ^ 64) by (cbn; lia).
  assert (H3 : first_call = (true, snd (fst first_call), snd first_call))
    by (vm_compute; reflexivity).
  assert (Hsock : m_sock (snd first_call)
                  = [Sv2NewTemplateMsg (block template1) 1 true;
                     Sv2SetNewPrevHashMsg (block template1) 1])
    by (vm_compute; reflexivity).
  assert (H4 : Sv2NewTemplateMsg (block template1) 1 true ∈ m_sock (snd first_call)).
  { rewrite Hsock. apply list_elem_of_here. }
  assert (H5 : Sv2NewTemplateMsg (block template1) 1 true ∉ m_sock miner).
  { cbn [m_sock miner]. apply not_elem_of_nil. }
  split; [exact node_ids|]. split; [exact H3|]. split; [exact H4|]. split; [exact H5|].
  exact (announced_template_is_served
           CreateNewBlock ProcessNewBlock BlockMerkleRoot IsNull EncryptMessage SendBuf
           Unserialize_SetupConnection Unserialize_CoinbaseOutputDataSize
           Unserialize_SubmitSolution Unserialize_RequestTransactionData
           (node 0) (snd (fst first_call)) miner (snd first_call) fresh true true
           (block template1) 1 true request_transaction_data_1
           (mkRequestTransactionData 1) witness_nonce
           node_ids H2 H3 H4 H5 eq_refl eq_refl eq_refl eq_refl eq_refl).
Defined.

(** With a fee delta of 0 the update for [miner] is sent, and the mark is
    the total of the template sent. *)
Definition update_call :=
  SendWork CreateNewBlock EncryptMessage SendBuf (node 0) miner false.

Lemma fee_mark_follows_sent_template_witness :
  in_i64 (m_latest_submitted_template_fees miner + m_minimum_fee_delta (node 0)) /\
  update_call = (true, snd (fst update_call), snd update_call) /\
  m_sock (snd update_call) <> m_sock miner /\
  m_latest_submitted_template_fees (snd update_call) = 5000.
Proof.
  assert (H1 : in_i64 (m_latest_submitted_template_fees miner + m_minimum_fee_delta (node 0)))
    by (unfold in_i64, INT64_MIN, INT64_MAX; cbn; lia).
  assert (H2 : update_call = (true, snd (fst update_call), snd update_call))
    by (vm_compute; reflexivity).
  split; [exact H1|]. split; [exact H2|].
  destruct (fee_mark_follows_sent_template CreateNewBlock EncryptMessage SendBuf
              (node 0) (snd (fst update_call)) miner (snd update_call) false true H1 H2)
    as [_ Hsent].
  destruct (Hsent eq_refl) as [(Hsame & _) | (Hneq & Hmark & _)].
  - vm_compute in Hsame. discriminate Hsame.
  - split; [exact Hneq|]. rewrite Hmark. vm_compute. reflexivity.
Defined.

(** No new block, and ten seconds after the timer fired: nothing is
    built; the flagged client is dropped. *)
Definition idle : @HandlerState Chain unit :=
  mkHandler node_with_template [miner; set_disconnect_flag true fresh] (mkTimer 30 90) 0 0.

Lemma idle_pass_changes_nothing_witness :
  m_best_prev_hash (h_tp idle) = g_best_block (m_chain (h_tp idle)) /\
  100 - m_last_triggered (timer idle) < m_interval (timer idle) /\
  h_tp (handler_pass 100 idle) = node_with_template /\
  m_sv2_clients (handler_pass 100 idle) = [miner].
Proof.
  assert (H1 : m_best_prev_hash (h_tp idle) = g_best_block (m_chain (h_tp idle)))
    by reflexivity.
  assert (H2 : 100 - m_last_triggered (timer idle) < m_interval (timer idle))
    by (cbn; lia).
  split; [exact H1|]. split; [exact H2|].
  destruct (idle_pass_changes_nothing CreateNewBlock g_best_block GetTransactionsUpdated
              EncryptMessage SendBuf 100 idle H1 (or_introl H2)) as (Htp & Hclients & _).
  split; [exact Htp | exact Hclients].
Defined.

(** A mempool whose counter stands at 7, and a handler that last built
    templates when it stood at 0: templates are built at 100 and again at
    130, one id for [miner] each time. *)
Definition mempool_at_7 (chain : Chain) : Z := 7.

Definition due : @HandlerState Chain unit :=
  mkHandler node_with_template [miner; fresh] (mkTimer 30 0) 0 0.

Definition pass_at_7 :=
  ThreadSv2Handler_schedule CreateNewBlock g_best_block mempool_at_7 EncryptMessage SendBuf.

Lemma rebuild_repeats_until_new_block_witness :
  0 <= m_template_id (h_tp due) < 2 ^ 64 /\
  m_best_prev_hash (h_tp due) = g_best_block (m_chain (h_tp due)) /\
  100 - m_last_triggered (timer due) >= m_interval (timer due) /\
  mempool_at_7 (m_chain (h_tp due)) > template_last_update due /\
  130 - 100 >= m_interval (timer due) /\
  template_last_update (pass_at_7 130 (pass_at_7 100 due)) = 0 /\
  m_template_id (h_tp (pass_at_7 100 due)) = 2 /\
  m_template_id (h_tp (pass_at_7 130 (pass_at_7 100 due))) = 3.
Proof.
  assert (H1 : 0 <= m_template_id (h_tp due) < 2 ^ 64) by (cbn; lia).
  assert (H2 : m_best_prev_hash (h_tp due) = g_best_block (m_chain (h_tp due)))
    by reflexivity.
  assert (H3 : 100 - m_last_triggered (timer due) >= m_interval (timer due)) by (cbn; lia).
  assert (H4 : mempool_at_7 (m_chain (h_tp due)) > template_last_update due)
    by (unfold mempool_at_7; cbn; lia).
  assert (H5 : 130 - 100 >= m_interval (timer due)) by (cbn; lia).
  split; [exact H1|]. split; [exact H2|]. split; [exact H3|]. split; [exact H4|].
  split; [exact H5|].
  destruct (rebuild_repeats_until_new_block CreateNewBlock g_best_block mempool_at_7
              EncryptMessage SendBuf 100 130 due H1 H2 H3 H4 H5) as (_ & Hlast & Hid1 & Hid2).
  split; [exact Hlast|]. split.
  - unfold pass_at_7. rewrite Hid1. vm_compute. reflexivity.
  - unfold pass_at_7. rewrite Hid2. vm_compute. reflexivity.
Defined.

(** Ten bytes arrive: less than one encrypted header. *)
Definition ten_bytes : Span := mkSpan (fun _ => 0) 10.

Lemma ReadAndDecryptSv2NetMsgs_reads_past_short_buffer_witness :
  0 < span_size ten_bytes < SV2_HEADER_ENCRYPTED_SIZE /\
  exists r,
    ReadAndDecryptSv2NetMsgs DecryptMessage miner ten_bytes = Some r /\
    touched_of r = [(0, 22)] /\
    inside 10 (0, 22) = false /\
    m_disconnect_flag (client_of r) = true.
Proof.
  assert (H1 : 0 < span_size ten_bytes < SV2_HEADER_ENCRYPTED_SIZE)
    by (unfold SV2_HEADER_ENCRYPTED_SIZE; cbn; lia).
  split; [exact H1|].
  destruct (ReadAndDecryptSv2NetMsgs_reads_past_short_buffer DecryptMessage miner ten_bytes H1)
    as (r & rest & Hrun & Htouched & Hout & Hdrop).
  exists r. split; [exact Hrun|].
  vm_compute in Hrun. inversion Hrun; subst r. repeat split.
Defined.

(** A session whose MACs all verify, and 22 bytes that decrypt to the
    header of a 100-byte message: the payload span is 116 bytes long from
    offset 22, where the buffer has none left, and the message returned is
    made of what lies behind the buffer. *)
Definition accept_all (cs : unit) (ct : list Z) : unit * option (list Z) :=
  (cs, Some (firstn (length ct - 16) ct)).

Definition header_only : Span :=
  mkSpan (fun i => if i =? 2 then COINBASE_OUTPUT_DATA_SIZE else if i =? 3 then 100 else 0) 22.

Example header_only_reads_payload_past_end :
  exists r,
    ReadAndDecryptSv2NetMsgs accept_all miner header_only = Some r /\
    touched_of r = [(0, 22); (22, 116)] /\
    inside (span_size header_only) (22, 116) = false /\
    exists msg client, r = Returned [msg] client (touched_of r) /\ length (m_msg msg) = 100%nat.
Proof.
  eexists. split; [vm_compute; reflexivity|].
  split; [reflexivity|]. split; [reflexivity|].
  eexists. eexists. split; reflexivity.
Qed.


(** The two spans of [header_only] follow one another from offset 0. *)
Lemma decoder_spans_are_contiguous_witness :
  exists r,
    ReadAndDecryptSv2NetMsgs accept_all miner header_only = Some r /\
    touched_of r = [(0, 22); (22, 116)] /\
    contiguous 0 (touched_of r).
Proof.
  destruct (ReadAndDecryptSv2NetMsgs accept_all miner header_only) as [r|] eqn:Hrun;
    [|vm_compute in Hrun; discriminate Hrun].
  exists r. split; [reflexivity|].
  destruct (decoder_spans_are_contiguous accept_all miner header_only r Hrun) as [Hcont _].
  split; [|exact Hcont].
  vm_compute in Hrun. inversion Hrun. reflexivity.
Defined.

(** One whole frame, 22 + 20 bytes: a [CoinbaseOutputDataSize] asking for
    one byte. *)
Definition one_frame_mem (i : Z) : Z :=
  if i =? 2 then COINBASE_OUTPUT_DATA_SIZE
  else if i =? 3 then 4
  else if i =? 22 then 1
  else if i =? 42 then 255
  else 0.

Definition one_frame : Span := mkSpan one_frame_mem 42.

Lemma one_frame_frames (DecryptMessage : unit -> list Z -> unit * option (list Z))
      (size : Z) :
  42 <= size ->
  DecryptMessage tt (span_bytes (mkSpan one_frame_mem size) 0 SV2_HEADER_ENCRYPTED_SIZE)
  = accept_all tt (span_bytes (mkSpan one_frame_mem size) 0 SV2_HEADER_ENCRYPTED_SIZE) ->
  DecryptMessage tt (span_bytes (mkSpan one_frame_mem size) 22 20)
  = accept_all tt (span_bytes (mkSpan one_frame_mem size) 22 20) ->
  frames_at DecryptMessage (mkSpan one_frame_mem size) 0 tt
            [coinbase_output_data_size 1 0 0 0] 42 tt.
Proof.
  intros Hsize Hh Hp.
  apply (frames_next DecryptMessage (mkSpan one_frame_mem size) 0 tt tt tt tt
                     [0; 0; COINBASE_OUTPUT_DATA_SIZE; 4; 0; 0]
                     (mkHeader COINBASE_OUTPUT_DATA_SIZE 4) [1; 0; 0; 0] [] 42).
  - cbn [span_size]. lia.
  - rewrite Hh. reflexivity.
  - reflexivity.
  - change (span_bytes (mkSpan one_frame_mem size) (0 + SV2_HEADER_ENCRYPTED_SIZE)
              (Noise.EncryptedMessageSize (m_msg_len (mkHeader COINBASE_OUTPUT_DATA_SIZE 4))))
      with (span_bytes (mkSpan one_frame_mem size) 22 20).
    rewrite Hp. reflexivity.
  - apply frames_none.
Defined.

Lemma whole_frames_decode_in_bounds_witness :
  frames_at accept_all one_frame 0 (m_noise miner) [coinbase_output_data_size 1 0 0 0]
            (span_size one_frame) tt /\
  exists spans,
    ReadAndDecryptSv2NetMsgs accept_all miner one_frame
    = Some (Returned [coinbase_output_data_size 1 0 0 0] miner spans) /\
    Forall (fun sp => inside 42 sp = true) spans /\
    length spans = 2%nat.
Proof.
  assert (H1 : frames_at accept_all one_frame 0 (m_noise miner)
                         [coinbase_output_data_size 1 0 0 0] (span_size one_frame) tt).
  { apply (one_frame_frames accept_all 42); [lia | reflexivity | reflexivity]. }
  split; [exact H1|].
  destruct (whole_frames_decode_in_bounds accept_all miner one_frame
              [coinbase_output_data_size 1 0 0 0] tt H1)
    as (spans & Hrun & Hin & Hcount & _).
  exists spans. split; [exact Hrun|]. split; [exact Hin | exact Hcount].
Defined.

(** A session that rejects a span starting with 0xff.  43 bytes arrive:
    the frame above and one byte 0xff.  The second header does not
    verify, and the message of the first frame is processed all the same:
    [miner] is sent template 2 and is flagged for disconnect. *)
Definition reject_ff (cs : unit) (ct : list Z) : unit * option (list Z) :=
  match ct with
  | 255 :: _ => (cs, None)
  | _ => accept_all cs ct
  end.

Definition receive :=
  receive_from CreateNewBlock ProcessNewBlock BlockMerkleRoot IsNull reject_ff
               EncryptMessage SendBuf
               Unserialize_SetupConnection Unserialize_CoinbaseOutputDataSize
               Unserialize_SubmitSolution Unserialize_RequestTransactionData.

Lemma frames_before_failed_mac_are_processed_witness :
  frames_at reject_ff (mkSpan one_frame_mem 43) 0 (m_noise miner)
            [coinbase_output_data_size 1 0 0 0] 42 tt /\
  reject_ff tt (span_bytes (mkSpan one_frame_mem 43) 42 SV2_HEADER_ENCRYPTED_SIZE)
  = (tt, None) /\
  exists tp' client',
    receive false true 43 one_frame_mem node_with_template miner = Some (Done (tp', client')) /\
    m_template_id tp' = 2 /\
    length (m_sock client') = 2%nat /\
    m_disconnect_flag client' = true.
Proof.
  assert (H1 : frames_at reject_ff (mkSpan one_frame_mem 43) 0 (m_noise miner)
                         [coinbase_output_data_size 1 0 0 0] 42 tt).
  { apply (one_frame_frames reject_ff 43); [lia | reflexivity | reflexivity]. }
  assert (H2 : (42 < 43)%Z) by lia.
  assert (H3 : reject_ff tt (span_bytes (mkSpan one_frame_mem 43) 42 SV2_HEADER_ENCRYPTED_SIZE)
               = (tt, None)) by reflexivity.
  split; [exact H1|]. split; [exact H3|].
  destruct (frames_before_failed_mac_are_processed
              CreateNewBlock ProcessNewBlock BlockMerkleRoot IsNull reject_ff
              EncryptMessage SendBuf
              Unserialize_SetupConnection Unserialize_CoinbaseOutputDataSize
              Unserialize_SubmitSolution Unserialize_RequestTransactionData
              false 43 one_frame_mem node_with_template miner
              [coinbase_output_data_size 1 0 0 0] 42 tt tt H1 H2 H3) as [Hrun Hflag].
  destruct (process_all [coinbase_output_data_size 1 0 0 0] node_with_template
                        (set_disconnect_flag true (set_noise tt miner)))
    as [[tp' client']|] eqn:Hproc; [|vm_compute in Hproc; discriminate Hproc].
  exists tp', client'. split; [unfold receive; rewrite Hrun; exact (f_equal Some Hproc)|].
  split; [|split; [|exact (Hflag tp' client' Hproc)]].
  - vm_compute in Hproc. inversion Hproc. reflexivity.
  - vm_compute in Hproc. inversion Hproc. reflexivity.
Defined.

(** A 30-second timer last fired at 0, read at 10, 40, 50, 70 and 100. *)
Lemma timer_firings_spaced_witness :
  trigger_times (mkTimer 30 0) [10; 40; 50; 70; 100] = [40; 70; 100] /\
  spaced_from 0 30 [40; 70; 100] /\
  trigger_times (mkTimer 30 0) [40; 50] = 40 :: trigger_times (mkTimer 30 40) [50].
Proof.
  destruct (timer_firings_spaced (mkTimer 30 0) [10; 40; 50; 70; 100]) as [Hspaced _].
  destruct (timer_firings_spaced (mkTimer 30 0) [40; 50]) as [_ Hdue].
  split; [reflexivity|]. split; [exact Hspaced|].
  apply (Hdue 40 [50] eq_refl). cbn. lia.
Defined.

End Scenario.

(** ** SendBuf: the loop over [Sock::Send] *)

Module Socket.

(** What one call of [m_sock->Send] comes to: the [ssize_t] it returns,
    or an exception. *)
Inductive send_result : Type :=
| Returns (sent : Z)
| Throws.

(** How [SendBuf] ends: its return value, the bytes the socket has taken,
    in order, and the time slept, in milliseconds. *)
Record report := mkReport {
  ok : bool;
  taken : list Z;
  slept_ms : Z
}.

Section SendBuf.

Context {Sock : Type}.
(** [Send(data, len, MSG_NOSIGNAL | MSG_DONTWAIT)], as a function of the
    [len] bytes at [data]: the next state of the socket and the result. *)
Variable Send : Sock -> list Z -> Sock * send_result.

(** The [while (total_sent < buffer.size())] loop inside the [try] block,
    followed by the final test.  A positive [sent] means that the socket
    took the first [sent] bytes it was offered.  [None] is the fuel running
    out. *)
Fixpoint send_loop (fuel : nat) (sock : Sock) (buffer : list Z)
         (total_sent : Z) (taken : list Z) (slept : Z) : option report :=
  if total_sent <? Z.of_nat (length buffer) then
    match fuel with
    | O => None
    | S fuel =>
        let data := skipn (Z.to_nat total_sent) buffer in
        match Send sock data with
        | (_, Throws) => Some (mkReport false taken slept)
        | (sock, Returns sent) =>
            if sent >? 0 then
              send_loop fuel sock buffer (wrap_u64 (total_sent + sent))
                        (taken ++ firstn (Z.to_nat sent) data) slept
            else if sent =? 0 then
              send_loop fuel sock buffer total_sent taken (slept + 10)
            else
              send_loop fuel sock buffer total_sent taken (slept + 100)
        end
    end
  else Some (mkReport (total_sent =? Z.of_nat (length buffer)) taken slept).

Definition SendBuf (fuel : nat) (sock : Sock) (buffer : list Z) : option report :=
  send_loop fuel sock buffer 0 [] 0.

(** The socket never reports more bytes than it was offered. *)
Definition honest : Prop :=
  forall sock data sock' sent,
    Send sock data = (sock', Returns sent) -> sent <= Z.of_nat (length data).

(** Offered at least one byte, the socket takes at least one or raises. *)
Definition takes_bytes : Prop :=
  forall sock data sock' sent,
    data <> [] -> Send sock data = (sock', Returns sent) -> 0 < sent.

(** The socket returns, and never a positive count. *)
Definition refuses : Prop :=
  forall sock data, exists sock' sent, Send sock data = (sock', Returns sent) /\ sent <= 0.

Lemma send_loop_prefix (Hhonest : honest) fuel :
  forall sock buffer total_sent acc slept r,
    Z.of_nat (length buffer) < 2 ^ 64 ->
    0 <= total_sent <= Z.of_nat (length buffer) ->
    acc = firstn (Z.to_nat total_sent) buffer ->
    send_loop fuel sock buffer total_sent acc slept = Some r ->
    exists n,
      (n <= length buffer)%nat /\
      taken r = firstn n buffer /\
      (ok r = true -> n = length buffer) /\
      (ok r = false -> (n < length buffer)%nat).
Proof.
  induction fuel as [|fuel IH]; intros sock buffer total_sent acc slept r Hsize Hrange Htaken;
    cbn [send_loop]; destruct (Z.ltb_spec total_sent (Z.of_nat (length buffer))) as [Hlt|Hge].
  - discriminate.
  - intros H; inversion H; subst r. cbn [taken ok].
    exists (Z.to_nat total_sent). rewrite Htaken.
    repeat split; lia.
  - destruct (Send sock (skipn (Z.to_nat total_sent) buffer)) as [sock' [sent|]] eqn:Hsend.
    + pose proof (Hhonest _ _ _ _ Hsend) as Hle. rewrite length_skipn in Hle.
      destruct (Z.gtb_spec sent 0) as [Hpos|Hnonpos].
      * apply IH; [exact Hsize | | ].
        -- rewrite wrap_u64_id by lia. lia.
        -- rewrite wrap_u64_id by lia. rewrite Htaken, take_take_drop.
           f_equal. lia.
      * destruct (sent =? 0); apply IH; assumption.
    + intros H; inversion H; subst r. cbn [taken ok].
      exists (Z.to_nat total_sent). rewrite Htaken.
      repeat split; try lia; discriminate.
  - intros H; inversion H; subst r. cbn [taken ok].
    exists (Z.to_nat total_sent). rewrite Htaken.
    repeat split; lia.
Qed.

(** X17.  With a socket that never reports more than it was offered,
    whatever [SendBuf] has put on the socket when it returns is a prefix of
    the buffer, in order and without a byte repeated, also after partial
    sends and retries; it returns [true] exactly when that prefix is the
    whole buffer. *)
Theorem SendBuf_sends_buffer_in_order
        (fuel : nat) (sock : Sock) (buffer : list Z) (r : report) :
  honest ->
  Z.of_nat (length buffer) < 2 ^ 64 ->
  SendBuf fuel sock buffer = Some r ->
  exists n,
    taken r = firstn n buffer /\
    (ok r = true <-> taken r = buffer) /\
    (ok r = false -> (n < length buffer)%nat).
Proof.
  intros Hhonest Hsize Hrun. unfold SendBuf in Hrun.
  apply (send_loop_prefix Hhonest) in Hrun as (n & Hn & Htaken & Htrue & Hfalse);
    [|exact Hsize | lia | reflexivity].
  exists n. split; [exact Htaken|]. split; [|exact Hfalse].
  split.
  - intros Hok. rewrite Htaken, (Htrue Hok). apply firstn_all.
  - intros Hall. destruct (ok r) eqn:Hok; [reflexivity|].
    specialize (Hfalse eq_refl).
    assert (Hlen : length (taken r) = n).
    { rewrite Htaken. apply firstn_length_le. lia. }
    rewrite Hall in Hlen. lia.
Qed.

Lemma send_loop_returns (Hhonest : honest) (Htakes : takes_bytes) fuel :
  forall sock buffer total_sent acc slept,
    Z.of_nat (length buffer) < 2 ^ 64 ->
    0 <= total_sent <= Z.of_nat (length buffer) ->
    Z.of_nat (length buffer) - total_sent <= Z.of_nat fuel ->
    exists r, send_loop fuel sock buffer total_sent acc slept = Some r /\ slept_ms r = slept.
Proof.
  induction fuel as [|fuel IH]; intros sock buffer total_sent acc slept Hsize Hrange Hfuel;
    cbn [send_loop]; destruct (Z.ltb_spec total_sent (Z.of_nat (length buffer))) as [Hlt|Hge];
    try lia; try (eexists; split; reflexivity).
  destruct (Send sock (skipn (Z.to_nat total_sent) buffer)) as [sock' [sent|]] eqn:Hsend;
    [|eexists; split; reflexivity].
  pose proof (Hhonest _ _ _ _ Hsend) as Hle. rewrite length_skipn in Hle.
  assert (Hpos : 0 < sent).
  { apply (Htakes _ _ _ _) in Hsend; [exact Hsend|].
    intros Hnil. apply (f_equal (@length Z)) in Hnil. rewrite length_skipn in Hnil.
    cbn [length] in Hnil. lia. }
  destruct (Z.gtb_spec sent 0) as [_|Hnonpos]; [|lia].
  apply IH; [exact Hsize | rewrite wrap_u64_id by lia; lia | rewrite wrap_u64_id by lia; lia].
Qed.

(** X18.  When the socket takes at least one byte at every call, or
    raises, [SendBuf] returns after at most one call per byte of the
    buffer, without sleeping. *)
Theorem SendBuf_returns_when_socket_takes_bytes (sock : Sock) (buffer : list Z) :
  honest ->
  takes_bytes ->
  Z.of_nat (length buffer) < 2 ^ 64 ->
  exists r, SendBuf (length buffer) sock buffer = Some r /\ slept_ms r = 0.
Proof.
  intros Hhonest Htakes Hsize. unfold SendBuf.
  apply (send_loop_returns Hhonest Htakes); lia.
Qed.

(** X19.  [SendBuf] has no way out for a socket in error: a return value
    of zero or below (the [-1] of a closed or reset connection included)
    only makes it sleep and call [Send] again.  With a socket that never
    takes a byte and never raises, the loop over a non-empty buffer does
    not end, whatever the number of iterations allowed. *)
Theorem SendBuf_retries_forever (fuel : nat) (sock : Sock) (buffer : list Z) :
  refuses ->
  buffer <> [] ->
  SendBuf fuel sock buffer = None.
Proof.
  intros Hrefuses Hbuf. unfold SendBuf.
  assert (Hlen : 0 < Z.of_nat (length buffer)).
  { destruct buffer; [contradiction | cbn [length]; lia]. }
  generalize 0 at 2 as slept. revert sock.
  induction fuel as [|fuel IH]; intros sock slept; cbn [send_loop];
    destruct (Z.ltb_spec 0 (Z.of_nat (length buffer))) as [_|Hge]; try lia; [reflexivity|].
  destruct (Hrefuses sock (skipn (Z.to_nat 0) buffer)) as (sock' & sent & Hsend & Hle).
  rewrite Hsend.
  destruct (Z.gtb_spec sent 0) as [Hpos|_]; [lia|].
  destruct (sent =? 0); apply IH.
Qed.

End SendBuf.

(** *** Three sockets *)

(** A socket that takes two bytes at a time. *)
Definition two_at_a_time (sock : unit) (data : list Z) : unit * send_result :=
  (sock, Returns (Z.min 2 (Z.of_nat (length data)))).

(** A connection that was reset: every [Send] returns -1. *)
Definition reset (sock : unit) (data : list Z) : unit * send_result :=
  (sock, Returns (-1)).

Lemma two_at_a_time_honest : honest two_at_a_time.
Proof.
  intros sock data sock' sent H. unfold two_at_a_time in H. inversion H. lia.
Defined.

Lemma two_at_a_time_takes_bytes : takes_bytes two_at_a_time.
Proof.
  intros sock data sock' sent Hdata H. unfold two_at_a_time in H. inversion H.
  destruct data; [contradiction | cbn [length]; lia].
Defined.

Lemma reset_refuses : refuses reset.
Proof. intros sock data. exists sock, (-1). split; [reflexivity | lia]. Defined.

Lemma SendBuf_sends_buffer_in_order_witness :
  honest two_at_a_time /\
  Z.of_nat (length [1; 2; 3; 4; 5]) < 2 ^ 64 /\
  SendBuf two_at_a_time 3 tt [1; 2; 3; 4; 5] = Some (mkReport true [1; 2; 3; 4; 5] 0) /\
  exists n, [1; 2; 3; 4; 5] = firstn n [1; 2; 3; 4; 5].
Proof.
  assert (H2 : Z.of_nat (length [1; 2; 3; 4; 5]) < 2 ^ 64) by (cbn; lia).
  assert (H3 : SendBuf two_at_a_time 3 tt [1; 2; 3; 4; 5]
               = Some (mkReport true [1; 2; 3; 4; 5] 0)) by reflexivity.
  split; [exact two_at_a_time_honest|]. split; [exact H2|]. split; [exact H3|].
  destruct (SendBuf_sends_buffer_in_order two_at_a_time 3 tt [1; 2; 3; 4; 5]
              (mkReport true [1; 2; 3; 4; 5] 0) two_at_a_time_honest H2 H3)
    as (n & Htaken & _).
  exists n. exact Htaken.
Defined.

Lemma SendBuf_returns_when_socket_takes_bytes_witness :
  honest two_at_a_time /\
  takes_bytes two_at_a_time /\
  Z.of_nat (length [1; 2; 3; 4; 5]) < 2 ^ 64 /\
  exists r, SendBuf two_at_a_time 5 tt [1; 2; 3; 4; 5] = Some r /\ slept_ms r = 0.
Proof.
  assert (H3 : Z.of_nat (length [1; 2; 3; 4; 5]) < 2 ^ 64) by (cbn; lia).
  split; [exact two_at_a_time_honest|]. split; [exact two_at_a_time_takes_bytes|].
  split; [exact H3|].
  exact (SendBuf_returns_when_socket_takes_bytes two_at_a_time tt [1; 2; 3; 4; 5]
           two_at_a_time_honest two_at_a_time_takes_bytes H3).
Defined.

Lemma SendBuf_retries_forever_witness :
  refuses reset /\
  [7] <> @nil Z /\
  SendBuf reset 1000 tt [7] = None.
Proof.
  assert (H2 : [7] <> @nil Z) by discriminate.
  split; [exact reset_refuses|]. split; [exact H2|].
  exact (SendBuf_retries_forever reset 1000 tt [7] reset_refuses H2).
Defined.

End Socket.

(** ** The certificate on the wire ([Sv2SignatureNoiseMessage]) *)

Module Certificate.

Record Sv2SignatureNoiseMessage := mkSignatureNoiseMessage {
  m_version : Z;                       (* uint16_t *)
  m_valid_from : Z;                    (* uint32_t *)
  m_valid_to : Z;                      (* uint32_t *)
  m_sig : list Z;                      (* std::vector<unsigned char> *)
  m_static_key : list Z                (* XOnlyPubKey *)
}.

Section Stream.

(** The stream operators of [serialize.h] for [uint16_t] and [uint32_t]:
    [s << v] appends the bytes of [v]; [s >> v] takes a value off the
    front, or throws ([None]). *)
Variable ser_u16 ser_u32 : Z -> list Z.
Variable unser_u16 unser_u32 : list Z -> option (Z * list Z).

(** What is asked of them: a value of the type is written on a fixed
    number of bytes and read back. *)
Definition reads_back (bits : Z) (bytes : nat)
           (ser : Z -> list Z) (unser : list Z -> option (Z * list Z)) : Prop :=
  forall v rest,
    0 <= v < 2 ^ bits ->
    length (ser v) = bytes /\ unser (ser v ++ rest) = Some (v, rest).

Definition Serialize (m : Sv2SignatureNoiseMessage) : list Z :=
  ser_u16 (m_version m) ++ ser_u32 (m_valid_from m) ++ ser_u32 (m_valid_to m) ++ m_sig m.

(** [Unserialize] on the object [self] and the stream [s]: the message
    read and the rest of the stream.  [m_sig.resize(64)] makes the final
    [read] one of 64 bytes, which throws when the stream holds fewer. *)
Definition Unserialize (self : Sv2SignatureNoiseMessage) (s : list Z)
  : option (Sv2SignatureNoiseMessage * list Z) :=
  match unser_u16 s with
  | None => None
  | Some (version, s) =>
      match unser_u32 s with
      | None => None
      | Some (valid_from, s) =>
          match unser_u32 s with
          | None => None
          | Some (valid_to, s) =>
              if (length s <? 64)%nat then None
              else Some (mkSignatureNoiseMessage version valid_from valid_to
                                                 (firstn 64 s) (m_static_key self),
                         skipn 64 s)
          end
      end
  end.

(** The fields fit their types. *)
Definition well_typed (m : Sv2SignatureNoiseMessage) : Prop :=
  0 <= m_version m < 2 ^ 16 /\ 0 <= m_valid_from m < 2 ^ 32 /\ 0 <= m_valid_to m < 2 ^ 32.

(** X20.  A certificate whose signature has 64 bytes is written on
    [SIGNATURE_NOISE_MESSAGE_SIZE] = 74 bytes and read back with the same
    version, validity interval and signature, leaving the rest of the
    stream; the static key is not on the wire, and the reader keeps the one
    it had.  A certificate whose signature is shorter (a default-constructed
    one has none) is written on fewer bytes, and reading those back
    throws. *)
Theorem certificate_round_trip (self m : Sv2SignatureNoiseMessage) (rest : list Z) :
  reads_back 16 2 ser_u16 unser_u16 ->
  reads_back 32 4 ser_u32 unser_u32 ->
  well_typed m ->
  (length (m_sig m) = 64%nat ->
   Z.of_nat (length (Serialize m)) = Noise.SIGNATURE_NOISE_MESSAGE_SIZE /\
   Unserialize self (Serialize m ++ rest)
   = Some (mkSignatureNoiseMessage (m_version m) (m_valid_from m) (m_valid_to m)
                                   (m_sig m) (m_static_key self),
           rest)) /\
  ((length (m_sig m) < 64)%nat ->
   Z.of_nat (length (Serialize m)) < Noise.SIGNATURE_NOISE_MESSAGE_SIZE /\
   Unserialize self (Serialize m) = None).
Proof.
  intros H16 H32 (Hv & Hf & Ht).
  destruct (H16 (m_version m) (ser_u32 (m_valid_from m) ++ ser_u32 (m_valid_to m)
                               ++ m_sig m ++ rest) Hv) as [L16 R16].
  destruct (H32 (m_valid_from m) (ser_u32 (m_valid_to m) ++ m_sig m ++ rest) Hf)
    as [Lf Rf].
  destruct (H32 (m_valid_to m) (m_sig m ++ rest) Ht) as [Lt Rt].
  assert (Hlen : length (Serialize m) = (10 + length (m_sig m))%nat).
  { unfold Serialize. rewrite !length_app, L16, Lf, Lt. lia. }
  split.
  - intros Hsig. split.
    + rewrite Hlen, Hsig. reflexivity.
    + unfold Unserialize, Serialize. rewrite <- !app_assoc, R16, Rf, Rt.
      assert (Hge : (length (m_sig m ++ rest) <? 64)%nat = false).
      { apply Nat.ltb_ge. rewrite length_app. lia. }
      rewrite Hge. rewrite <- Hsig.
      rewrite take_app_length, drop_app_length. reflexivity.
  - intros Hsig. split.
    + rewrite Hlen. unfold Noise.SIGNATURE_NOISE_MESSAGE_SIZE. lia.
    + destruct (H16 (m_version m) (ser_u32 (m_valid_from m) ++ ser_u32 (m_valid_to m)
                                   ++ m_sig m) Hv) as [_ R16'].
      destruct (H32 (m_valid_from m) (ser_u32 (m_valid_to m) ++ m_sig m) Hf) as [_ Rf'].
      destruct (H32 (m_valid_to m) (m_sig m) Ht) as [_ Rt'].
      unfold Unserialize, Serialize. rewrite R16', Rf', Rt'.
      assert (Hlt : (length (m_sig m) <? 64)%nat = true) by (apply Nat.ltb_lt; exact Hsig).
      rewrite Hlt. reflexivity.
Qed.

End Stream.

(** *** Little-endian streams *)

Fixpoint ser_le (bytes : nat) (v : Z) : list Z :=
  match bytes with
  | O => []
  | S bytes => v mod 256 :: ser_le bytes (v / 256)
  end.

Fixpoint unser_le (bytes : nat) (s : list Z) : option (Z * list Z) :=
  match bytes with
  | O => Some (0, s)
  | S bytes =>
      match s with
      | [] => None
      | b :: s =>
          match unser_le bytes s with
          | None => None
          | Some (v, s) => Some (b + 256 * v, s)
          end
      end
  end.

Lemma le_reads_back (bytes : nat) :
  reads_back (8 * Z.of_nat bytes) bytes (ser_le bytes) (unser_le bytes).
Proof.
  induction bytes as [|bytes IH]; intros v rest Hv.
  - cbn in Hv. assert (v = 0) by lia. subst v. split; reflexivity.
  - assert (Hdiv : 0 <= v / 256 < 2 ^ (8 * Z.of_nat bytes)).
    { replace (8 * Z.of_nat (S bytes)) with (8 + 8 * Z.of_nat bytes) in Hv by lia.
      rewrite Z.pow_add_r in Hv by lia. change (2 ^ 8) with 256 in Hv.
      split; [apply Z.div_pos; lia|]. apply Z.div_lt_upper_bound; lia. }
    destruct (IH (v / 256) rest Hdiv) as [Hlen Hread].
    split; [cbn [ser_le length]; rewrite Hlen; reflexivity|].
    cbn [ser_le unser_le app]. rewrite Hread. f_equal. f_equal.
    pose proof (Z.div_mod v 256). lia.
Defined.

(** A certificate valid from 0 to 0xffffffff, and a reader with no
    signature and a null key. *)
Definition always_valid : Sv2SignatureNoiseMessage :=
  mkSignatureNoiseMessage 0 0 0xffffffff (repeat 7 64) (repeat 1 32).

Definition blank : Sv2SignatureNoiseMessage :=
  mkSignatureNoiseMessage 0 0 0 [] (repeat 0 32).

Lemma certificate_round_trip_witness :
  reads_back 16 2 (ser_le 2) (unser_le 2) /\
  reads_back 32 4 (ser_le 4) (unser_le 4) /\
  well_typed always_valid /\
  length (Serialize (ser_le 2) (ser_le 4) always_valid) = 74%nat /\
  Unserialize (unser_le 2) (unser_le 4) blank
              (Serialize (ser_le 2) (ser_le 4) always_valid ++ [9])
  = Some (mkSignatureNoiseMessage 0 0 0xffffffff (repeat 7 64) (repeat 0 32), [9]) /\
  Unserialize (unser_le 2) (unser_le 4) blank (Serialize (ser_le 2) (ser_le 4) blank) = None.
Proof.
  assert (H1 : reads_back 16 2 (ser_le 2) (unser_le 2)) by exact (le_reads_back 2).
  assert (H2 : reads_back 32 4 (ser_le 4) (unser_le 4)) by exact (le_reads_back 4).
  assert (H3 : well_typed always_valid) by (unfold well_typed; cbn; lia).
  assert (H4 : well_typed blank) by (unfold well_typed; cbn; lia).
  split; [exact H1|]. split; [exact H2|]. split; [exact H3|].
  destruct (certificate_round_trip (ser_le 2) (ser_le 4) (unser_le 2) (unser_le 4)
              blank always_valid [9] H1 H2 H3) as [Hfull _].
  destruct (certificate_round_trip (ser_le 2) (ser_le 4) (unser_le 2) (unser_le 4)
              blank blank [] H1 H2 H4) as [_ Hshort].
  split; [reflexivity|]. split.
  - apply Hfull. reflexivity.
  - apply Hshort. cbn. lia.
Defined.

End Certificate.

(** ** Miniscript types and the evaluation of expression trees
    ([script/miniscript.h]) *)

Module Miniscript.

Import Ascii.

(** *** The class Type *)

(** [Type]: the bitmap [m_flags], a [uint32_t]. *)
Record Type_ := mkType {
  m_flags : Z
}.

(** [operator|], [operator&], [operator<<], [operator<], [operator==]
    and [If]. *)
Definition type_or (a x : Type_) : Type_ := mkType (Z.lor (m_flags a) (m_flags x)).
Definition type_and (a x : Type_) : Type_ := mkType (Z.land (m_flags a) (m_flags x)).
Definition subtype (a x : Type_) : bool :=
  Z.land (m_flags x) (wrap_u32 (Z.lnot (m_flags a))) =? 0.
Definition type_lt (a x : Type_) : bool := m_flags a <? m_flags x.
Definition type_eq (a x : Type_) : bool := m_flags a =? m_flags x.
Definition If (a : Type_) (x : bool) : Type_ := mkType (if x then m_flags a else 0).

(** The bit of a letter of the [_mst] literal; [None] for a character that
    makes the literal throw. *)
Definition letter_flag (c : Ascii.ascii) : option Z :=
  if Ascii.eqb c "B"%char then Some (Z.shiftl 1 0) else
  if Ascii.eqb c "V"%char then Some (Z.shiftl 1 1) else
  if Ascii.eqb c "K"%char then Some (Z.shiftl 1 2) else
  if Ascii.eqb c "W"%char then Some (Z.shiftl 1 3) else
  if Ascii.eqb c "z"%char then Some (Z.shiftl 1 4) else
  if Ascii.eqb c "o"%char then Some (Z.shiftl 1 5) else
  if Ascii.eqb c "n"%char then Some (Z.shiftl 1 6) else
  if Ascii.eqb c "d"%char then Some (Z.shiftl 1 7) else
  if Ascii.eqb c "u"%char then Some (Z.shiftl 1 8) else
  if Ascii.eqb c "e"%char then Some (Z.shiftl 1 9) else
  if Ascii.eqb c "f"%char then Some (Z.shiftl 1 10) else
  if Ascii.eqb c "s"%char then Some (Z.shiftl 1 11) else
  if Ascii.eqb c "m"%char then Some (Z.shiftl 1 12) else
  if Ascii.eqb c "x"%char then Some (Z.shiftl 1 13) else
  if Ascii.eqb c "g"%char then Some (Z.shiftl 1 14) else
  if Ascii.eqb c "h"%char then Some (Z.shiftl 1 15) else
  if Ascii.eqb c "i"%char then Some (Z.shiftl 1 16) else
  if Ascii.eqb c "j"%char then Some (Z.shiftl 1 17) else
  if Ascii.eqb c "k"%char then Some (Z.shiftl 1 18) else
  None.

(** [operator"" _mst(c, l)]: the union of the letters' bits, from the
    last letter to the first. *)
Fixpoint mst (c : string) : option Type_ :=
  match c with
  | EmptyString => Some (mkType 0)
  | String ch rest =>
      match mst rest, letter_flag ch with
      | Some t, Some flag => Some (type_or t (mkType flag))
      | _, _ => None
      end
  end.

(** A literal written in the source, where the letters are known. *)
Definition lit (c : string) : Type_ := default (mkType 0) (mst c).

(** The type tests of [Node], on the cached type [GetType()]. *)
Definition IsValid (typ : Type_) : bool := negb (type_eq typ (lit "")).
Definition IsValidTopLevel (typ : Type_) : bool := subtype typ (lit "B").
Definition IsNonMalleable (typ : Type_) : bool := subtype typ (lit "m").
Definition NeedsSignature (typ : Type_) : bool := subtype typ (lit "s").
Definition IsSane (typ : Type_) : bool := subtype typ (lit "k") && IsValid typ.
Definition IsSaneTopLevel (typ : Type_) : bool :=
  IsValidTopLevel typ && IsSane typ && NeedsSignature typ.

(** The letters of a literal. *)
Definition letters (c : string) : list Ascii.ascii := list_ascii_of_string c.

Lemma letter_flag_pow c flag :
  letter_flag c = Some flag -> exists k, 0 <= k < 19 /\ flag = 2 ^ k.
Proof.
  unfold letter_flag.
  repeat match goal with
         | |- context [Ascii.eqb c ?x] => destruct (Ascii.eqb c x)
         end;
    intros H; inversion H;
    match goal with
    | |- exists k, _ /\ Z.shiftl 1 ?n = _ => exists n; split; [lia | reflexivity]
    end.
Qed.

Lemma letter_flag_inj c c' flag :
  letter_flag c = Some flag -> letter_flag c' = Some flag -> c = c'.
Proof.
  unfold letter_flag.
  repeat match goal with
         | |- context [Ascii.eqb c ?x] => destruct (Ascii.eqb_spec c x)
         end; try discriminate;
    intros H; inversion H; subst; clear H;
    repeat match goal with
           | |- context [Ascii.eqb c' ?x] => destruct (Ascii.eqb_spec c' x)
           end; try discriminate; intros H; try (inversion H; fail); subst; reflexivity.
Qed.

Lemma mst_bits c : forall a k,
  mst c = Some a ->
  0 <= k ->
  Z.testbit (m_flags a) k = true <-> exists ch, In ch (letters c) /\ letter_flag ch = Some (2 ^ k).
Proof.
  induction c as [|ch rest IH]; intros a k Hmst Hk; cbn [mst] in Hmst.
  - inversion Hmst; subst a. cbn [m_flags letters list_ascii_of_string].
    rewrite Z.bits_0. split; [discriminate | intros (ch & [] & _)].
  - destruct (mst rest) as [t|] eqn:Hrest; [|discriminate Hmst].
    destruct (letter_flag ch) as [flag|] eqn:Hflag; [|discriminate Hmst].
    inversion Hmst; subst a. cbn [type_or m_flags].
    rewrite Z.lor_spec, orb_true_iff, (IH t k eq_refl Hk).
    destruct (letter_flag_pow _ _ Hflag) as (k' & Hk' & ->).
    rewrite Z.pow2_bits_eqb by lia.
    unfold letters. cbn [list_ascii_of_string]. split.
    + intros [(c' & Hin & Hc') | Heq].
      * exists c'. split; [right; exact Hin | exact Hc'].
      * apply Z.eqb_eq in Heq. subst k'. exists ch. split; [left; reflexivity | exact Hflag].
    + intros (c' & [Heq | Hin] & Hc').
      * subst c'. right. rewrite Hflag in Hc'. inversion Hc' as [Hpow].
        apply Z.pow_inj_r in Hpow; [|lia|lia|lia]. subst k'. apply Z.eqb_refl.
      * left. exists c'. split; assumption.
Qed.

(** [a << x] says that every bit of [x] below 32 is a bit of [a]. *)
Lemma subtype_bits a x :
  subtype a x = true <->
  forall k, 0 <= k < 32 -> Z.testbit (m_flags x) k = true -> Z.testbit (m_flags a) k = true.
Proof.
  unfold subtype, wrap_u32. rewrite Z.eqb_eq. split.
  - intros Hzero k Hk Hx.
    apply (f_equal (fun z => Z.testbit z k)) in Hzero.
    rewrite Z.land_spec, Z.bits_0, Hx, Z.mod_pow2_bits_low, Z.lnot_spec in Hzero by lia.
    cbn [andb] in Hzero. apply negb_false_iff. exact Hzero.
  - intros Hbits. apply Z.bits_inj'. intros k Hk.
    rewrite Z.land_spec, Z.bits_0.
    destruct (Z.lt_ge_cases k 32) as [Hlow|Hhigh].
    + rewrite Z.mod_pow2_bits_low, Z.lnot_spec by lia.
      destruct (Z.testbit (m_flags x) k) eqn:Hx; [|reflexivity].
      rewrite (Hbits k (conj Hk Hlow) Hx). reflexivity.
    + rewrite Z.mod_pow2_bits_high by lia. apply andb_false_r.
Qed.

(** X21.  The subset rule of types.  For two [_mst] literals that do not
    throw, the first is a subtype of the second ([<<]) exactly when every
    letter of the second occurs in the first: each letter has a bit of its
    own, and neither the order nor the repetition of letters matters. *)
Theorem mst_subtype_iff_letters (c d : string) (a x : Type_) :
  mst c = Some a ->
  mst d = Some x ->
  subtype a x = true <-> forall ch, In ch (letters d) -> In ch (letters c).
Proof.
  intros Ha Hx. rewrite subtype_bits. split.
  - intros Hbits ch Hin.
    assert (Hflag : exists flag, letter_flag ch = Some flag).
    { clear Hbits Ha. revert x Hx Hin. unfold letters.
      induction d as [|ch' rest IH]; intros x Hx Hin; [destruct Hin|].
      cbn [mst] in Hx. cbn [list_ascii_of_string] in Hin.
      destruct (mst rest) as [t|]; [|discriminate Hx].
      destruct (letter_flag ch') as [flag|] eqn:Hflag; [|discriminate Hx].
      destruct Hin as [<- | Hin]; [exists flag; exact Hflag | exact (IH t eq_refl Hin)]. }
    destruct Hflag as (flag & Hflag).
    destruct (letter_flag_pow _ _ Hflag) as (k & Hk & ->).
    assert (Hxk : Z.testbit (m_flags x) k = true).
    { apply (mst_bits d x k Hx); [lia|]. exists ch. split; assumption. }
    apply Hbits in Hxk; [|lia].
    apply (mst_bits c a k Ha) in Hxk as (ch' & Hin' & Hflag'); [|lia].
    rewrite (letter_flag_inj _ _ _ Hflag Hflag'). exact Hin'.
  - intros Hletters k Hk Hxk.
    apply (mst_bits d x k Hx) in Hxk as (ch & Hin & Hflag); [|lia].
    apply (mst_bits c a k Ha); [lia|].
    exists ch. split; [exact (Hletters ch Hin) | exact Hflag].
Qed.

Lemma subtype_or a x y : subtype a (type_or x y) = subtype a x && subtype a y.
Proof.
  unfold subtype, type_or. cbn [m_flags].
  rewrite Z.land_lor_distr_l.
  destruct (Z.eqb_spec (Z.land (m_flags x) (wrap_u32 (Z.lnot (m_flags a)))) 0) as [Hx|Hx];
    destruct (Z.eqb_spec (Z.land (m_flags y) (wrap_u32 (Z.lnot (m_flags a)))) 0) as [Hy|Hy];
    cbn [andb]; rewrite Z.eqb_eq || rewrite Z.eqb_neq; rewrite Z.lor_eq_0_iff; tauto.
Qed.

(** X22.  [IsSaneTopLevel] is one subtype test: a node is sane at top
    level exactly when its type has the letters B, k and s.  The [IsValid]
    test inside [IsSane] never decides: a type with B is not the empty
    type. *)
Theorem IsSaneTopLevel_is_one_test (typ : Type_) :
  IsSaneTopLevel typ = subtype typ (lit "Bks") /\
  (IsValidTopLevel typ = true -> IsValid typ = true).
Proof.
  assert (Hvalid : IsValidTopLevel typ = true -> IsValid typ = true).
  { unfold IsValidTopLevel, IsValid, type_eq. intros HB.
    apply (proj1 (subtype_bits typ (lit "B"))) with (k := 0) in HB; [|lia|reflexivity].
    apply negb_true_iff, Z.eqb_neq. intros Hzero.
    change (m_flags (lit "")) with 0 in Hzero. rewrite Hzero, Z.bits_0 in HB.
    discriminate HB. }
  split; [|exact Hvalid].
  change (lit "Bks") with (type_or (type_or (lit "s") (lit "k")) (lit "B")).
  rewrite !subtype_or. unfold IsSaneTopLevel, IsSane, NeedsSignature.
  destruct (IsValidTopLevel typ) eqn:HB.
  - rewrite (Hvalid eq_refl). unfold IsValidTopLevel in HB. rewrite HB.
    destruct (subtype typ (lit "k")), (subtype typ (lit "s")); reflexivity.
  - unfold IsValidTopLevel in HB. rewrite HB. cbn [andb]. rewrite andb_false_r. reflexivity.
Qed.

Lemma mst_subtype_iff_letters_witness :
  mst "Bonduesm" = Some (mkType 0x1be1) /\
  mst "Bms" = Some (mkType 0x1801) /\
  subtype (mkType 0x1be1) (mkType 0x1801) = true.
Proof.
  assert (H1 : mst "Bonduesm" = Some (mkType 0x1be1)) by reflexivity.
  assert (H2 : mst "Bms" = Some (mkType 0x1801)) by reflexivity.
  split; [exact H1|]. split; [exact H2|].
  apply (mst_subtype_iff_letters "Bonduesm" "Bms" _ _ H1 H2).
  intros ch Hin. cbn in Hin |- *. tauto.
Defined.

(** *** Nodes *)

Inductive NodeType : Type :=
| JUST_0 | JUST_1 | PK_K | PK_H | OLDER | AFTER
| WRAP_A | WRAP_S | WRAP_C | WRAP_D | WRAP_V | WRAP_J | WRAP_N
| AND_V | AND_B | OR_B | OR_C | OR_D | OR_I | ANDOR | MULTI.

(** [Node<Key>]: the node type, [k], the keys, the subexpressions, and
    the two cached values. *)
#[local] Unset Elimination Schemes.
Inductive Node (Key : Type) : Type :=
| mkNode (nodetype : NodeType) (k : Z) (keys : list Key) (subs : list (Node Key))
         (typ : Type_) (scriptlen : Z).
#[local] Set Elimination Schemes.
Arguments mkNode {Key} nodetype k keys subs typ scriptlen.

Definition nodetype {Key} (n : Node Key) : NodeType :=
  match n with mkNode nt _ _ _ _ _ => nt end.
Definition k {Key} (n : Node Key) : Z :=
  match n with mkNode _ k _ _ _ _ => k end.
Definition keys {Key} (n : Node Key) : list Key :=
  match n with mkNode _ _ keys _ _ _ => keys end.
Definition subs {Key} (n : Node Key) : list (Node Key) :=
  match n with mkNode _ _ _ subs _ _ => subs end.
Definition typ {Key} (n : Node Key) : Type_ :=
  match n with mkNode _ _ _ _ typ _ => typ end.
Definition scriptlen {Key} (n : Node Key) : Z :=
  match n with mkNode _ _ _ _ _ scriptlen => scriptlen end.

(** Induction on a node, with the property at hand for every
    subexpression. *)
Lemma Node_subs_ind {Key} (P : Node Key -> Prop) :
  (forall nt k keys subs typ scriptlen,
      Forall P subs -> P (mkNode nt k keys subs typ scriptlen)) ->
  forall n, P n.
Proof.
  intros Hnode. fix IH 1. intros [nt k0 keys0 subs0 typ0 scriptlen0].
  apply Hnode. induction subs0 as [|s rest IHrest]; constructor; [apply IH | exact IHrest].
Qed.

(** How a loop of the source ends: with a value, by a failed [assert] or
    an index out of range, or not within the iterations allowed. *)
Inductive run (A : Type) : Type :=
| Finished (a : A)
| Aborted
| OutOfFuel.
Arguments Finished {A} a.
Arguments Aborted {A}.
Arguments OutOfFuel {A}.

(** *** TreeEvalMaybe *)

Section TreeEvalMaybe.

Context {Key State Result : Type}.
(** [downfn(State&, const Node&, size_t) -> State]: the state of the
    child, and the state of the node after the call, which may have
    changed it. *)
Variable downfn : State -> Node Key -> nat -> State * State.
(** [upfn(State&&, const Node&, Span<Result>) -> std::optional<Result>]. *)
Variable upfn : State -> Node Key -> list Result -> option Result.

Record StackElem := mkStackElem {
  node : Node Key;
  expanded : nat;
  state : State
}.

(** The [while (stack.size())] loop and the lines after it.  The head of
    [stack] is [stack.back()]. *)
Fixpoint loop (fuel : nat) (stack : list StackElem) (results : list Result)
  : run (option Result) :=
  match stack with
  | [] =>
      match results with
      | [result] => Finished (Some result)
      | _ => Aborted                               (* assert(results.size() == 1) *)
      end
  | back :: below =>
      match fuel with
      | O => OutOfFuel
      | S fuel =>
          let n_subs := length (subs (node back)) in
          if (expanded back <? n_subs)%nat then
            let child_index := expanded back in
            let '(child_state, node_state) := downfn (state back) (node back) child_index in
            match nth_error (subs (node back)) child_index with
            | None => Aborted                      (* node.subs[child_index] *)
            | Some child =>
                loop fuel
                     (mkStackElem child 0 child_state
                      :: mkStackElem (node back) (S child_index) node_state :: below)
                     results
            end
          else if (length results <? n_subs)%nat then
            Aborted                                (* assert(results.size() >= node.subs.size()) *)
          else
            match upfn (state back) (node back)
                       (skipn (length results - n_subs) results) with
            | None => Finished None
            | Some result =>
                loop fuel below (firstn (length results - n_subs) results ++ [result])
            end
      end
  end.

Definition TreeEvalMaybe (fuel : nat) (root : Node Key) (root_state : State)
  : run (option Result) :=
  loop fuel [mkStackElem root 0 root_state] [].

(** The recursive algorithm that the comment above [TreeEvalMaybe]
    describes: [downfn] for each child in order, the child evaluated with
    the state it gives, then [upfn] on the results; the first [nullopt]
    ends the evaluation. *)
Fixpoint children (ev : Node Key -> State -> option Result) (parent : Node Key)
         (rest : list (Node Key)) (index : nat) (st : State)
  : option (State * list Result) :=
  match rest with
  | [] => Some (st, [])
  | child :: rest =>
      let '(child_state, st) := downfn st parent index in
      match ev child child_state with
      | None => None
      | Some result =>
          match children ev parent rest (S index) st with
          | None => None
          | Some (st, results) => Some (st, result :: results)
          end
      end
  end.

Fixpoint eval (n : Node Key) (st : State) {struct n} : option Result :=
  match n with
  | mkNode _ _ _ subs _ _ =>
      match children eval n subs 0 st with
      | None => None
      | Some (st, results) => upfn st n results
      end
  end.

(** The iterations the loop needs at most: one per child to expand it and
    one per node to fold it. *)
Fixpoint steps (n : Node Key) : nat :=
  match n with
  | mkNode _ _ _ subs _ _ => S (list_sum (map (fun child => S (steps child)) subs))
  end.

Lemma children_length ev parent rest : forall index st st' results,
  children ev parent rest index st = Some (st', results) -> length results = length rest.
Proof.
  induction rest as [|child rest IH]; intros index st st' results H; cbn [children] in H.
  - inversion H; reflexivity.
  - destruct (downfn st parent index) as [child_state st1].
    destruct (ev child child_state) as [result|]; [|discriminate H].
    destruct (children ev parent rest (S index) st1) as [[st2 rs]|] eqn:Hrest; [|discriminate H].
    inversion H; subst. cbn [length]. f_equal. eapply IH. exact Hrest.
Qed.

(** From a frame on top of the stack to its result on top of [results]. *)
Definition folds (n : Node Key) : Prop :=
  forall st below results,
  exists cost,
    (cost <= steps n)%nat /\
    forall fuel,
      loop (cost + fuel) (mkStackElem n 0 st :: below) results
      = match eval n st with
        | Some result => loop fuel below (results ++ [result])
        | None => Finished None
        end.

Lemma loop_children (parent : Node Key) (rest : list (Node Key)) :
  Forall folds rest ->
  forall done st below results,
    subs parent = done ++ rest ->
    exists cost,
      (cost <= list_sum (map (fun child => S (steps child)) rest))%nat /\
      forall fuel,
        loop (cost + fuel) (mkStackElem parent (length done) st :: below) results
        = match children eval parent rest (length done) st with
          | Some (st', rs) =>
              loop fuel (mkStackElem parent (length (subs parent)) st' :: below) (results ++ rs)
          | None => Finished None
          end.
Proof.
  induction 1 as [|child rest Hchild Hrest IH]; intros done st below results Hsubs.
  - exists 0%nat. split; [simpl; lia|]. intros fuel. cbn [children Nat.add].
    rewrite Hsubs, !app_nil_r. reflexivity.
  - cbn [children].
    destruct (downfn st parent (length done)) as [child_state st1] eqn:Hdown.
    destruct (Hchild child_state (mkStackElem parent (S (length done)) st1 :: below) results)
      as (cost1 & Hcost1 & Hrun1).
    destruct (eval child child_state) as [result|] eqn:Heval.
    + destruct (IH (done ++ [child]) st1 below (results ++ [result])) as (cost2 & Hcost2 & Hrun2).
      { rewrite Hsubs, <- app_assoc. reflexivity. }
      rewrite length_app in Hrun2. cbn [length] in Hrun2.
      replace (length done + 1)%nat with (S (length done)) in Hrun2 by lia.
      exists (S (cost1 + cost2)). split; [simpl; lia|].
      intros fuel. cbn [Nat.add loop node expanded state].
      assert (Hlt : (length done <? length (subs parent))%nat = true).
      { apply Nat.ltb_lt. rewrite Hsubs, length_app. cbn [length]. lia. }
      rewrite Hlt, Hdown.
      assert (Hnth : nth_error (subs parent) (length done) = Some child).
      { rewrite Hsubs, nth_error_app2 by lia. rewrite Nat.sub_diag. reflexivity. }
      rewrite Hnth. rewrite <- Nat.add_assoc, Hrun1, Hrun2.
      destruct (children eval parent rest (S (length done)) st1) as [[st2 rs]|];
        [|reflexivity].
      rewrite <- app_assoc. reflexivity.
    + exists (S cost1). split; [simpl; lia|].
      intros fuel. cbn [Nat.add loop node expanded state].
      assert (Hlt : (length done <? length (subs parent))%nat = true).
      { apply Nat.ltb_lt. rewrite Hsubs, length_app. cbn [length]. lia. }
      rewrite Hlt, Hdown.
      assert (Hnth : nth_error (subs parent) (length done) = Some child).
      { rewrite Hsubs, nth_error_app2 by lia. rewrite Nat.sub_diag. reflexivity. }
      rewrite Hnth. apply Hrun1.
Qed.

Lemma loop_folds (n : Node Key) : folds n.
Proof.
  induction n as [nt k0 keys0 subs0 typ0 scriptlen0 IH] using Node_subs_ind.
  intros st below results.
  set (n := mkNode nt k0 keys0 subs0 typ0 scriptlen0).
  destruct (loop_children n subs0 IH [] st below results eq_refl) as (cost & Hcost & Hrun).
  exists (cost + 1)%nat. split; [simpl; lia|].
  intros fuel. rewrite <- Nat.add_assoc.
  change (mkStackElem n 0 st) with (mkStackElem n (length (@nil (Node Key))) st).
  rewrite Hrun. cbn [length].
  assert (Heval : eval n st
                  = match children eval n subs0 0 st with
                    | None => None
                    | Some (st', rs) => upfn st' n rs
                    end) by reflexivity.
  rewrite Heval. clear Heval.
  destruct (children eval n subs0 0 st) as [[st' rs]|] eqn:Hchildren; [|reflexivity].
  apply children_length in Hchildren.
  cbn [Nat.add loop node expanded state subs n].
  rewrite Nat.ltb_irrefl.
  assert (Hge : (length (results ++ rs) <? length subs0)%nat = false).
  { apply Nat.ltb_ge. rewrite length_app. lia. }
  rewrite Hge.
  replace (length (results ++ rs) - length subs0)%nat with (length results)
    by (rewrite length_app; lia).
  rewrite drop_app_length, take_app_length. reflexivity.
Qed.

(** With enough iterations the loop started on the root ends with the
    recursive result. *)
Lemma loop_root (root : Node Key) (root_state : State) (fuel : nat) :
  (steps root <= fuel)%nat ->
  loop fuel [mkStackElem root 0 root_state] [] = Finished (eval root root_state).
Proof.
  intros Hfuel.
  destruct (loop_folds root root_state [] []) as (cost & Hcost & Hrun).
  replace fuel with (cost + (fuel - cost))%nat by lia.
  rewrite Hrun. destruct (eval root root_state) as [result|]; [|reflexivity].
  destruct (fuel - cost)%nat; reflexivity.
Qed.

(** X23.  [TreeEvalMaybe] computes what the recursive algorithm computes.
    Given as many iterations as the tree has nodes and edges, the loop over
    the explicit stack ends, no assertion fails and no index is out of
    range, and it returns the result of evaluating the root recursively
    ([downfn] for each child in order, then [upfn]), or [nullopt] when some
    [upfn] on the way gives [nullopt]. *)
Theorem TreeEvalMaybe_is_recursive_evaluation
        (root : Node Key) (root_state : State) (fuel : nat) :
  (steps root <= fuel)%nat ->
  TreeEvalMaybe fuel root root_state = Finished (eval root root_state).
Proof.
  intros Hfuel. unfold TreeEvalMaybe. apply loop_root. exact Hfuel.
Qed.

End TreeEvalMaybe.

(** *** TreeEval *)

Section TreeEval.

Context {Key State Result : Type}.
Variable downfn : State -> Node Key -> nat -> State * State.
(** Here [upfn] returns a [Result]. *)
Variable upfn : State -> Node Key -> list Result -> Result.

(** [*TreeEvalMaybe(...)] with [upfn] wrapped; dereferencing [nullopt] has
    no defined result. *)
Definition TreeEval (fuel : nat) (root : Node Key) (root_state : State) : run Result :=
  match TreeEvalMaybe downfn (fun st n results => Some (upfn st n results))
                      fuel root root_state with
  | Finished (Some result) => Finished result
  | Finished None => Aborted
  | Aborted => Aborted
  | OutOfFuel => OutOfFuel
  end.

Lemma eval_wrapped_children (n : Node Key) (rest : list (Node Key)) :
  Forall (fun child =>
            forall st, is_Some (eval downfn (fun st n results => Some (upfn st n results))
                                     child st)) rest ->
  forall index st,
    is_Some (children downfn (eval downfn (fun st n results => Some (upfn st n results)))
                      n rest index st).
Proof.
  induction 1 as [|child rest Hchild Hrest IH]; intros index st; cbn [children].
  - eexists. reflexivity.
  - destruct (downfn st n index) as [child_state st1].
    destruct (Hchild child_state) as [result ->].
    destruct (IH (S index) st1) as [[st2 rs] ->]. eexists. reflexivity.
Qed.

Lemma eval_wrapped (n : Node Key) :
  forall st, is_Some (eval downfn (fun st n results => Some (upfn st n results)) n st).
Proof.
  induction n as [nt k0 keys0 subs0 typ0 scriptlen0 IH] using Node_subs_ind.
  intros st. cbn [eval].
  destruct (eval_wrapped_children (mkNode nt k0 keys0 subs0 typ0 scriptlen0) subs0 IH 0 st)
    as [[st' rs] ->].
  eexists. reflexivity.
Qed.

(** X24.  [TreeEval] dereferences the result of [TreeEvalMaybe] without a
    test, and that is safe: with an [upfn] that always gives a result the
    evaluation is never [nullopt], and [TreeEval] returns the result of the
    recursive evaluation. *)
Theorem TreeEval_dereference_is_safe (root : Node Key) (root_state : State) (fuel : nat) :
  (steps root <= fuel)%nat ->
  exists result,
    TreeEval fuel root root_state = Finished result /\
    eval downfn (fun st n results => Some (upfn st n results)) root root_state = Some result.
Proof.
  intros Hfuel. unfold TreeEval, TreeEvalMaybe.
  rewrite loop_root by exact Hfuel.
  destruct (eval_wrapped root root_state) as [result Hresult].
  rewrite Hresult. exists result. split; reflexivity.
Qed.

End TreeEval.

(** *** Construction and equality of nodes *)

(** The enumerators of [NodeType], in the order of the declaration. *)
Definition NodeType_value (nt : NodeType) : Z :=
  match nt with
  | JUST_0 => 0 | JUST_1 => 1 | PK_K => 2 | PK_H => 3 | OLDER => 4 | AFTER => 5
  | WRAP_A => 6 | WRAP_S => 7 | WRAP_C => 8 | WRAP_D => 9 | WRAP_V => 10 | WRAP_J => 11
  | WRAP_N => 12 | AND_V => 13 | AND_B => 14 | OR_B => 15 | OR_C => 16 | OR_D => 17
  | OR_I => 18 | ANDOR => 19 | MULTI => 20
  end.

Lemma NodeType_value_inj nt nt' : NodeType_value nt = NodeType_value nt' -> nt = nt'.
Proof. destruct nt, nt'; intros H; try reflexivity; discriminate H. Qed.

Section Nodes.

Context {Key : Type}.
(** [operator==] of [Key]. *)
Variable Key_eq : Key -> Key -> bool.
(** [internal::ComputeType], [internal::SanitizeType] and
    [internal::ComputeScriptLen], declared in the header. *)
Variable ComputeType : NodeType -> Type_ -> Type_ -> Type_ -> Z -> nat -> nat -> Type_.
Variable SanitizeType : Type_ -> Type_.
Variable ComputeScriptLen : NodeType -> Type_ -> Z -> Z -> nat -> nat -> Z.

(** [subs.size() > i ? subs[i]->GetType() : ""_mst]. *)
Definition sub_type (subs : list (Node Key)) (i : nat) : Type_ :=
  match nth_error subs i with
  | Some sub => typ sub
  | None => lit ""
  end.

Definition CalcType (nt : NodeType) (k : Z) (keys : list Key) (subs : list (Node Key))
  : Type_ :=
  SanitizeType (ComputeType nt (sub_type subs 0) (sub_type subs 1) (sub_type subs 2)
                            k (length subs) (length keys)).

Definition CalcScriptLen (nt : NodeType) (k : Z) (keys : list Key) (subs : list (Node Key))
  : Z :=
  let subsize := fold_left (fun subsize sub => wrap_u64 (subsize + scriptlen sub)) subs 0 in
  ComputeScriptLen nt (sub_type subs 0) subsize k (length subs) (length keys).

(** The constructors: every one of them sets [typ(CalcType())] and
    [scriptlen(CalcScriptLen())] after the other members. *)
Definition MakeNode (nt : NodeType) (subs : list (Node Key)) (keys : list Key) (k : Z)
  : Node Key :=
  mkNode nt k keys subs (CalcType nt k keys subs) (CalcScriptLen nt k keys subs).

(** The nodes that the constructors make, from subexpressions made by
    them. *)
#[local] Unset Elimination Schemes.
Inductive constructed : Node Key -> Prop :=
| constructed_node nt subs keys k :
    Forall constructed subs -> constructed (MakeNode nt subs keys k).
#[local] Set Elimination Schemes.

(** [keys != arg.keys] on vectors, negated. *)
Fixpoint keys_eq (keys keys' : list Key) : bool :=
  match keys, keys' with
  | [], [] => true
  | key :: keys, key' :: keys' => Key_eq key key' && keys_eq keys keys'
  | _, _ => false
  end.

(** The [for] loop of [operator==] over two vectors of the same size,
    followed by what comes [after] it. *)
Fixpoint subs_eq (eq : Node Key -> Node Key -> option bool) (after : option bool)
         (subs subs' : list (Node Key)) : option bool :=
  match subs, subs' with
  | sub :: subs, sub' :: subs' =>
      match eq sub sub' with
      | Some true => subs_eq eq after subs subs'
      | other => other
      end
  | _, _ => after
  end.

(** [Node::operator==]; [None] is a failed [assert]. *)
Fixpoint node_eq (n arg : Node Key) {struct n} : option bool :=
  match n, arg with
  | mkNode nt k keys subs typ scriptlen, mkNode nt' k' keys' subs' typ' scriptlen' =>
      if negb (NodeType_value nt =? NodeType_value nt') then Some false
      else if negb (k =? k') then Some false
      else if negb (keys_eq keys keys') then Some false
      else if negb (length subs =? length subs')%nat then Some false
      else
        subs_eq node_eq
                (if (scriptlen =? scriptlen') && type_eq typ typ' then Some true else None)
                subs subs'
  end.

(** [Key_eq] is equality. *)
Definition Key_eq_spec : Prop := forall key key', Key_eq key key' = true <-> key = key'.

Lemma keys_eq_spec (Hkey : Key_eq_spec) keys : forall keys',
  keys_eq keys keys' = true <-> keys = keys'.
Proof.
  induction keys as [|key keys IH]; intros [|key' keys']; cbn [keys_eq];
    try (split; [discriminate | discriminate]); [split; reflexivity|].
  rewrite andb_true_iff, (Hkey key key'), IH. split.
  - intros [-> ->]. reflexivity.
  - intros H. inversion H. split; reflexivity.
Qed.

(** What [operator==] answers for [n]: never a failed assertion, and
    [true] exactly for an equal node. *)
Definition decides (n : Node Key) : Prop :=
  forall arg, constructed n -> constructed arg ->
    exists answer, node_eq n arg = Some answer /\ (answer = true <-> n = arg).

Lemma subs_eq_decides (after : option bool) (subs : list (Node Key)) :
  Forall decides subs ->
  Forall constructed subs ->
  forall subs',
    Forall constructed subs' ->
    length subs = length subs' ->
    (subs = subs' /\ subs_eq node_eq after subs subs' = after) \/
    (subs <> subs' /\ subs_eq node_eq after subs subs' = Some false).
Proof.
  induction 1 as [|sub subs Hsub Hsubs IH]; intros Hmade subs' Hmade' Hlen.
  - destruct subs' as [|sub' subs']; [|discriminate Hlen]. left. split; reflexivity.
  - destruct subs' as [|sub' subs']; [discriminate Hlen|].
    apply Forall_cons in Hmade as [Hm Hms]. apply Forall_cons in Hmade' as [Hm' Hms'].
    cbn [subs_eq].
    destruct (Hsub sub' Hm Hm') as (answer & -> & Hanswer).
    destruct answer.
    + assert (sub = sub') by (apply Hanswer; reflexivity). subst sub'.
      destruct (IH Hms subs' Hms') as [[-> Hrun] | [Hneq Hrun]];
        [cbn [length] in Hlen; lia | | ].
      * left. split; [reflexivity | exact Hrun].
      * right. split; [intros H; inversion H; contradiction | exact Hrun].
    + right. split; [|reflexivity].
      intros H. inversion H. subst sub'.
      assert (false = true) by (apply Hanswer; reflexivity). discriminate.
Qed.

Lemma node_eq_decides (n : Node Key) : Key_eq_spec -> decides n.
Proof.
  intros Hkey.
  induction n as [nt k0 keys0 subs0 typ0 scriptlen0 IH] using Node_subs_ind.
  intros [nt' k' keys' subs' typ' scriptlen'] Hn Harg.
  inversion Hn as [nt1 subs1 keys1 k1 Hsubs Heq]. subst nt1 k1 keys1 subs1.
  inversion Harg as [nt2 subs2 keys2 k2 Hsubs' Heq']. subst nt2 k2 keys2 subs2.
  cbn [node_eq].
  destruct (Z.eqb_spec (NodeType_value nt) (NodeType_value nt')) as [Hnt|Hnt]; cbn [negb].
  2: { exists false. split; [reflexivity|]. split; [discriminate|].
       intros H. inversion H. subst nt'. contradiction. }
  apply NodeType_value_inj in Hnt. subst nt'.
  destruct (Z.eqb_spec k0 k') as [Hk|Hk]; cbn [negb].
  2: { exists false. split; [reflexivity|]. split; [discriminate|].
       intros H. inversion H. contradiction. }
  subst k'.
  destruct (keys_eq keys0 keys') eqn:Hkeys; cbn [negb].
  2: { exists false. split; [reflexivity|]. split; [discriminate|].
       intros H. inversion H. subst keys'.
       assert (keys_eq keys0 keys0 = true) by (apply (keys_eq_spec Hkey); reflexivity).
       congruence. }
  apply (keys_eq_spec Hkey) in Hkeys. subst keys'.
  destruct (Nat.eqb_spec (length subs0) (length subs')) as [Hlen|Hlen]; cbn [negb].
  2: { exists false. split; [reflexivity|]. split; [discriminate|].
       intros H. inversion H. subst subs'. contradiction. }
  destruct (subs_eq_decides
              (if (CalcScriptLen nt k0 keys0 subs0 =? CalcScriptLen nt k0 keys0 subs')
                  && type_eq (CalcType nt k0 keys0 subs0) (CalcType nt k0 keys0 subs')
               then Some true else None)
              subs0 IH Hsubs subs' Hsubs' Hlen) as [[<- Hrun] | [Hneq Hrun]].
  - exists true. split; [|split; reflexivity].
    subst typ0 scriptlen0 typ' scriptlen'. rewrite Hrun.
    unfold type_eq. rewrite !Z.eqb_refl. reflexivity.
  - exists false. split.
    + subst typ0 scriptlen0 typ' scriptlen'. exact Hrun.
    + split; [discriminate|]. intros H. inversion H. contradiction.
Qed.

(** X25.  [operator==] on nodes made by the constructors decides
    equality: its two assertions on the cached script length and type never
    fail, and it returns [true] exactly when the two expressions are the
    same tree, with the same node types, [k], keys and subexpressions. *)
Theorem node_eq_is_equality (n arg : Node Key) :
  Key_eq_spec ->
  constructed n ->
  constructed arg ->
  exists answer, node_eq n arg = Some answer /\ (answer = true <-> n = arg).
Proof.
  intros Hkey Hn Harg. exact (node_eq_decides n Hkey arg Hn Harg).
Qed.

End Nodes.

(** *** The tree of the comment in TreeEvalMaybe: A(B,C(D,E),F) *)

Definition leaf (label : Z) : Node Z := mkNode JUST_1 label [] [] (lit "") 1.
Definition tree_C : Node Z := mkNode AND_V 3 [] [leaf 4; leaf 5] (lit "") 3.
Definition tree_A : Node Z := mkNode ANDOR 1 [] [leaf 2; tree_C; leaf 6] (lit "") 6.

(** The state is the depth; the result lists [k] and depth of the nodes
    below, the node first. *)
Definition depth_below (depth : nat) (n : Node Z) (index : nat) : nat * nat :=
  (S depth, depth).
Definition listing (depth : nat) (n : Node Z) (results : list (list (Z * nat)))
  : list (Z * nat) :=
  (k n, depth) :: concat results.

Lemma TreeEvalMaybe_is_recursive_evaluation_witness :
  (steps tree_A <= 11)%nat /\
  TreeEvalMaybe depth_below (fun st n results => Some (listing st n results)) 11 tree_A 0%nat
  = Finished (Some [(1, 0%nat); (2, 1%nat); (3, 1%nat); (4, 2%nat); (5, 2%nat); (6, 1%nat)]).
Proof.
  assert (H1 : (steps tree_A <= 11)%nat) by (vm_compute; lia).
  split; [exact H1|].
  rewrite (TreeEvalMaybe_is_recursive_evaluation
             depth_below (fun st n results => Some (listing st n results)) tree_A 0%nat 11 H1).
  reflexivity.
Defined.

Lemma TreeEval_dereference_is_safe_witness :
  (steps tree_A <= 11)%nat /\
  exists result, TreeEval depth_below listing 11 tree_A 0%nat = Finished result.
Proof.
  assert (H1 : (steps tree_A <= 11)%nat) by (vm_compute; lia).
  split; [exact H1|].
  destruct (TreeEval_dereference_is_safe depth_below listing tree_A 0%nat 11 H1)
    as (result & Hrun & _).
  exists result. exact Hrun.
Defined.

(** Two nodes made by the constructors, with a type and a script length
    that count the subexpressions. *)
Definition count_type (nt : NodeType) (x y z : Type_) (k : Z) (n_subs n_keys : nat) : Type_ :=
  mkType (Z.of_nat n_subs).
Definition keep (typ : Type_) : Type_ := typ.
Definition count_len (nt : NodeType) (sub0typ : Type_) (subsize k : Z) (n_subs n_keys : nat)
  : Z := subsize + 1.

Definition make := @MakeNode Z count_type keep count_len.
Definition pk (key : Z) : Node Z := make WRAP_C [make PK_K [] [key] 0] [] 0.
Definition and_pk (key key' : Z) : Node Z := make AND_V [pk key; pk key'] [] 0.

Lemma Z_eq_spec : Key_eq_spec Z.eqb.
Proof. intros key key'. apply Z.eqb_eq. Defined.

Lemma pk_constructed key : constructed count_type keep count_len (pk key).
Proof.
  apply constructed_node. apply Forall_cons_2; [|apply Forall_nil_2].
  apply constructed_node. apply Forall_nil_2.
Defined.

Lemma and_pk_constructed key key' : constructed count_type keep count_len (and_pk key key').
Proof.
  apply constructed_node.
  apply Forall_cons_2; [apply pk_constructed|].
  apply Forall_cons_2; [apply pk_constructed | apply Forall_nil_2].
Defined.

Lemma node_eq_is_equality_witness :
  Key_eq_spec Z.eqb /\
  constructed count_type keep count_len (and_pk 1 2) /\
  constructed count_type keep count_len (and_pk 1 3) /\
  node_eq Z.eqb (and_pk 1 2) (and_pk 1 3) = Some false /\
  and_pk 1 2 <> and_pk 1 3.
Proof.
  split; [exact Z_eq_spec|]. split; [apply and_pk_constructed|].
  split; [apply and_pk_constructed|].
  destruct (node_eq_is_equality Z.eqb count_type keep count_len (and_pk 1 2) (and_pk 1 3)
              Z_eq_spec (and_pk_constructed 1 2) (and_pk_constructed 1 3))
    as (answer & Hrun & Hanswer).
  assert (Hfalse : node_eq Z.eqb (and_pk 1 2) (and_pk 1 3) = Some false) by reflexivity.
  split; [exact Hfalse|].
  rewrite Hfalse in Hrun. inversion Hrun as [Heq]. subst answer.
  intros Hsame. apply Hanswer in Hsame. discriminate Hsame.
Defined.

End Miniscript.
